(** * The word2vec tutorial notebook (docs/notebooks/word2vec.ipynb)

    The notebook is a Python 2 program cut into cells.  Two views of it are
    formalised here:

    - its authored code as functions over byte strings and a file system
      ([MySentences], [MyText], the toy-data cell), with the Python runtime
      operations they call ([str.split], [str.lower], file iteration,
      [os.listdir], [os.path.join], ...);
    - its text as a syntax tree (cells, statements, expressions), for the
      statements of the specification that speak about what the notebook
      contains. *)

From Stdlib Require Import Ascii String.
From stdpp Require Import base option list strings gmap sorting.

Open Scope string_scope.
Open Scope list_scope.
Open Scope nat_scope.

#[local] Set Warnings "-clear-no-such-hyp,-register-all".

(** ** Python 2 byte strings *)

Module Py.

(** [str] is a byte string; [ascii] is one byte. *)

Definition ord (c : ascii) : nat := nat_of_ascii c.

(** C [isspace] in the C locale: space, TAB, LF, VT, FF, CR. *)
Definition isspace (c : ascii) : bool :=
  let n := ord c in ((n =? 32) || ((9 <=? n) && (n <=? 13)))%nat.

(** C [isupper] in the C locale: 'A'..'Z'. *)
Definition isupper (c : ascii) : bool :=
  let n := ord c in ((65 <=? n) && (n <=? 90))%nat.

(** C [tolower] on an upper-case byte. *)
Definition tolower (c : ascii) : ascii :=
  if isupper c then ascii_of_nat (ord c + 32) else c.

(** [s.lower()] *)
Fixpoint lower (s : string) : string :=
  match s with
  | EmptyString => EmptyString
  | String c s' => String (tolower c) (lower s')
  end.

(** The bytes of a string, in order. *)
Fixpoint chars (s : string) : list ascii :=
  match s with
  | EmptyString => []
  | String c s' => c :: chars s'
  end.

(** The string of a reversed byte accumulator. *)
Fixpoint of_rev (acc : list ascii) (tail : string) : string :=
  match acc with
  | [] => tail
  | c :: acc' => of_rev acc' (String c tail)
  end.

(** [s.split()] without arguments: the scan for whitespace-separated fields
    of the string implementation.  [acc] is the token being read, last byte first; a token
    ends at a whitespace byte or at the end of the string, and an empty token
    is never produced. *)
Definition flush (acc : list ascii) (rest : list string) : list string :=
  match acc with
  | [] => rest
  | _ :: _ => of_rev acc EmptyString :: rest
  end.

Fixpoint split_from (acc : list ascii) (s : string) : list string :=
  match s with
  | EmptyString => flush acc []
  | String c s' =>
      if isspace c then flush acc (split_from [] s')
      else split_from (c :: acc) s'
  end.

Definition split (s : string) : list string := split_from [] s.

(** Iterating over a file opened in mode 'r': the content is cut after every
    LF, the LF stays at the end of its line, and a last line without LF is
    produced as it is. *)
Definition LF : ascii := ascii_of_nat 10.

Fixpoint lines_from (acc : list ascii) (s : string) : list string :=
  match s with
  | EmptyString => flush acc []
  | String c s' =>
      if Ascii.eqb c LF then of_rev (c :: acc) EmptyString :: lines_from [] s'
      else lines_from (c :: acc) s'
  end.

Definition readlines (content : string) : list string := lines_from [] content.

(** [s.startswith('/')], [s.endswith('/')] *)
Definition slash : ascii := ascii_of_nat 47.

Definition startswith_slash (s : string) : bool :=
  match s with
  | String c _ => Ascii.eqb c slash
  | EmptyString => false
  end.

Fixpoint endswith_slash (s : string) : bool :=
  match s with
  | EmptyString => false
  | String c EmptyString => Ascii.eqb c slash
  | String _ s' => endswith_slash s'
  end.

(** [repr(s)] of a byte string, [string_repr] in stringobject.c: single
    quotes, unless the string holds a single quote and no double quote;
    the quote and the backslash are escaped, TAB, LF and CR are written
    \t, \n and \r, the other bytes outside 32..126 as \xNN. *)
Definition backslash : ascii := ascii_of_nat 92.
Definition single_quote : ascii := ascii_of_nat 39.
Definition double_quote : ascii := ascii_of_nat 34.

Definition hexdigit (n : nat) : ascii :=
  nth n (chars "0123456789abcdef") (ascii_of_nat 48).

Definition repr_byte (quote c : ascii) : string :=
  let n := ord c in
  if Ascii.eqb c quote || Ascii.eqb c backslash then String backslash (String c EmptyString)
  else if n =? 9 then String backslash "t"
  else if n =? 10 then String backslash "n"
  else if n =? 13 then String backslash "r"
  else if (n <? 32) || (127 <=? n)
       then String backslash
              (String "x" (String (hexdigit (n / 16)) (String (hexdigit (n mod 16)) EmptyString)))
  else String c EmptyString.

Definition repr (s : string) : string :=
  let has q := existsb (Ascii.eqb q) (chars s) in
  let quote := if has single_quote && negb (has double_quote)
               then double_quote else single_quote in
  String quote (fold_right (fun c acc => repr_byte quote c +:+ acc)
                           (String quote EmptyString) (chars s)).

(** [repr(xs)] of a list, given the [repr] of its elements. *)
Definition repr_list {X} (repr_elt : X -> string) (xs : list X) : string :=
  "[" +:+ match map repr_elt xs with
          | [] => EmptyString
          | r :: rs => fold_left (fun acc q => acc +:+ ", " +:+ q) rs r
          end +:+ "]".

End Py.

(** ** Exceptions and the two effect monads

    Top-level cell code reads and writes the file system and may raise:
    [IO A] threads the file system and stops at the first exception.  A
    generator body only reads the file system; what a consumer sees of it
    is the sequence of values it yields and how it ends: [Gen Y A]. *)

Inductive exn := OSError | IOError | IndexError.

Inductive result (A : Type) :=
| Ok (a : A)
| Raised (e : exn).
Arguments Ok {A} a.
Arguments Raised {A} e.

Module Fs.

(** A directory entry is a regular file with its content, or something
    [open] cannot read (a sub-directory). *)
Inductive node := File (content : string) | Subdir.

(** A directory is the list of its entries in the order [os.listdir] reports
    them.  The file system maps a directory path (written with its final '/')
    to the directory; paths are compared as written.  Where the directory
    that a path lives in is in the map, its entries say what has that name:
    a regular file, or a directory ([Subdir]). *)
Abbreviation directory := (list (string * node)).
Abbreviation filesystem := (gmap string directory).

(** The order of a listing belongs to the file system, not to the program:
    when an entry is created the file system lists the directory anew, in an
    order of its choice (creation order, newest first, by hash of the
    name, ...).  A [listing] is that choice: any function that permutes. *)
Record listing := {
  arrange : directory -> directory;
  arrange_perm : forall d, arrange d ≡ₚ d
}.

(** New entries are listed last. *)
Definition creation_order : listing :=
  {| arrange := fun d => d; arrange_perm := fun d => Permutation_refl d |}.

(** New entries are listed first. *)
Definition newest_first : listing :=
  {| arrange := fun d => drop (length d - 1) d ++ take (length d - 1) d;
     arrange_perm := fun d =>
       eq_ind (take (length d - 1) d ++ drop (length d - 1) d)
              (fun x => drop (length d - 1) d ++ take (length d - 1) d ≡ₚ x)
              (Permutation_app_comm _ _) d (take_drop (length d - 1) d) |}.

Definition as_dir (p : string) : string :=
  if Py.endswith_slash p then p else p +:+ "/".

(** [os.path.split]: the part up to and including the last '/', and the rest. *)
Fixpoint split_path_from (head cur : list ascii) (p : string) : string * string :=
  match p with
  | EmptyString => (Py.of_rev head EmptyString, Py.of_rev cur EmptyString)
  | String c p' =>
      if Ascii.eqb c Py.slash then split_path_from (c :: cur ++ head) [] p'
      else split_path_from head (c :: cur) p'
  end.

Definition split_path (p : string) : string * string := split_path_from [] [] p.

(** The directory a file path lives in; a bare name lives in "./". *)
Definition dir_of (head : string) : string :=
  match head with EmptyString => "./" | _ => head end.

Fixpoint lookup_entry (name : string) (d : directory) : option node :=
  match d with
  | [] => None
  | (n, x) :: d' => if String.eqb n name then Some x else lookup_entry name d'
  end.

(** The entry [name] replaced where it stands. *)
Fixpoint set_entry (name : string) (x : node) (d : directory) : directory :=
  match d with
  | [] => [(name, x)]
  | (n, y) :: d' =>
      if String.eqb n name then (n, x) :: d' else (n, y) :: set_entry name x d'
  end.

(** A new entry: the directory holds it, listed where the file system
    chooses. *)
Definition add_entry (order : listing) (name : string) (x : node) (d : directory)
  : directory :=
  arrange order (d ++ [(name, x)]).

(** A path without its final slashes: ./data/ names the entry data of ./ *)
Fixpoint without_final_slashes (p : string) : string :=
  match p with
  | EmptyString => EmptyString
  | String c p' =>
      match without_final_slashes p' with
      | EmptyString => if Ascii.eqb c Py.slash then EmptyString else String c EmptyString
      | q => String c q
      end
  end.

End Fs.

Import Fs.

Definition IO (A : Type) : Type := filesystem -> result A * filesystem.

Definition io_ret {A} (a : A) : IO A := fun fs => (Ok a, fs).

Definition io_raise {A} (e : exn) : IO A := fun fs => (Raised e, fs).

Definition io_bind {A B} (m : IO A) (k : A -> IO B) : IO B :=
  fun fs =>
    match m fs with
    | (Ok a, fs') => k a fs'
    | (Raised e, fs') => (Raised e, fs')
    end.

Definition Gen (Y A : Type) : Type := filesystem -> list Y * result A.

Definition gen_ret {Y A} (a : A) : Gen Y A := fun _ => ([], Ok a).

Definition gen_raise {Y A} (e : exn) : Gen Y A := fun _ => ([], Raised e).

Definition yield {Y} (y : Y) : Gen Y unit := fun _ => ([y], Ok tt).

Definition gen_bind {Y A B} (m : Gen Y A) (k : A -> Gen Y B) : Gen Y B :=
  fun fs =>
    match m fs with
    | (ys, Ok a) => let '(ys', r) := k a fs in (ys ++ ys', r)
    | (ys, Raised e) => (ys, Raised e)
    end.

Declare Scope io_scope.
Delimit Scope io_scope with io.
Declare Scope gen_scope.
Delimit Scope gen_scope with gen.

Notation "x <- m ;; k" := (io_bind m (fun x => k))
  (at level 100, m at next level, right associativity) : io_scope.
Notation "m ;; k" := (io_bind m (fun _ => k))
  (at level 100, right associativity) : io_scope.
Notation "x <- m ;; k" := (gen_bind m (fun x => k))
  (at level 100, m at next level, right associativity) : gen_scope.
Notation "m ;; k" := (gen_bind m (fun _ => k))
  (at level 100, right associativity) : gen_scope.

(** [for x in xs: body] *)
Fixpoint io_for {X} (xs : list X) (body : X -> IO unit) : IO unit :=
  match xs with
  | [] => io_ret tt
  | x :: xs' => (body x ;; io_for xs' body)%io
  end.

Fixpoint gen_for {Y X} (xs : list X) (body : X -> Gen Y unit) : Gen Y unit :=
  match xs with
  | [] => gen_ret tt
  | x :: xs' => (body x ;; gen_for xs' body)%gen
  end.

(** Iterating a list already in memory yields its elements. *)
Definition iter_list {Y} (xs : list Y) : Gen Y unit := gen_for xs yield.

(** [list(it)]: runs the generator to its end on the current file system; an
    exception raised on the way leaves [list] and the values yielded before
    it are dropped. *)
Definition list_ {Y} (it : Gen Y unit) : IO (list Y) :=
  fun fs =>
    match it fs with
    | (ys, Ok _) => (Ok ys, fs)
    | (_, Raised e) => (Raised e, fs)
    end.

(** ** The runtime operations the notebook calls *)

Module os.

(** [os.listdir(path)] *)
Definition listdir {Y} (path : string) : Gen Y (list string) :=
  fun fs =>
    match path with
    | EmptyString => ([], Raised OSError)
    | _ => match fs !! as_dir path with
           | Some d => ([], Ok (d.*1))
           | None => ([], Raised OSError)
           end
    end.

(** [os.path.join(a, b)], posixpath *)
Definition path_join (a b : string) : string :=
  if Py.startswith_slash b then b
  else match a with
       | EmptyString => b
       | _ => if Py.endswith_slash a then a +:+ b else a +:+ "/" +:+ b
       end.

(** What the directory that [path] lives in lists under its name, where
    that directory is modelled. *)
Definition entry_at (fs : filesystem) (path : string) : option node :=
  let '(head, base) := split_path (without_final_slashes path) in
  match base, fs !! dir_of head with
  | String _ _, Some d => lookup_entry base d
  | _, _ => None
  end.

(** Does [path] name a directory or an entry of one?  A path that ends in
    '/' names directories only. *)
Definition exists_in (fs : filesystem) (path : string) : bool :=
  match path with
  | EmptyString => false
  | _ =>
      bool_decide (is_Some (fs !! as_dir path))
      || match entry_at fs path with
         | Some Subdir => true
         | Some (File _) => negb (Py.endswith_slash path)
         | None => false
         end
  end.

(** [os.path.exists(path)] *)
Definition path_exists (path : string) : IO bool :=
  fun fs => (Ok (exists_in fs path), fs).

(** The new directory in the listing of the one it lives in. *)
Definition register (order : listing) (path : string) (fs : filesystem) : filesystem :=
  let '(head, base) := split_path (without_final_slashes path) in
  match base, fs !! dir_of head with
  | String _ _, Some d => <[dir_of head := add_entry order base Subdir d]> fs
  | _, _ => fs
  end.

(** [os.makedirs(path)], for a path whose parent directory exists, as that
    of ./data/ does: raises when the name is taken, by a directory or by any
    other entry, a regular file included. *)
Definition makedirs (order : listing) (path : string) : IO unit :=
  fun fs =>
    match path with
    | EmptyString => (Raised OSError, fs)
    | _ =>
        if bool_decide (is_Some (fs !! as_dir path))
           || bool_decide (is_Some (entry_at fs path))
        then (Raised OSError, fs)
        else (Ok tt, <[as_dir path := []]> (register order path fs))
    end.

End os.

(** The content [open(path)] reads, if [path] is a regular file. *)
Definition file_content (fs : filesystem) (path : string) : option string :=
  let '(head, base) := split_path path in
  match fs !! dir_of head with
  | Some d => match lookup_entry base d with
              | Some (File content) => Some content
              | _ => None
              end
  | None => None
  end.

(** [open(path)] for reading, inside a generator: the file object is
    represented by the lines its iteration produces. *)
Definition open_ {Y} (path : string) : Gen Y (list string) :=
  fun fs =>
    match file_content fs path with
    | Some content => ([], Ok (Py.readlines content))
    | None => ([], Raised IOError)
    end.

Module smart_open.

(** [smart_open.smart_open(fname, 'w')] on a local path: a file that
    exists is emptied where it stands; a new file is created empty and the
    file system lists it where it chooses.  The handle is the path. *)
Definition smart_open_w (order : listing) (fname : string) : IO string :=
  fun fs =>
    let '(head, base) := split_path fname in
    match base, fs !! dir_of head with
    | EmptyString, _ => (Raised IOError, fs)
    | _, None => (Raised IOError, fs)
    | _, Some d =>
        match lookup_entry base d with
        | Some Subdir => (Raised IOError, fs)
        | Some (File _) =>
            (Ok fname, <[dir_of head := set_entry base (File EmptyString) d]> fs)
        | None =>
            (Ok fname, <[dir_of head := add_entry order base (File EmptyString) d]> fs)
        end
    end.

(** [fout.write(s)]: appends to the file behind the handle. *)
Definition write (fout : string) (s : string) : IO unit :=
  fun fs =>
    let '(head, base) := split_path fout in
    match fs !! dir_of head with
    | Some d =>
        match lookup_entry base d with
        | Some (File content) =>
            (Ok tt, <[dir_of head := set_entry base (File (content +:+ s)) d]> fs)
        | _ => (Raised IOError, fs)
        end
    | None => (Raised IOError, fs)
    end.

End smart_open.

(** [with ctx as h: body] for a file: the file is closed when the body ends,
    normally or not, and an exception of the body goes on. *)
Definition with_ {H} (ctx : IO H) (body : H -> IO unit) : IO unit :=
  (h <- ctx ;; body h)%io.

(** [enumerate(xs)] *)
Definition enumerate {X} (xs : list X) : list (nat * X) := imap (fun i x => (i, x)) xs.

(** [xs[i]] *)
Definition getitem {X} (xs : list X) (i : nat) : IO X :=
  match xs !! i with
  | Some x => io_ret x
  | None => io_raise IndexError
  end.

Definition nl : string := String Py.LF EmptyString.

(** ** The authored code of the notebook *)

(** In [2], line 57: [sentences = [['first', 'sentence'], ['second', 'sentence']]] *)
Definition sentences0 : list (list string) :=
  [["first"; "sentence"]; ["second"; "sentence"]].

(** In [3], line 87 *)
Definition filenames : list string := ["./data/f1.txt"; "./data/f2.txt"].

(** In [3], lines 84-92: the toy data.  [sentences] is the global of that
    name when the cell runs; [order] is how the file system the cell runs
    on lists new entries. *)
Definition write_toy_data (order : listing) (sentences : list (list string)) : IO unit :=
  (found <- os.path_exists "./data/" ;;
   (if negb found then os.makedirs order "./data/" else io_ret tt) ;;
   io_for (enumerate filenames) (fun '(i, fname) =>
     with_ (smart_open.smart_open_w order fname) (fun fout =>
       words <- getitem sentences i ;;
       io_for words (fun line => smart_open.write fout (line +:+ nl)))))%io.

(** In [4], lines 103-110 *)
Module MySentences.

Record t := { dirname : string }.

Definition __init__ (dirname : string) : t := {| dirname := dirname |}.

Definition __iter__ (self : t) : Gen (list string) unit :=
  (names <- os.listdir (dirname self) ;;
   gen_for names (fun fname =>
     f <- open_ (os.path_join (dirname self) fname) ;;
     gen_for f (fun line => yield (Py.split line))))%gen.

End MySentences.

(** In [10], lines 257-258.  [gensim.__path__[0]] is where the library is
    installed; [os.sep] is "/". *)
Definition str_join (sep : string) (parts : list string) : string :=
  match parts with
  | [] => EmptyString
  | p :: ps => fold_left (fun acc q => acc +:+ sep +:+ q) ps p
  end.

Definition test_data_dir (gensim_path : string) : string :=
  str_join "/" [gensim_path; "test"; "test_data"] +:+ "/".

Definition lee_train_file (gensim_path : string) : string :=
  test_data_dir gensim_path +:+ "lee_background.cor".

(** In [11], lines 277-281.  The class has no [__init__]; [__iter__] reads the
    global [lee_train_file]. *)
Module MyText.

Record t := { }.

Definition __iter__ (lee_train_file : string) (self : t) : Gen (list string) unit :=
  (f <- open_ lee_train_file ;;
   gen_for f (fun line => yield (Py.split (Py.lower line))))%gen.

End MyText.

(** ** The library the notebook drives

    Modelled from the spec: [gensim.models.Word2Vec] is code of the library,
    none of it under docs/notebooks.  The glossary gives the vocabulary as
    the set of distinct tokens observed during a first pass over the input
    sentences; the notebook's narration adds that [min_count] prunes the
    words seen fewer times (line 295) and that the first pass collects words
    and their frequencies (line 181).  Vectors and training are not
    modelled. *)
Module gensim.

(** First pass: every token with the number of times it was seen. *)
Definition count_word (m : gmap string nat) (w : string) : gmap string nat :=
  <[w := S (default 0 (m !! w))]> m.

Definition scan_vocab (sentences : list (list string)) : gmap string nat :=
  foldl count_word ∅ (concat sentences).

(** The vocabulary kept: the words seen at least [min_count] times. *)
Definition build_vocab (min_count : nat) (sentences : list (list string))
  : gmap string nat :=
  filter (fun kv => min_count <= kv.2) (scan_vocab sentences).

Record Word2Vec := { min_count : nat; vocab : gmap string nat }.

(** [Word2Vec(sentences, min_count=n)]: the first pass runs the iterable to
    its end; the training passes that follow read the same sentences
    again. *)
Definition Word2Vec_ (sentences : Gen (list string) unit) (n : nat) : IO Word2Vec :=
  (seen <- list_ sentences ;;
   io_ret {| min_count := n; vocab := build_vocab n seen |})%io.

End gensim.

(** The inputs In [3] to In [6] in order (lines 84-150), [sentences] being
    the global of that name as In [3] finds it: the toy data is written from
    it, [sentences] is rebound to the directory iterator and printed as a
    list, and [model] is bound to a model built from the iterator, with
    [min_count=1]. *)
Definition In_3_to_6 (order : listing) (sentences : list (list string))
  : IO (list (list string) * gensim.Word2Vec) :=
  (write_toy_data order sentences ;;
   let sentences := MySentences.__init__ "./data/" in
   printed <- list_ (MySentences.__iter__ sentences) ;;
   model <- gensim.Word2Vec_ (MySentences.__iter__ sentences) 1 ;;
   io_ret (printed, model))%io.

(** The inputs In [2] to In [6] in order (lines 57-150): In [2] binds
    [sentences] to the two sentences in memory and [model] to a model built
    from them, with [min_count=1]; In [6] binds [model] again. *)
Definition In_2_to_6 (order : listing) : IO (list (list string) * gensim.Word2Vec) :=
  (let sentences := sentences0 in
   model <- gensim.Word2Vec_ (iter_list sentences) 1 ;;
   In_3_to_6 order sentences)%io.

(** ** Predicates and reference functions of the statements *)

(** A directory entry name is not empty and holds no '/'. *)
Definition valid_name (n : string) : bool :=
  match n with
  | EmptyString => false
  | _ => forallb (fun c => negb (Ascii.eqb c Py.slash)) (Py.chars n)
  end.

(** A directory lists each name once. *)
Fixpoint wf_directory (d : directory) : bool :=
  match d with
  | [] => true
  | (n, _) :: d' =>
      valid_name n
      && match lookup_entry n d' with None => true | Some _ => false end
      && wf_directory d'
  end.

(** The sequence as the specification words it: for each entry in listing
    order, for each line of that file in order, the whitespace-split tokens
    of the line. *)
Definition sentences_in_order (d : directory) : list (list string) :=
  flat_map (fun e => match e.2 with
                     | File content => map Py.split (Py.readlines content)
                     | Subdir => []
                     end) d.

(** What the generator does on any directory: it stops with [IOError] at
    the first entry [open] cannot read, after the sentences of the files
    before it. *)
Fixpoint iter_trace (d : directory) : list (list string) * result unit :=
  match d with
  | [] => ([], Ok tt)
  | (_, File content) :: d' =>
      let '(ys, r) := iter_trace d' in (map Py.split (Py.readlines content) ++ ys, r)
  | (_, Subdir) :: _ => ([], Raised IOError)
  end.

Definition all_files (d : directory) : bool :=
  forallb (fun e => match e.2 with File _ => true | Subdir => false end) d.

Definition blank (line : string) : Prop :=
  Forall (fun c => Py.isspace c = true) (Py.chars line).

(** The text written for a list of words: each word followed by LF. *)
Definition text_of_lines (words : list string) : string :=
  foldr (fun w acc => w +:+ nl +:+ acc) EmptyString words.

(** The files In [3] leaves in ./data/, f1.txt listed first. *)
Definition written_directory (s1 s2 : list string) : directory :=
  [("f1.txt", File (text_of_lines s1)); ("f2.txt", File (text_of_lines s2))].

(** ./data/ before In [3] has run: an empty directory, or nothing of that
    name, neither a directory nor an entry of ./ *)
Definition fresh_data (fs : filesystem) : Prop :=
  fs !! "./data/" = Some []
  \/ (fs !! "./data/" = None /\ os.entry_at fs "./data/" = None).

(** The directory once [name] has been opened in it for writing. *)
Definition opened (order : listing) (name : string) (d : directory) : directory :=
  match lookup_entry name d with
  | Some _ => set_entry name (File EmptyString) d
  | None => add_entry order name (File EmptyString) d
  end.

(** ./data/ as In [3] leaves it, from what it held: f1.txt is opened and
    filled, then f2.txt. *)
Definition toy_directory (order : listing) (s1 s2 : list string) (d : directory)
  : directory :=
  set_entry "f2.txt" (File (text_of_lines s2))
    (opened order "f2.txt"
       (set_entry "f1.txt" (File (text_of_lines s1)) (opened order "f1.txt" d))).

(** A word as the tutorial means it: not empty, no whitespace byte. *)
Definition clean_word (w : string) : bool :=
  match w with
  | EmptyString => false
  | _ => forallb (fun c => negb (Py.isspace c)) (Py.chars w)
  end.

Definition lowercase (token : string) : Prop :=
  Forall (fun c => Py.isupper c = false) (Py.chars token).


(** * The notebook as a syntax tree

    Expressions and statements follow the abstract grammar of Python 2.7
    (module [ast]), cut down to the forms a tutorial could use; the forms the
    notebook does not use are kept, so that saying it has none of them says
    something.  An [except] clause is a statement of its own kind, found
    only in the handler list of a [TryExcept].  Comments are not part of the
    tree. *)

Module ast.

Inductive operator := Add | Sub | Mult | Div | Mod | Pow.
Inductive unaryop := Not | USub.
Inductive boolop := And | Or.

Inductive expr :=
| BoolOp (op : boolop) (values : list expr)
| BinOp (left : expr) (op : operator) (right : expr)
| UnaryOp (op : unaryop) (operand : expr)
| Lambda (args : list string) (body : expr)
| IfExp (test body orelse : expr)
| ListComp (elt target iter : expr) (ifs : list expr)
| Yield (value : expr)
| Call (func : expr) (args : list expr) (keywords : list (string * expr))
| Num (n : nat)
| Str (s : string)
| Attribute (value : expr) (attr : string)
| Subscript (value index : expr)
| Name (id : string)
| List_ (elts : list expr)
| Tuple (elts : list expr).

Inductive stmt :=
| FunctionDef (name : string) (args : list string) (body : list stmt)
| ClassDef (name : string) (bases : list expr) (body : list stmt)
| Return (value : expr)
| Assign (targets : list expr) (value : expr)
| AugAssign (target : expr) (op : operator) (value : expr)
| Print (values : list expr)
| For (target iter : expr) (body orelse : list stmt)
| While (test : expr) (body orelse : list stmt)
| If (test : expr) (body orelse : list stmt)
| With (context_expr : expr) (optional_vars : option expr) (body : list stmt)
| Raise (exc : expr)
| TryExcept (body handlers orelse : list stmt)
| ExceptHandler (type : option expr) (body : list stmt)
| TryFinally (body finalbody : list stmt)
| Assert (test : expr)
| Import (names : list string)
| ImportFrom (module : string) (names : list string)
| Expr (value : expr)
| Pass
| Break
| Continue.

End ast.

Import ast.

(** A cell is narration (its lines, without the line ends) or code (its
    execution count as saved, and its statements). *)
Inductive cell :=
| Markdown (source : list string)
| Code (execution_count : option nat) (source : list stmt).

(** The double quote, for the narration that holds one. *)
Definition dq : string := String (ascii_of_nat 34) EmptyString.

(** The output saved for [print(list(sentences))], line 124, without its
    line end. *)
Definition stdout_of_print_list : string :=
  "[['first'], ['sentence'], ['second'], ['sentence']]".

(** ** The cells of docs/notebooks/word2vec.ipynb, with the lines of the file
    their source stands on *)

(** lines 7-17 *)
Definition cell_01 : cell :=
  Markdown [
    "# Word2Vec Tutorial";
    EmptyString;
    ("In case you missed the buzz, word2vec is a widely featured as a member of the “new wave” of machine learning algorithms based on neural networks, commonly referred to as " +:+ dq +:+ "deep learning" +:+ dq +:+ " (though word2vec itself is rather shallow). Using large amounts of unannotated plain text, word2vec learns relationships between words automatically. The output are vectors, one vector per word, with remarkable linear relationships that allow us to do things like vec(“king”) – vec(“man”) + vec(“woman”) =~ vec(“queen”), or vec(“Montreal Canadiens”) – vec(“Montreal”) + vec(“Toronto”) resembles the vector for “Toronto Maple Leafs”.");
    EmptyString;
    "Word2vec is very useful in [automatic text tagging](https://github.com/RaRe-Technologies/movie-plots-by-genre), recommender systems and machine translation.";
    EmptyString;
    "Check out an [online word2vec demo](http://radimrehurek.com/2014/02/word2vec-tutorial/#app) where you can try this vector algebra for yourself. That demo runs `word2vec` on the Google News dataset, of **about 100 billion words**.";
    EmptyString;
    "## This tutorial";
    EmptyString;
    "In this tutorial you will learn how to train and evaluate word2vec models on your business data.";
    EmptyString].

(** lines 24-25 *)
Definition cell_02 : cell :=
  Markdown [
    "## Preparing the Input";
    "Starting from the beginning, gensim’s `word2vec` expects a sequence of sentences as its input. Each sentence a list of words (utf8 strings):"].

(** lines 36-38 *)
Definition cell_03 : cell :=
  Code (Some 1) [
    Import ["gensim"; "logging"];
    Expr (Call (Attribute (Name "logging") "basicConfig") [] [("format", Str "%(asctime)s : %(levelname)s : %(message)s"); ("level", Attribute (Name "logging") "INFO")])].

(** lines 57-59 *)
Definition cell_04 : cell :=
  Code (Some 2) [
    Assign [Name "sentences"] (List_ [List_ [Str "first"; Str "sentence"]; List_ [Str "second"; Str "sentence"]]);
    Assign [Name "model"] (Call (Attribute (Attribute (Name "gensim") "models") "Word2Vec") [Name "sentences"] [("min_count", Num 1)])].

(** lines 66-70 *)
Definition cell_05 : cell :=
  Markdown [
    "Keeping the input as a Python built-in list is convenient, but can use up a lot of RAM when the input is large.";
    EmptyString;
    "Gensim only requires that the input must provide sentences sequentially, when iterated over. No need to keep everything in RAM: we can provide one sentence, process it, forget it, load another sentence…";
    EmptyString;
    "For example, if our input is strewn across several files on disk, with one sentence per line, then instead of loading everything into an in-memory list, we can process the input file by file, line by line:"].

(** lines 81-92 *)
Definition cell_06 : cell :=
  Code (Some 3) [
    Import ["smart_open"; "os"];
    If (UnaryOp Not (Call (Attribute (Attribute (Name "os") "path") "exists") [Str "./data/"] [])) [
      Expr (Call (Attribute (Name "os") "makedirs") [Str "./data/"] [])] [];
    Assign [Name "filenames"] (List_ [Str "./data/f1.txt"; Str "./data/f2.txt"]);
    For (Tuple [Name "i"; Name "fname"]) (Call (Name "enumerate") [Name "filenames"] []) [
      With (Call (Attribute (Name "smart_open") "smart_open") [Name "fname"; Str "w"] []) (Some (Name "fout")) [
        For (Name "line") (Subscript (Name "sentences") (Name "i")) [
          Expr (Call (Attribute (Name "fout") "write") [BinOp (Name "line") Add (Str nl)] [])] []]] []].

(** lines 103-110 *)
Definition cell_07 : cell :=
  Code (Some 4) [
    ClassDef "MySentences" [Name "object"] [
      FunctionDef "__init__" ["self"; "dirname"] [
        Assign [Attribute (Name "self") "dirname"] (Name "dirname")];
      FunctionDef "__iter__" ["self"] [
        For (Name "fname") (Call (Attribute (Name "os") "listdir") [Attribute (Name "self") "dirname"] []) [
          For (Name "line") (Call (Name "open") [Call (Attribute (Attribute (Name "os") "path") "join") [Attribute (Name "self") "dirname"; Name "fname"] []] []) [
            Expr (Yield (Call (Attribute (Name "line") "split") [] []))] []] []]]].

(** lines 129-130 *)
Definition cell_08 : cell :=
  Code (Some 5) [
    Assign [Name "sentences"] (Call (Name "MySentences") [Str "./data/"] []);
    Print [Call (Name "list") [Name "sentences"] []]].

(** lines 149-150 *)
Definition cell_09 : cell :=
  Code (Some 6) [
    Assign [Name "model"] (Call (Attribute (Attribute (Name "gensim") "models") "Word2Vec") [Name "sentences"] [("min_count", Num 1)])].

(** lines 170-171 *)
Definition cell_10 : cell :=
  Code (Some 7) [
    Print [Name "model"];
    Print [Attribute (Attribute (Name "model") "wv") "vocab"]].

(** lines 178-184 *)
Definition cell_11 : cell :=
  Markdown [
    "Say we want to further preprocess the words from the files — convert to unicode, lowercase, remove numbers, extract named entities… All of this can be done inside the `MySentences` iterator and `word2vec` doesn’t need to know. All that is required is that the input yields one sentence (list of utf8 words) after another.";
    EmptyString;
    "**Note to advanced users:** calling `Word2Vec(sentences, iter=1)` will run **two** passes over the sentences iterator. In general it runs `iter+1` passes. By the way, the default value is `iter=5` to comply with Google's word2vec in C language. ";
    "  1. The first pass collects words and their frequencies to build an internal dictionary tree structure. ";
    "  2. The second pass trains the neural model.";
    EmptyString;
    "These two passes can also be initiated manually, in case your input stream is non-repeatable (you can only afford one pass), and you’re able to initialize the vocabulary some other way:"].

(** lines 213-216 *)
Definition cell_12 : cell :=
  Code (Some 8) [
    Assign [Name "new_model"] (Call (Attribute (Attribute (Name "gensim") "models") "Word2Vec") [] [("min_count", Num 1)]);
    Expr (Call (Attribute (Name "new_model") "build_vocab") [Name "sentences"] []);
    Expr (Call (Attribute (Name "new_model") "train") [Name "sentences"] [])].

(** lines 236-237 *)
Definition cell_13 : cell :=
  Code (Some 9) [
    Print [Name "new_model"];
    Print [Attribute (Attribute (Name "model") "wv") "vocab"]].

(** lines 244-245 *)
Definition cell_14 : cell :=
  Markdown [
    "## More data would be nice";
    "For the following examples, we'll use the [Lee Corpus](https://github.com/RaRe-Technologies/gensim/blob/develop/gensim/test/test_data/lee_background.cor) (which you already have if you've installed gensim):"].

(** lines 256-258 *)
Definition cell_15 : cell :=
  Code (Some 10) [
    Assign [Name "test_data_dir"] (BinOp (Call (Attribute (Call (Attribute (Str "{}") "format") [Attribute (Name "os") "sep"] []) "join") [List_ [Subscript (Attribute (Name "gensim") "__path__") (Num 0); Str "test"; Str "test_data"]] []) Add (Attribute (Name "os") "sep"));
    Assign [Name "lee_train_file"] (BinOp (Name "test_data_dir") Add (Str "lee_background.cor"))].

(** lines 277-285 *)
Definition cell_16 : cell :=
  Code (Some 11) [
    ClassDef "MyText" [Name "object"] [
      FunctionDef "__iter__" ["self"] [
        For (Name "line") (Call (Name "open") [Name "lee_train_file"] []) [
          Expr (Yield (Call (Attribute (Call (Attribute (Name "line") "lower") [] []) "split") [] []))] []]];
    Assign [Name "sentences"] (Call (Name "MyText") [] []);
    Print [Name "sentences"]].

(** lines 292-295 *)
Definition cell_17 : cell :=
  Markdown [
    "## Training";
    "`Word2Vec` accepts several parameters that affect both training speed and quality.";
    EmptyString;
    "One of them is for pruning the internal dictionary. Words that appear only once or twice in a billion-word corpus are probably uninteresting typos and garbage. In addition, there’s not enough data to make any meaningful training on those words, so it’s best to ignore them:"].

(** lines 306-307 *)
Definition cell_18 : cell :=
  Code (Some 12) [
    Assign [Name "model"] (Call (Attribute (Attribute (Name "gensim") "models") "Word2Vec") [Name "sentences"] [("min_count", Num 10)])].

(** lines 318-319 *)
Definition cell_19 : cell :=
  Code (Some 13) [
    Assign [Name "model"] (Call (Attribute (Attribute (Name "gensim") "models") "Word2Vec") [Name "sentences"] [("size", Num 200)])].

(** lines 326-328 *)
Definition cell_20 : cell :=
  Markdown [
    "Bigger size values require more training data, but can lead to better (more accurate) models. Reasonable values are in the tens to hundreds.";
    EmptyString;
    "The last of the major parameters (full list [here](http://radimrehurek.com/gensim/models/word2vec.html#gensim.models.word2vec.Word2Vec)) is for training parallelization, to speed up training:"].

(** lines 347-348 *)
Definition cell_21 : cell :=
  Code (Some 14) [
    Assign [Name "model"] (Call (Attribute (Attribute (Name "gensim") "models") "Word2Vec") [Name "sentences"] [("workers", Num 4)])].

(** line 355 *)
Definition cell_22 : cell :=
  Markdown [
    "The `workers` parameter only has an effect if you have [Cython](http://cython.org/) installed. Without Cython, you’ll only be able to use one core because of the [GIL](https://wiki.python.org/moin/GlobalInterpreterLock) (and `word2vec` training will be [miserably slow](http://rare-technologies.com/word2vec-in-python-part-two-optimizing/))."].

(** lines 362-367 *)
Definition cell_23 : cell :=
  Markdown [
    "## Memory";
    "At its core, `word2vec` model parameters are stored as matrices (NumPy arrays). Each array is **#vocabulary** (controlled by min_count parameter) times **#size** (size parameter) of floats (single precision aka 4 bytes).";
    EmptyString;
    "Three such matrices are held in RAM (work is underway to reduce that number to two, or even one). So if your input contains 100,000 unique words, and you asked for layer `size=200`, the model will require approx. `100,000*200*4*3 bytes = ~229MB`.";
    EmptyString;
    "There’s a little extra memory needed for storing the vocabulary tree (100,000 words would take a few megabytes), but unless your words are extremely loooong strings, memory footprint will be dominated by the three matrices above."].

(** lines 374-381 *)
Definition cell_24 : cell :=
  Markdown [
    "## Evaluating";
    "`Word2Vec` training is an unsupervised task, there’s no good way to objectively evaluate the result. Evaluation depends on your end application.";
    EmptyString;
    "Google have released their testing set of about 20,000 syntactic and semantic test examples, following the “A is to B as C is to D” task. It is provided in the 'datasets' folder.";
    EmptyString;
    "For example a syntactic analogy of comparative type is bad:worse;good:?. There are total of 9 types of syntactic comparisons in the dataset like plural nouns and nouns of opposite meaning.";
    EmptyString;
    "The semantic questions contain five types of semantic analogies, such as capital cities (Paris:France;Tokyo:?) or family members (brother:sister;dad:?). "].

(** line 388 *)
Definition cell_25 : cell :=
  Markdown [
    "Gensim support the same evaluation set, in exactly the same format:"].

(** line 626 *)
Definition cell_26 : cell :=
  Code (Some 15) [
    Expr (Call (Attribute (Name "model") "accuracy") [Str "./datasets/questions-words.txt"] [])].

(** lines 633-636 *)
Definition cell_27 : cell :=
  Markdown [
    "This `accuracy` takes an ";
    "[optional parameter](http://radimrehurek.com/gensim/models/word2vec.html#gensim.models.word2vec.Word2Vec.accuracy) `restrict_vocab` ";
    "which limits which test examples are to be considered.";
    EmptyString;
    EmptyString].

(** lines 643-645 *)
Definition cell_28 : cell :=
  Markdown [
    "In the December 2016 release of Gensim we added a better way to evaluate semantic similarity.";
    EmptyString;
    "By default it uses an academic dataset WS-353 but one can create a dataset specific to your business based on it. It contain word pairs together with human-assigned similarity judgments. It measures the relatedness or co-occurrence of two words. For example, coast and shore are very similar as they appear in the same context. At the same time clothes and closet are less similar because they are related but not interchangeable."].

(** line 669 *)
Definition cell_29 : cell :=
  Code (Some 16) [
    Expr (Call (Attribute (Name "model") "evaluate_word_pairs") [BinOp (Name "test_data_dir") Add (Str "wordsim353.tsv")] [])].

(** line 676 *)
Definition cell_30 : cell :=
  Markdown [
    "Once again, **good performance on Google's or WS-353 test set doesn’t mean word2vec will work well in your application, or vice versa**. It’s always best to evaluate directly on your intended task. For an example of how to use word2vec in a classifier pipeline, see this [tutorial](https://github.com/RaRe-Technologies/movie-plots-by-genre)."].

(** lines 683-684 *)
Definition cell_31 : cell :=
  Markdown [
    "## Storing and loading models";
    "You can store/load models using the standard gensim methods:"].

(** lines 695-699 *)
Definition cell_32 : cell :=
  Code (Some 17) [
    ImportFrom "tempfile" ["mkstemp"];
    Assign [Tuple [Name "fs"; Name "temp_path"]] (Call (Name "mkstemp") [Str "gensim_temp"] []);
    Expr (Call (Attribute (Name "model") "save") [Name "temp_path"] [])].

(** line 710 *)
Definition cell_33 : cell :=
  Code (Some 18) [
    Assign [Name "new_model"] (Call (Attribute (Attribute (Attribute (Name "gensim") "models") "Word2Vec") "load") [Name "temp_path"] [])].

(** lines 717-723 *)
Definition cell_34 : cell :=
  Markdown [
    "which uses pickle internally, optionally `mmap`‘ing the model’s internal large NumPy matrices into virtual memory directly from disk files, for inter-process memory sharing.";
    EmptyString;
    "In addition, you can load models created by the original C tool, both using its text and binary formats:";
    EmptyString;
    "    model = gensim.models.Word2Vec.load_word2vec_format('/tmp/vectors.txt', binary=False)";
    "    # using gzipped/bz2 input works too, no need to unzip:";
    "    model = gensim.models.Word2Vec.load_word2vec_format('/tmp/vectors.bin.gz', binary=True)"].

(** lines 730-731 *)
Definition cell_35 : cell :=
  Markdown [
    "## Online training / Resuming training";
    "Advanced users can load a model and continue training it with more sentences and [new vocabulary words](https://github.com/RaRe-Technologies/gensim/blob/develop/docs/notebooks/online_w2v_tutorial.ipynb):"].

(** lines 750-758 *)
Definition cell_36 : cell :=
  Code (Some 19) [
    Assign [Name "model"] (Call (Attribute (Attribute (Attribute (Name "gensim") "models") "Word2Vec") "load") [Name "temp_path"] []);
    Assign [Name "more_sentences"] (List_ [List_ [Str "Advanced"; Str "users"; Str "can"; Str "load"; Str "a"; Str "model"; Str "and"; Str "continue"; Str "training"; Str "it"; Str "with"; Str "more"; Str "sentences"]]);
    Expr (Call (Attribute (Name "model") "build_vocab") [Name "more_sentences"] [("update", Name "True")]);
    Expr (Call (Attribute (Name "model") "train") [Name "more_sentences"] []);
    Expr (Call (Attribute (Name "os") "close") [Name "fs"] []);
    Expr (Call (Attribute (Name "os") "remove") [Name "temp_path"] [])].

(** lines 765-770 *)
Definition cell_37 : cell :=
  Markdown [
    "You may need to tweak the `total_words` parameter to `train()`, depending on what learning rate decay you want to simulate.";
    EmptyString;
    "Note that it’s not possible to resume training with models generated by the C tool, `load_word2vec_format()`. You can still use them for querying/similarity, but information vital for training (the vocab tree) is missing there.";
    EmptyString;
    "## Using the model";
    "`Word2Vec` supports several word similarity tasks out of the box:"].

(** line 792 *)
Definition cell_38 : cell :=
  Code (Some 20) [
    Expr (Call (Attribute (Name "model") "most_similar") [] [("positive", List_ [Str "human"; Str "crime"]); ("negative", List_ [Str "party"]); ("topn", Num 1)])].

(** line 814 *)
Definition cell_39 : cell :=
  Code (Some 21) [
    Expr (Call (Attribute (Name "model") "doesnt_match") [Call (Attribute (Str "input is lunch he sentence cat") "split") [] []] [])].

(** lines 834-835 *)
Definition cell_40 : cell :=
  Code (Some 22) [
    Print [Call (Attribute (Name "model") "similarity") [Str "human"; Str "party"] []];
    Print [Call (Attribute (Name "model") "similarity") [Str "tree"; Str "murder"] []]].

(** line 842 *)
Definition cell_41 : cell :=
  Markdown [
    "The results here don't look good because the training corpus is very small. To get meaningful results one needs to train on 500k+ words."].

(** line 849 *)
Definition cell_42 : cell :=
  Markdown [
    "If you need the raw output vectors in your application, you can access these either on a word-by-word basis:"].

(** line 890 *)
Definition cell_43 : cell :=
  Code (Some 23) [
    Expr (Subscript (Name "model") (Str "tree"))].

(** lines 897-906 *)
Definition cell_44 : cell :=
  Markdown [
    "…or en-masse as a 2D NumPy matrix from `model.syn0`.";
    EmptyString;
    "## Conclusion";
    EmptyString;
    "In this tutorial we learned how to train word2vec models on your custom data and also how to evaluate it. Hope that you too will find this popular tool useful in your Machine Learning tasks!";
    EmptyString;
    "## Links";
    EmptyString;
    EmptyString;
    "Full `word2vec` API docs [here](http://radimrehurek.com/gensim/models/word2vec.html); get [gensim](http://radimrehurek.com/gensim/) here. Original C toolkit and `word2vec` papers by Google [here](https://code.google.com/archive/p/word2vec/)."].

(** line 916, empty *)
Definition cell_45 : cell :=
  Code None [].

Definition notebook : list cell :=
  [cell_01; cell_02; cell_03; cell_04; cell_05; cell_06;
   cell_07; cell_08; cell_09; cell_10; cell_11; cell_12;
   cell_13; cell_14; cell_15; cell_16; cell_17; cell_18;
   cell_19; cell_20; cell_21; cell_22; cell_23; cell_24;
   cell_25; cell_26; cell_27; cell_28; cell_29; cell_30;
   cell_31; cell_32; cell_33; cell_34; cell_35; cell_36;
   cell_37; cell_38; cell_39; cell_40; cell_41; cell_42;
   cell_43; cell_44; cell_45].

(** ** Reading the tree *)

(** An expression and every expression inside it, outermost first. *)
Fixpoint subexprs (e : expr) : list expr :=
  e :: match e with
       | BoolOp _ values => flat_map subexprs values
       | BinOp lhs _ rhs => subexprs lhs ++ subexprs rhs
       | UnaryOp _ operand => subexprs operand
       | Lambda _ body => subexprs body
       | IfExp test body orelse => subexprs test ++ subexprs body ++ subexprs orelse
       | ListComp elt target iter ifs =>
           subexprs elt ++ subexprs target ++ subexprs iter ++ flat_map subexprs ifs
       | Yield value => subexprs value
       | Call func args keywords =>
           subexprs func ++ flat_map subexprs args
           ++ flat_map (fun kw => subexprs kw.2) keywords
       | Attribute value _ => subexprs value
       | Subscript value index => subexprs value ++ subexprs index
       | List_ elts | Tuple elts => flat_map subexprs elts
       | Num _ | Str _ | Name _ => []
       end.

(** The expressions a statement evaluates itself, in evaluation order; those
    of the statements nested in it are not among them. *)
Definition own_exprs (s : stmt) : list expr :=
  match s with
  | ClassDef _ bases _ => bases
  | Return value => [value]
  | Assign targets value => value :: targets
  | AugAssign target _ value => [target; value]
  | Print values => values
  | For target iter _ _ => [iter; target]
  | While test _ _ | If test _ _ | Assert test => [test]
  | With context_expr optional_vars _ => context_expr :: option_list optional_vars
  | Raise exc => [exc]
  | ExceptHandler type _ => option_list type
  | Expr value => [value]
  | FunctionDef _ _ _ | TryExcept _ _ _ | TryFinally _ _
  | Import _ | ImportFrom _ _ | Pass | Break | Continue => []
  end.

(** A statement and every statement nested in it, outermost first. *)
Fixpoint stmts_within (s : stmt) : list stmt :=
  s :: match s with
       | FunctionDef _ _ body | ClassDef _ _ body | With _ _ body
       | ExceptHandler _ body => flat_map stmts_within body
       | For _ _ body orelse | While _ body orelse | If _ body orelse =>
           flat_map stmts_within body ++ flat_map stmts_within orelse
       | TryExcept body handlers orelse =>
           flat_map stmts_within body ++ flat_map stmts_within handlers
           ++ flat_map stmts_within orelse
       | TryFinally body finalbody =>
           flat_map stmts_within body ++ flat_map stmts_within finalbody
       | _ => []
       end.

Definition code_of (c : cell) : list stmt :=
  match c with Code _ source => source | Markdown _ => [] end.

Definition narration_of (c : cell) : list string :=
  match c with Markdown source => source | Code _ _ => [] end.

(** The code of the notebook: the statements of its code cells, in order. *)
Definition program (nb : list cell) : list stmt := flat_map code_of nb.

Definition narration (nb : list cell) : list string := flat_map narration_of nb.

Definition all_stmts (nb : list cell) : list stmt :=
  flat_map stmts_within (program nb).

Definition all_exprs (nb : list cell) : list expr :=
  flat_map (fun s => flat_map subexprs (own_exprs s)) (all_stmts nb).

(** The saved execution counts of the code cells that were run. *)
Definition execution_counts (nb : list cell) : list nat :=
  flat_map (fun c => match c with Code (Some n) _ => [n] | _ => [] end) nb.

(** [needle in hay] *)
Fixpoint is_infix (needle hay : string) : bool :=
  String.prefix needle hay
  || match hay with
     | EmptyString => false
     | String _ hay' => is_infix needle hay'
     end.

Definition mentions (needle : string) (lines : list string) : bool :=
  existsb (is_infix needle) lines.

Definition among (x : string) (xs : list string) : bool :=
  existsb (String.eqb x) xs.

(** ** Which constructs the code uses *)

Definition is_branch_or_loop (s : stmt) : bool :=
  match s with
  | For _ _ _ _ | While _ _ _ | If _ _ _ | TryExcept _ _ _ | TryFinally _ _
  | Break | Continue => true
  | _ => false
  end.

(** [try], [except], [finally], [raise], [assert]: what handles or signals an
    error in the code itself. *)
Definition is_error_construct (s : stmt) : bool :=
  match s with
  | TryExcept _ _ _ | ExceptHandler _ _ | TryFinally _ _ | Raise _ | Assert _ => true
  | _ => false
  end.

(** Expressions that choose or repeat. *)
Definition is_branching_expr (e : expr) : bool :=
  match e with
  | BoolOp _ _ | IfExp _ _ _ | ListComp _ _ _ _ | Lambda _ _ => true
  | _ => false
  end.

(** Which kind of branch or loop a statement is. *)
Definition construct_name (s : stmt) : string :=
  match s with
  | For _ _ _ _ => "for" | While _ _ _ => "while" | If _ _ _ => "if"
  | TryExcept _ _ _ | TryFinally _ _ => "try"
  | Break => "break" | Continue => "continue"
  | _ => EmptyString
  end.

Definition constructs_of (c : cell) : list string :=
  map construct_name (List.filter is_branch_or_loop (flat_map stmts_within (code_of c))).

(** The functions and classes the code defines, with the names of the
    functions inside each class. *)
Definition definition_of (s : stmt) : list (string * list string) :=
  match s with
  | FunctionDef name _ _ => [(name, [])]
  | ClassDef name _ body =>
      [(name, flat_map (fun m => match m with
                                 | FunctionDef method _ _ => [method]
                                 | _ => []
                                 end) body)]
  | _ => []
  end.

Definition definitions (nb : list cell) : list (string * list string) :=
  flat_map definition_of (program nb).

(** Every name a [def] or [class] statement binds, at any depth. *)
Definition defined_names (nb : list cell) : list string :=
  flat_map (fun s => match s with
                     | FunctionDef name _ _ | ClassDef name _ _ => [name]
                     | _ => []
                     end) (all_stmts nb).

(** The bodies of the functions defined, at any depth, with their names. *)
Definition function_bodies (nb : list cell) : list (string * list stmt) :=
  flat_map (fun s => match s with
                     | FunctionDef name _ body => [(name, body)]
                     | _ => []
                     end) (all_stmts nb).

(** A body has logic of its own when it branches, loops, or hands back a
    value: that is what a test of the function would check. *)
Definition computes (s : stmt) : bool :=
  is_branch_or_loop s
  || match s with
     | Return _ => true
     | _ => existsb (fun e => match e with Yield _ => true | _ => is_branching_expr e end)
                    (flat_map subexprs (own_exprs s))
     end.

Definition has_logic (body : list stmt) : bool :=
  existsb computes (flat_map stmts_within body).

(** Arithmetic: an operator other than [+], an operand that is a number, or
    an augmented assignment. *)
Definition is_arithmetic (e : expr) : bool :=
  match e with
  | BinOp lhs op rhs =>
      match op, lhs, rhs with
      | Add, Num _, _ | Add, _, Num _ => true
      | Add, _, _ => false
      | _, _, _ => true
      end
  | UnaryOp USub _ => true
  | _ => false
  end.

Definition is_aug_assign (s : stmt) : bool :=
  match s with AugAssign _ _ _ => true | _ => false end.

(** ** Where a called function comes from

    Names are followed through the cells in order: an imported module and
    whatever is reached from it by attribute, call or index belongs to that
    library; a class or function defined in the notebook, and what calling it
    returns, is authored here; everything else is a builtin or a literal. *)

Inductive provenance :=
| Library (module : string)
| Authored (name : string)
| Builtin.

Definition from_library (module : string) (p : provenance) : bool :=
  match p with Library m => String.eqb m module | _ => false end.

Definition is_authored (p : provenance) : bool :=
  match p with Authored _ => true | _ => false end.

Fixpoint provenance_of (env : gmap string provenance) (e : expr) : provenance :=
  match e with
  | Name id => default Builtin (env !! id)
  | Attribute value _ | Subscript value _ => provenance_of env value
  | Call func _ _ => provenance_of env func
  | _ => Builtin
  end.

(** A call as it stands in the code: the name called, where the called
    function comes from, how deep the statement is nested (0 for a top-level
    statement of a cell), the keywords passed, and where the positional
    arguments come from. *)
Record invocation := {
  callee : string;
  origin : provenance;
  nesting : nat;
  keywords : list string;
  arguments : list provenance
}.

Definition callee_name (func : expr) : string :=
  match func with
  | Name id => id
  | Attribute _ attr => attr
  | _ => EmptyString
  end.

Definition invocations_in (env : gmap string provenance) (depth : nat) (e : expr)
  : list invocation :=
  flat_map (fun x => match x with
                     | Call func args kws =>
                         [{| callee := callee_name func;
                             origin := provenance_of env func;
                             nesting := depth;
                             keywords := kws.*1;
                             arguments := map (provenance_of env) args |}]
                     | _ => []
                     end) (subexprs e).

Fixpoint target_names (t : expr) : list string :=
  match t with
  | Name id => [id]
  | Tuple elts | List_ elts => flat_map target_names elts
  | _ => []
  end.

Definition bind (names : list string) (p : provenance) (env : gmap string provenance)
  : gmap string provenance :=
  foldr (fun x => <[x := p]>) env names.

(** One statement: the calls it makes, in order, and the names bound after
    it.  The body of a function or class is read where it is defined; what
    it binds stays inside. *)
Fixpoint exec (depth : nat) (s : stmt) (env : gmap string provenance)
  : list invocation * gmap string provenance :=
  let block :=
    fix block (body : list stmt) (env : gmap string provenance) :=
      match body with
      | [] => ([], env)
      | s' :: rest =>
          let '(calls1, env1) := exec (S depth) s' env in
          let '(calls2, env2) := block rest env1 in
          (calls1 ++ calls2, env2)
      end in
  let here := flat_map (invocations_in env depth) (own_exprs s) in
  match s with
  | Import names => ([], foldr (fun x => <[x := Library x]>) env names)
  | ImportFrom module names => ([], bind names (Library module) env)
  | Assign targets value =>
      (here, bind (flat_map target_names targets) (provenance_of env value) env)
  | FunctionDef name args body =>
      let '(inner, _) := block body (bind args Builtin env) in
      (inner, <[name := Authored name]> env)
  | ClassDef name _ body =>
      let '(inner, _) := block body env in
      (here ++ inner, <[name := Authored name]> env)
  | For target iter body orelse =>
      let env0 := bind (target_names target) (provenance_of env iter) env in
      let '(calls1, env1) := block body env0 in
      let '(calls2, env2) := block orelse env1 in
      (here ++ calls1 ++ calls2, env2)
  | While _ body orelse | If _ body orelse =>
      let '(calls1, env1) := block body env in
      let '(calls2, env2) := block orelse env1 in
      (here ++ calls1 ++ calls2, env2)
  | With context_expr optional_vars body =>
      let env0 := bind (flat_map target_names (option_list optional_vars))
                       (provenance_of env context_expr) env in
      let '(calls1, env1) := block body env0 in
      (here ++ calls1, env1)
  | TryExcept body handlers orelse =>
      let '(calls1, env1) := block body env in
      let '(calls2, env2) := block handlers env1 in
      let '(calls3, env3) := block orelse env2 in
      (calls1 ++ calls2 ++ calls3, env3)
  | ExceptHandler _ body =>
      let '(calls1, env1) := block body env in
      (here ++ calls1, env1)
  | TryFinally body finalbody =>
      let '(calls1, env1) := block body env in
      let '(calls2, env2) := block finalbody env1 in
      (calls1 ++ calls2, env2)
  | _ => (here, env)
  end.

(** The statements of the cells, one after the other, from no binding. *)
Fixpoint exec_cells (body : list stmt) (env : gmap string provenance)
  : list invocation :=
  match body with
  | [] => []
  | s :: rest => let '(calls, env') := exec 0 s env in calls ++ exec_cells rest env'
  end.

(** Every call of the notebook's code, in the order of the text. *)
Definition invocations (nb : list cell) : list invocation :=
  exec_cells (program nb) ∅.

(** The operations of the library the specification names. *)
Definition library_operations : list string :=
  ["Word2Vec"; "build_vocab"; "train"; "most_similar"; "save"; "load"].

Definition into_gensim (i : invocation) : bool := from_library "gensim" (origin i).

Definition calls_of (name : string) (nb : list cell) : list invocation :=
  List.filter (fun i => String.eqb (callee i) name) (invocations nb).

(** The calls of the operations the specification names. *)
Definition operation_calls (nb : list cell) : list invocation :=
  List.filter (fun i => among (callee i) library_operations) (invocations nb).

(** The calls into the library, whatever their name. *)
Definition gensim_calls (nb : list cell) : list invocation :=
  List.filter into_gensim (invocations nb).

(** The modules the code imports. *)
Definition imports (nb : list cell) : list string :=
  flat_map (fun s => match s with
                     | Import names => names
                     | ImportFrom module _ => [module]
                     | _ => []
                     end) (all_stmts nb).

(** ** What the notebook shows of the library's interface *)

(** The options of the constructor the specification lists: embedding width,
    minimum word frequency, worker count, epoch count. *)
Definition constructor_options : list string := ["size"; "min_count"; "workers"; "iter"].

(** An option is shown in executed code when a call of the library's
    [Word2Vec] passes it as a keyword. *)
Definition configured_in_code (option : string) (nb : list cell) : bool :=
  existsb (fun i => into_gensim i && String.eqb (callee i) "Word2Vec"
                    && among option (keywords i)) (invocations nb).

(** The model is given a sentence iterable defined outside the library. *)
Definition iterates_supplied_sentences (nb : list cell) : bool :=
  existsb (fun i => into_gensim i && String.eqb (callee i) "Word2Vec"
                    && match arguments i with
                       | p :: _ => is_authored p
                       | [] => false
                       end) (invocations nb).

Definition calls_with_path (name : string) (nb : list cell) : bool :=
  existsb (fun i => into_gensim i && String.eqb (callee i) name
                    && (length (arguments i) =? 1)) (invocations nb).

Definition saves_and_loads (nb : list cell) : bool :=
  calls_with_path "save" nb && calls_with_path "load" nb.

(** Similarity: [similarity]; analogy: [most_similar] with positive and
    negative words. *)
Definition queries_vectors (nb : list cell) : bool :=
  existsb (fun i => into_gensim i && String.eqb (callee i) "similarity")
          (invocations nb)
  && existsb (fun i => into_gensim i && String.eqb (callee i) "most_similar"
                       && among "positive" (keywords i)
                       && among "negative" (keywords i)) (invocations nb).

(** ** The notebook as the specification describes it *)

(** No branch and no loop, in statements or in expressions. *)
Definition straight_line (nb : list cell) : bool :=
  forallb (fun s => negb (is_branch_or_loop s)) (all_stmts nb)
  && forallb (fun e => negb (is_branching_expr e)) (all_exprs nb).

(** Every function the notebook defines is free of logic of its own. *)
Definition logic_free (nb : list cell) : bool :=
  forallb (fun f => negb (has_logic f.2)) (function_bodies nb).

(** ** Globals passed from one statement to a later one *)

Definition names_read (e : expr) : list string :=
  flat_map (fun x => match x with Name id => [id] | _ => [] end) (subexprs e).

(** What a statement reads itself: the names it assigns are not read. *)
Definition own_reads (s : stmt) : list string :=
  match s with
  | Assign targets value =>
      names_read value
      ++ flat_map (fun t => match t with
                            | Name _ | Tuple _ | List_ _ => []
                            | _ => names_read t
                            end) targets
  | For _ iter _ _ => names_read iter
  | With context_expr _ _ => names_read context_expr
  | _ => flat_map names_read (own_exprs s)
  end.

Definition reads (s : stmt) : list string := flat_map own_reads (stmts_within s).

Definition writes (s : stmt) : list string :=
  match s with
  | Assign targets _ => flat_map target_names targets
  | Import names | ImportFrom _ names => names
  | FunctionDef name _ _ | ClassDef name _ _ => [name]
  | _ => []
  end.

(** The globals a top-level statement reads that an earlier top-level
    statement bound. *)
Fixpoint flows (bound : list string) (body : list stmt) : list string :=
  match body with
  | [] => []
  | s :: rest =>
      List.filter (fun x => among x bound) (reads s) ++ flows (writes s ++ bound) rest
  end.

Definition data_flows (nb : list cell) : list string := flows [] (program nb).

(** ** Further reference functions *)

(** The bytes of a text that are not whitespace, in order. *)
Definition nonspace_bytes (s : string) : list ascii :=
  List.filter (fun c => negb (Py.isspace c)) (Py.chars s).

(** The bytes of the tokens of a sequence of sentences, in order. *)
Definition token_bytes (sentences : list (list string)) : list ascii :=
  flat_map (fun sentence => flat_map Py.chars sentence) sentences.

(** The contents of the regular files of a directory, in listing order. *)
Definition contents (d : directory) : list string :=
  flat_map (fun e => match e.2 with File content => [content] | Subdir => [] end) d.

(** The lines of the regular files of a directory, in listing order. *)
Definition all_lines (d : directory) : list string :=
  flat_map Py.readlines (contents d).

Definition is_blank (line : string) : bool :=
  forallb Py.isspace (Py.chars line).

Definition is_empty {X} (xs : list X) : bool :=
  match xs with [] => true | _ :: _ => false end.

(** A word that holds no line feed. *)
Definition no_LF (w : string) : bool :=
  forallb (fun c => negb (Ascii.eqb c Py.LF)) (Py.chars w).

(** A file in the format the narration describes (line 70), one sentence
    per line: the words of each sentence separated by single spaces, each
    line ended by LF. *)
Definition sentence_line (words : list string) : string :=
  str_join " " words +:+ nl.

Definition one_sentence_per_line (sentences : list (list string)) : string :=
  foldr (fun words acc => sentence_line words +:+ acc) EmptyString sentences.

(** The loop of In [3] alone, lines 89-92, as it stands in [write_toy_data]. *)
Definition toy_data_loop (order : listing) (sentences : list (list string)) : IO unit :=
  io_for (enumerate filenames) (fun '(i, fname) =>
    with_ (smart_open.smart_open_w order fname) (fun fout =>
      words <- getitem sentences i ;;
      io_for words (fun line => smart_open.write fout (line +:+ nl)))%io).

(** ** Names read before they are bound

    The builtins the code reads, and a walk through the statements in order
    that collects each name read where no earlier statement, enclosing
    loop, [with] or parameter list has bound it.  The body of a function is
    checked where it is defined, with its parameters bound. *)
Definition builtins : list string := ["object"; "open"; "list"; "enumerate"; "True"].

Definition unbound_in (bound : list string) (names : list string) : list string :=
  List.filter (fun x => negb (among x bound)) names.

Fixpoint unresolved (s : stmt) (bound : list string) : list string * list string :=
  let block :=
    fix block (body : list stmt) (bound : list string) :=
      match body with
      | [] => ([], bound)
      | s' :: rest =>
          let '(missing1, bound1) := unresolved s' bound in
          let '(missing2, bound2) := block rest bound1 in
          (missing1 ++ missing2, bound2)
      end in
  let here := unbound_in bound (own_reads s) in
  match s with
  | Import names | ImportFrom _ names => ([], names ++ bound)
  | Assign targets _ => (here, flat_map target_names targets ++ bound)
  | FunctionDef name args body =>
      let '(inner, _) := block body (args ++ name :: bound) in
      (inner, name :: bound)
  | ClassDef name _ body =>
      let '(inner, _) := block body bound in
      (here ++ inner, name :: bound)
  | For target _ body orelse =>
      let '(missing1, bound1) := block body (target_names target ++ bound) in
      let '(missing2, bound2) := block orelse bound1 in
      (here ++ missing1 ++ missing2, bound2)
  | While _ body orelse | If _ body orelse =>
      let '(missing1, bound1) := block body bound in
      let '(missing2, bound2) := block orelse bound1 in
      (here ++ missing1 ++ missing2, bound2)
  | With _ optional_vars body =>
      let '(missing1, bound1) :=
        block body (flat_map target_names (option_list optional_vars) ++ bound) in
      (here ++ missing1, bound1)
  | TryExcept body handlers orelse =>
      let '(missing1, bound1) := block body bound in
      let '(missing2, bound2) := block handlers bound1 in
      let '(missing3, bound3) := block orelse bound2 in
      (missing1 ++ missing2 ++ missing3, bound3)
  | ExceptHandler _ body =>
      let '(missing1, bound1) := block body bound in
      (here ++ missing1, bound1)
  | TryFinally body finalbody =>
      let '(missing1, bound1) := block body bound in
      let '(missing2, bound2) := block finalbody bound1 in
      (missing1 ++ missing2, bound2)
  | _ => (here, bound)
  end.

Fixpoint unresolved_block (body : list stmt) (bound : list string) : list string :=
  match body with
  | [] => []
  | s :: rest =>
      let '(missing, bound') := unresolved s bound in
      missing ++ unresolved_block rest bound'
  end.

(** The names a run of the cells in order would find unbound. *)
Definition unresolved_names (nb : list cell) : list string :=
  unresolved_block (program nb) builtins.
(** * Facts and theorems *)

(** ** The runtime model on small inputs *)

Example split_demo :
  Py.split "input is lunch he sentence cat"
  = ["input"; "is"; "lunch"; "he"; "sentence"; "cat"].
Proof. reflexivity. Qed.

Example readlines_demo :
  Py.readlines (String "a" (String Py.LF (String Py.LF (String "b" EmptyString))))
  = [String "a" (String Py.LF EmptyString); String Py.LF EmptyString; "b"].
Proof. reflexivity. Qed.

Example lower_demo : Py.lower "Hello World 42" = "hello world 42".
Proof. reflexivity. Qed.

Example split_path_demo : split_path "./data/f1.txt" = ("./data/", "f1.txt").
Proof. reflexivity. Qed.

Example test_data_dir_demo :
  lee_train_file "/usr/lib/python2.7/site-packages/gensim"
  = "/usr/lib/python2.7/site-packages/gensim/test/test_data/lee_background.cor".
Proof. reflexivity. Qed.

(** ** Facts about byte strings *)

Section Bytes.

Implicit Types (s t : string) (acc : list ascii) (c : ascii).

Lemma of_rev_app acc s t : Py.of_rev acc s +:+ t = Py.of_rev acc (s +:+ t).
Proof. revert s; induction acc as [|c acc IH]; intros s; simpl; [done|]. by rewrite IH. Qed.

Lemma of_rev_chars s t : Py.of_rev (rev (Py.chars s)) t = s +:+ t.
Proof.
  revert t; induction s as [|c s IH]; intros t; simpl; [done|].
  assert (G : forall a b u, Py.of_rev (a ++ b) u = Py.of_rev b (Py.of_rev a u)).
  { induction a as [|x a IHa]; intros b u; simpl; [done|]. apply IHa. }
  rewrite G. simpl. by rewrite IH.
Qed.

Lemma chars_of_rev acc s : Py.chars (Py.of_rev acc s) = rev acc ++ Py.chars s.
Proof.
  revert s; induction acc as [|c acc IH]; intros s; simpl; [done|].
  rewrite IH. simpl. by rewrite <- app_assoc.
Qed.

Lemma chars_app s t : Py.chars (s +:+ t) = Py.chars s ++ Py.chars t.
Proof. induction s as [|c s IH]; simpl; [done|]. by rewrite IH. Qed.

Lemma string_app_cons c s t : String c s +:+ t = String c (s +:+ t).
Proof. reflexivity. Qed.

Lemma string_app_nil_r s : s +:+ EmptyString = s.
Proof. induction s as [|c s IH]; [done|]. by rewrite string_app_cons, IH. Qed.

Lemma string_app_assoc s t u : (s +:+ t) +:+ u = s +:+ (t +:+ u).
Proof. induction s as [|c s IH]; [done|]. by rewrite !string_app_cons, IH. Qed.

(** A blank string has no token. *)
Lemma split_from_blank acc s :
  Forall (fun c => Py.isspace c = true) (Py.chars s) ->
  Py.split_from acc s = Py.flush acc [].
Proof.
  revert acc; induction s as [|c s IH]; intros acc Hs; simpl in *; [done|].
  inversion Hs as [|? ? Hc Hs']; subst. rewrite Hc. by rewrite IH.
Qed.

(** Reading a run of non-blank bytes extends the current token. *)
Lemma split_from_word acc s t :
  Forall (fun c => Py.isspace c = false) (Py.chars s) ->
  Py.split_from acc (s +:+ t) = Py.split_from (rev (Py.chars s) ++ acc) t.
Proof.
  revert acc; induction s as [|c s IH]; intros acc Hs; simpl in *; [done|].
  inversion Hs as [|? ? Hc Hs']; subst. rewrite Hc, IH by done.
  by rewrite <- app_assoc.
Qed.

(** Every byte of every token comes from the token being read or from the
    text still to read, and is not blank if the bytes read so far are not. *)
Lemma split_from_bytes (P : ascii -> Prop) acc s :
  Forall P acc -> Forall P (Py.chars s) ->
  Forall (fun tok => Forall P (Py.chars tok)) (Py.split_from acc s).
Proof.
  revert acc; induction s as [|c s IH]; intros acc Hacc Hs; simpl in *.
  - destruct acc as [|a acc]; simpl; [constructor|].
    constructor; [|constructor].
    change (Py.of_rev acc (String a EmptyString)) with (Py.of_rev (a :: acc) EmptyString).
    rewrite chars_of_rev, app_nil_r. by apply Forall_rev.
  - inversion Hs as [|? ? Hc Hs']; subst.
    destruct (Py.isspace c).
    + specialize (IH [] (Forall_nil_2 _) Hs').
      destruct acc as [|a acc]; simpl; [done|].
      constructor; [|done].
      change (Py.of_rev acc (String a EmptyString)) with (Py.of_rev (a :: acc) EmptyString).
      rewrite chars_of_rev, app_nil_r. by apply Forall_rev.
    + apply IH; [by constructor | done].
Qed.

Lemma split_bytes (P : ascii -> Prop) s :
  Forall P (Py.chars s) ->
  Forall (fun tok => Forall P (Py.chars tok)) (Py.split s).
Proof. intros Hs. by apply split_from_bytes. Qed.

(** File iteration on a text made of lines that each end in LF. *)
Lemma lines_from_nolf acc s t :
  Forall (fun c => Ascii.eqb c Py.LF = false) (Py.chars s) ->
  Py.lines_from acc (s +:+ t) = Py.lines_from (rev (Py.chars s) ++ acc) t.
Proof.
  revert acc; induction s as [|c s IH]; intros acc Hs; simpl in *; [done|].
  inversion Hs as [|? ? Hc Hs']; subst. rewrite Hc, IH by done.
  by rewrite <- app_assoc.
Qed.

Lemma tolower_not_upper c : Py.isupper (Py.tolower c) = false.
Proof. by destruct c as [[] [] [] [] [] [] [] []]. Qed.

Lemma tolower_isspace c : Py.isspace (Py.tolower c) = Py.isspace c.
Proof. by destruct c as [[] [] [] [] [] [] [] []]. Qed.

Lemma lower_of_rev acc s :
  Py.lower (Py.of_rev acc s) = Py.of_rev (map Py.tolower acc) (Py.lower s).
Proof. revert s; induction acc as [|c acc IH]; intros s; simpl; [done|]. by rewrite IH. Qed.

Lemma flush_lower acc (rest : list string) :
  Py.flush (map Py.tolower acc) (map Py.lower rest) = map Py.lower (Py.flush acc rest).
Proof. destruct acc as [|c acc]; [done|]. simpl. by rewrite lower_of_rev. Qed.

Lemma split_from_lower acc s :
  Py.split_from (map Py.tolower acc) (Py.lower s) = map Py.lower (Py.split_from acc s).
Proof.
  revert acc; induction s as [|c s IH]; intros acc; simpl.
  - apply (flush_lower acc []).
  - rewrite tolower_isspace. destruct (Py.isspace c).
    + pose proof (IH []) as IH0. simpl in IH0. rewrite IH0. apply flush_lower.
    + apply (IH (c :: acc)).
Qed.

(** Lower-casing a line and splitting it gives the fields of the line, each
    lower-cased. *)
Lemma split_lower s : Py.split (Py.lower s) = map Py.lower (Py.split s).
Proof. apply (split_from_lower [] s). Qed.

Lemma lower_not_upper s :
  Forall (fun c => Py.isupper c = false) (Py.chars (Py.lower s)).
Proof.
  induction s as [|c s IH]; simpl; constructor; [apply tolower_not_upper | done].
Qed.

End Bytes.

(** ** Facts about paths and directories *)

Section Paths.

Implicit Types (p n : string) (d : directory) (fs : filesystem).

Lemma split_path_from_name head cur n :
  forallb (fun c => negb (Ascii.eqb c Py.slash)) (Py.chars n) = true ->
  split_path_from head cur n = (Py.of_rev head EmptyString, Py.of_rev cur n).
Proof.
  revert cur; induction n as [|c n IH]; intros cur Hn; simpl in *; [done|].
  apply andb_prop in Hn as [Hc Hn]. apply negb_true_iff in Hc. rewrite Hc.
  by rewrite IH.
Qed.

Lemma split_path_from_dir head cur p q :
  Py.endswith_slash p = true ->
  split_path_from head cur (p +:+ q)
  = split_path_from (rev (Py.chars p) ++ cur ++ head) [] q.
Proof.
  revert head cur; induction p as [|c p IH]; intros head cur Hp; [done|].
  rewrite string_app_cons. simpl.
  destruct p as [|c' p].
  - simpl in Hp. rewrite Hp. done.
  - assert (Hp' : Py.endswith_slash (String c' p) = true) by exact Hp.
    destruct (Ascii.eqb c Py.slash).
    + rewrite IH by done. simpl. f_equal.
      rewrite <- !app_assoc. done.
    + rewrite IH by done. simpl. f_equal.
      rewrite <- !app_assoc. done.
Qed.

Lemma endswith_slash_as_dir p : Py.endswith_slash (as_dir p) = true.
Proof.
  unfold as_dir. destruct (Py.endswith_slash p) eqn:E; [done|]. clear E.
  induction p as [|c p IH]; [done|].
  rewrite string_app_cons. destruct p as [|c' p]; [done|]. exact IH.
Qed.

Lemma as_dir_not_empty p : as_dir p <> EmptyString.
Proof.
  pose proof (endswith_slash_as_dir p) as H. by destruct (as_dir p).
Qed.

Lemma dir_of_as_dir p : dir_of (as_dir p) = as_dir p.
Proof. pose proof (as_dir_not_empty p). by destruct (as_dir p). Qed.

Lemma path_join_as_dir p n :
  p <> EmptyString -> valid_name n = true -> os.path_join p n = as_dir p +:+ n.
Proof.
  intros Hp Hn. unfold os.path_join, as_dir.
  assert (Py.startswith_slash n = false) as ->.
  { destruct n as [|c n]; [done|]. simpl in *.
    apply andb_prop in Hn as [Hc _]. by apply negb_true_iff in Hc. }
  destruct p as [|c p]; [done|].
  destruct (Py.endswith_slash (String c p)); [done|].
  by rewrite string_app_assoc.
Qed.

Lemma split_path_join p n :
  p <> EmptyString -> valid_name n = true ->
  split_path (os.path_join p n) = (as_dir p, n).
Proof.
  intros Hp Hn. rewrite path_join_as_dir by done. unfold split_path.
  rewrite split_path_from_dir by apply endswith_slash_as_dir.
  rewrite split_path_from_name.
  - simpl. rewrite !app_nil_r, of_rev_chars, string_app_nil_r. done.
  - destruct n; [done|exact Hn].
Qed.

Lemma lookup_entry_wf d n x :
  wf_directory d = true -> (n, x) ∈ d -> lookup_entry n d = Some x.
Proof.
  induction d as [|[m y] d IH]; intros Hwf Hin; [by apply elem_of_nil in Hin|].
  simpl in Hwf. apply andb_prop in Hwf as [Hwf Hd]. apply andb_prop in Hwf as [_ Hfresh].
  apply elem_of_cons in Hin as [Heq | Hin]; simpl.
  - injection Heq as -> ->. by rewrite String.eqb_refl.
  - destruct (String.eqb m n) eqn:E.
    + apply String.eqb_eq in E as ->. rewrite (IH Hd Hin) in Hfresh. done.
    + by apply IH.
Qed.

Lemma wf_directory_names d :
  wf_directory d = true -> Forall (fun e => valid_name e.1 = true) d.
Proof.
  induction d as [|[m y] d IH]; intros Hwf; [constructor|].
  simpl in Hwf. apply andb_prop in Hwf as [Hwf Hd]. apply andb_prop in Hwf as [Hm _].
  constructor; [done | by apply IH].
Qed.

(** What [open] finds at the joined path of an entry. *)
Lemma file_content_entry fs p d n x :
  p <> EmptyString -> fs !! as_dir p = Some d ->
  valid_name n = true -> lookup_entry n d = Some x ->
  file_content fs (os.path_join p n)
  = match x with File content => Some content | Subdir => None end.
Proof.
  intros Hp Hd Hn Hx. unfold file_content.
  rewrite split_path_join, dir_of_as_dir, Hd, Hx by done. by destruct x.
Qed.

End Paths.

(** ** Iterating MySentences *)

Section MySentencesFacts.

Implicit Types (d : directory) (fs : filesystem).

Lemma gen_for_yield {X Y} (f : X -> Y) (xs : list X) fs :
  gen_for xs (fun x => yield (f x)) fs = (map f xs, Ok tt).
Proof.
  induction xs as [|x xs IH]; [done|].
  simpl. unfold gen_bind at 1. simpl. by rewrite IH.
Qed.

Lemma iter_entries fs dirname d0 d :
  dirname <> EmptyString ->
  fs !! as_dir dirname = Some d0 ->
  Forall (fun e => valid_name e.1 = true /\ lookup_entry e.1 d0 = Some e.2) d ->
  gen_for (d.*1) (fun fname =>
     f <- open_ (os.path_join dirname fname) ;;
     gen_for f (fun line => yield (Py.split line)))%gen fs
  = iter_trace d.
Proof.
  intros Hp Hd0. induction d as [|[n x] d IH]; intros Hd; [done|].
  inversion Hd as [|? ? [Hn Hx] Hd']; subst. simpl in Hn, Hx.
  rewrite fmap_cons. simpl gen_for. unfold gen_bind at 1. unfold gen_bind at 1.
  unfold open_ at 1. rewrite (file_content_entry fs dirname d0 n x) by done.
  destruct x as [content|]; [|done].
  rewrite gen_for_yield. rewrite IH by done. simpl.
  by destruct (iter_trace d).
Qed.

Lemma iter_trace_all_files d :
  all_files d = true -> iter_trace d = (sentences_in_order d, Ok tt).
Proof.
  induction d as [|[n x] d IH]; intros Hd; [done|].
  simpl in Hd. apply andb_prop in Hd as [Hx Hd]. destruct x; [|done].
  simpl. by rewrite IH.
Qed.

Lemma iter_list_trace {Y} (xs : list Y) fs : iter_list xs fs = (xs, Ok tt).
Proof. unfold iter_list. rewrite (gen_for_yield id). by rewrite map_id. Qed.

(** The generator on an existing directory. *)
Lemma MySentences_iter_trace fs dirname d :
  dirname <> EmptyString ->
  fs !! as_dir dirname = Some d ->
  wf_directory d = true ->
  MySentences.__iter__ (MySentences.__init__ dirname) fs = iter_trace d.
Proof.
  intros Hp Hd Hwf. unfold MySentences.__iter__, MySentences.__init__. simpl.
  unfold gen_bind at 1. unfold os.listdir at 1.
  destruct dirname as [|c p]; [done|]. rewrite Hd.
  rewrite (iter_entries fs (String c p) d d); [by destruct (iter_trace d)|done|done|].
  apply Forall_forall. intros [n x] Hin. simpl. split.
  - pose proof (wf_directory_names d Hwf) as Hnames.
    rewrite Forall_forall in Hnames. by apply (Hnames (n, x)).
  - by apply lookup_entry_wf.
Qed.

(** A directory that does not exist: [os.listdir] raises at the first
    [next], before anything is yielded. *)
Lemma MySentences_iter_missing fs dirname :
  fs !! as_dir dirname = None ->
  MySentences.__iter__ (MySentences.__init__ dirname) fs = ([], Raised OSError).
Proof.
  intros Hd. unfold MySentences.__iter__, MySentences.__init__. simpl.
  unfold gen_bind, os.listdir. destruct dirname; [done|]. by rewrite Hd.
Qed.

Lemma sentences_in_order_app d1 d2 :
  sentences_in_order (d1 ++ d2) = sentences_in_order d1 ++ sentences_in_order d2.
Proof. unfold sentences_in_order. by rewrite flat_map_app. Qed.

Lemma split_blank line : blank line -> Py.split line = [].
Proof. intros H. unfold Py.split. by rewrite split_from_blank. Qed.

End MySentencesFacts.

(** C3.  On a directory whose entries are all regular files, iterating
    [MySentences(dirname)] yields, for each file name in the order of
    [os.listdir] and each line of that file in order, the whitespace-split
    tokens of the line, and ends normally; a second iteration over the same
    files yields the same sequence again; a blank line (empty or made of
    whitespace only) splits to the empty list, and that empty list stands in
    the yielded sequence at the place of its line. *)
Theorem MySentences_iter_sequence
    (fs : filesystem) (dirname : string) (d : directory) :
  dirname <> EmptyString ->
  fs !! as_dir dirname = Some d ->
  wf_directory d = true ->
  all_files d = true ->
  let sentences := MySentences.__init__ dirname in
  MySentences.__iter__ sentences fs = (sentences_in_order d, Ok tt)
  /\ (first <- list_ (MySentences.__iter__ sentences) ;;
      second <- list_ (MySentences.__iter__ sentences) ;;
      io_ret (first, second))%io fs
     = (Ok (sentences_in_order d, sentences_in_order d), fs)
  /\ (forall line, blank line -> Py.split line = [])
  /\ (forall before name content after above line below,
        d = before ++ (name, File content) :: after ->
        Py.readlines content = above ++ line :: below ->
        blank line ->
        sentences_in_order d
        = (sentences_in_order before ++ map Py.split above)
          ++ [] :: (map Py.split below ++ sentences_in_order after)).
Proof.
  intros Hp Hd Hwf Hfiles sentences.
  assert (Hrun : MySentences.__iter__ sentences fs = (sentences_in_order d, Ok tt)).
  { unfold sentences. rewrite (MySentences_iter_trace fs dirname d) by done.
    by apply iter_trace_all_files. }
  split; [exact Hrun|]. split.
  - unfold io_bind, list_. rewrite Hrun. simpl. rewrite Hrun. done.
  - split; [apply split_blank|].
    intros before name content after above line below -> Hlines Hblank.
    rewrite sentences_in_order_app.
    change ((name, File content) :: after) with ([(name, File content)] ++ after).
    rewrite sentences_in_order_app. unfold sentences_in_order at 2. simpl.
    rewrite Hlines, map_app. simpl. rewrite (split_blank line Hblank).
    rewrite app_nil_r. rewrite <- !app_assoc. done.
Qed.

Lemma MySentences_iter_sequence_witness :
  let fs : filesystem :=
    {[ "./data/" := [("f1.txt", File ("first" +:+ nl +:+ nl +:+ " sentence" +:+ nl))] ]} in
  MySentences.__iter__ (MySentences.__init__ "./data/") fs
  = ([["first"]; []; ["sentence"]], Ok tt).
Proof.
  intros fs.
  pose proof (MySentences_iter_sequence fs "./data/"
                [("f1.txt", File ("first" +:+ nl +:+ nl +:+ " sentence" +:+ nl))]) as H.
  destruct H as [H _]; [done | reflexivity | reflexivity | reflexivity |].
  exact H.
Defined.

(** ** Writing the toy data and reading it back *)

Section ToyData.

Implicit Types (order : listing) (d : directory) (fs : filesystem).
Implicit Types (w : string) (words : list string).

Lemma lookup_set_entry base x d :
  lookup_entry base (set_entry base x d) = Some x.
Proof.
  induction d as [|[n y] d IH]; simpl.
  - by rewrite String.eqb_refl.
  - destruct (String.eqb n base) eqn:E; simpl; rewrite E; [done | exact IH].
Qed.

Lemma set_entry_twice base x y d :
  set_entry base y (set_entry base x d) = set_entry base y d.
Proof.
  induction d as [|[n z] d IH]; simpl.
  - by rewrite String.eqb_refl.
  - destruct (String.eqb n base) eqn:E; simpl; rewrite E; [done | by rewrite IH].
Qed.

Lemma set_entry_same base x d :
  lookup_entry base d = Some x -> set_entry base x d = d.
Proof.
  induction d as [|[n z] d IH]; simpl; [done|].
  destruct (String.eqb n base) eqn:E.
  - by intros [= ->].
  - intros H. by rewrite IH.
Qed.

Lemma lookup_set_entry_ne n base x d :
  n <> base -> lookup_entry n (set_entry base x d) = lookup_entry n d.
Proof.
  intros Hne. induction d as [|[m y] d IH]; simpl.
  - destruct (String.eqb base n) eqn:E; [|done].
    apply String.eqb_eq in E. congruence.
  - destruct (String.eqb m base) eqn:E; simpl.
    + apply String.eqb_eq in E as ->.
      destruct (String.eqb base n) eqn:E'; [|done].
      apply String.eqb_eq in E'. congruence.
    + destruct (String.eqb m n); [done | exact IH].
Qed.

Lemma set_entry_names n x y d :
  lookup_entry n d = Some y -> (set_entry n x d).*1 = d.*1.
Proof.
  induction d as [|[m z] d IH]; simpl; [done|].
  destruct (String.eqb m n) eqn:E; [done|].
  intros H. cbn [fmap list_fmap]. f_equal. by apply IH.
Qed.

Lemma set_entry_split n x y d :
  lookup_entry n d = Some y ->
  exists before after,
    d = before ++ (n, y) :: after /\ set_entry n x d = before ++ (n, x) :: after.
Proof.
  induction d as [|[m z] d IH]; simpl; [done|].
  destruct (String.eqb m n) eqn:E.
  - apply String.eqb_eq in E as ->. intros [= ->]. by exists [], d.
  - intros H. destruct (IH H) as (before & after & -> & ->).
    by exists ((m, z) :: before), after.
Qed.

(** A name and what the directory lists under it. *)
Lemma lookup_entry_elem n x d : lookup_entry n d = Some x -> (n, x) ∈ d.
Proof.
  induction d as [|[m y] d IH]; simpl; [done|].
  destruct (String.eqb m n) eqn:E.
  - apply String.eqb_eq in E as ->. intros [= ->]. left.
  - intros H. right. by apply IH.
Qed.

Lemma lookup_entry_None n d : lookup_entry n d = None <-> n ∉ d.*1.
Proof.
  induction d as [|[m y] d IH]; simpl.
  - split; [intros _; apply not_elem_of_nil | done].
  - rewrite not_elem_of_cons. destruct (String.eqb m n) eqn:E.
    + apply String.eqb_eq in E as ->. split; [done | by intros [? _]].
    + apply String.eqb_neq in E. rewrite IH.
      split; [intros H; split; [congruence | done] | by intros [_ H]].
Qed.

Lemma lookup_entry_unique n x d :
  NoDup (d.*1) -> (n, x) ∈ d -> lookup_entry n d = Some x.
Proof.
  induction d as [|[m y] d IH]; simpl; intros Hnd Hin.
  - by apply elem_of_nil in Hin.
  - apply NoDup_cons in Hnd as [Hm Hnd].
    apply elem_of_cons in Hin as [[= <- <-] | Hin].
    + by rewrite String.eqb_refl.
    + destruct (String.eqb m n) eqn:E; [|by apply IH].
      apply String.eqb_eq in E as ->. exfalso. apply Hm.
      apply list_elem_of_fmap. by exists (n, x).
Qed.

(** With each name listed once, what a name stands for does not depend on
    the order of the listing. *)
Lemma lookup_entry_perm n d d' :
  NoDup (d.*1) -> d ≡ₚ d' -> lookup_entry n d' = lookup_entry n d.
Proof.
  intros Hnd Hperm.
  assert (Hnd' : NoDup (d'.*1)) by by rewrite <- Hperm.
  destruct (lookup_entry n d) as [x|] eqn:E.
  - apply lookup_entry_unique; [done|]. rewrite <- Hperm. by apply lookup_entry_elem.
  - apply lookup_entry_None. rewrite <- Hperm. by apply lookup_entry_None.
Qed.

Lemma set_entry_perm n x y l d :
  n ∉ d.*1 -> l ≡ₚ (n, y) :: d -> set_entry n x l ≡ₚ (n, x) :: d.
Proof.
  intros Hn Hperm.
  destruct (lookup_entry n l) as [y0|] eqn:E.
  - assert (y0 = y) as ->.
    { apply lookup_entry_elem in E. rewrite Hperm in E.
      apply elem_of_cons in E as [[= ->] | E]; [done|].
      exfalso. apply Hn. apply list_elem_of_fmap. by exists (n, y0). }
    destruct (set_entry_split n x y l E) as (before & after & -> & ->).
    rewrite <- Permutation_middle in Hperm. apply Permutation_cons_inv in Hperm.
    rewrite <- Permutation_middle. by constructor.
  - apply lookup_entry_None in E. exfalso. apply E. rewrite Hperm. left.
Qed.

Lemma wf_directory_spec d :
  wf_directory d = true
  <-> Forall (fun n => valid_name n = true) (d.*1) /\ NoDup (d.*1).
Proof.
  induction d as [|[n x] d IH]; simpl.
  - split; [intros _; split; constructor | done].
  - rewrite !andb_true_iff, IH, Forall_cons, NoDup_cons, <- lookup_entry_None.
    destruct (lookup_entry n d); split; intros H; destruct_and?; done.
Qed.

Lemma wf_directory_perm d d' : d ≡ₚ d' -> wf_directory d = true -> wf_directory d' = true.
Proof.
  intros Hperm. rewrite !wf_directory_spec. by rewrite Hperm.
Qed.

Lemma wf_directory_NoDup d : wf_directory d = true -> NoDup (d.*1).
Proof. intros H. by apply wf_directory_spec in H as [_ H]. Qed.

(** A new entry, wherever the file system lists it. *)
Lemma add_entry_perm order n x d : add_entry order n x d ≡ₚ (n, x) :: d.
Proof.
  unfold add_entry. rewrite arrange_perm. symmetry. apply Permutation_cons_append.
Qed.

Lemma add_entry_first order n x : add_entry order n x [] = [(n, x)].
Proof. apply Permutation_singleton_r. apply add_entry_perm. Qed.

Lemma lookup_add_entry order n x d :
  lookup_entry n d = None -> lookup_entry n (add_entry order n x d) = Some x.
Proof.
  intros Hn. apply lookup_entry_None in Hn.
  destruct (lookup_entry n (add_entry order n x d)) as [y|] eqn:E.
  - apply lookup_entry_elem in E. rewrite add_entry_perm in E.
    apply elem_of_cons in E as [[= ->] | E]; [done|].
    exfalso. apply Hn. apply list_elem_of_fmap. by exists (n, y).
  - apply lookup_entry_None in E. exfalso. apply E. rewrite add_entry_perm. left.
Qed.

Lemma lookup_opened order n d :
  lookup_entry n (opened order n d) = Some (File EmptyString).
Proof.
  unfold opened. destruct (lookup_entry n d) eqn:E.
  - apply lookup_set_entry.
  - by apply lookup_add_entry.
Qed.

Lemma lookup_opened_ne order n m d :
  NoDup (d.*1) -> m <> n -> lookup_entry m (opened order n d) = lookup_entry m d.
Proof.
  intros Hnd Hne. unfold opened. destruct (lookup_entry n d) eqn:E.
  - by apply lookup_set_entry_ne.
  - rewrite (lookup_entry_perm m ((n, File EmptyString) :: d)).
    + simpl. destruct (String.eqb n m) eqn:E'; [|done].
      apply String.eqb_eq in E'. congruence.
    + simpl. apply NoDup_cons. split; [by apply lookup_entry_None | done].
    + symmetry. apply add_entry_perm.
Qed.

Lemma among_names n d :
  among n (d.*1) = match lookup_entry n d with Some _ => true | None => false end.
Proof.
  unfold among. induction d as [|[m y] d IH]; simpl; [done|].
  rewrite (String.eqb_sym n m). by destruct (String.eqb m n).
Qed.

(** A file opened and filled: its name is listed once more only if it is
    new. *)
Lemma filled_names order n x d :
  (set_entry n x (opened order n d)).*1 ≡ₚ d.*1 ++ (if among n (d.*1) then [] else [n])
  /\ (among n (d.*1) = true -> (set_entry n x (opened order n d)).*1 = d.*1).
Proof.
  rewrite (set_entry_names n x (File EmptyString)) by apply lookup_opened.
  rewrite among_names. unfold opened. destruct (lookup_entry n d) eqn:E.
  - rewrite (set_entry_names _ _ _ _ E), app_nil_r. done.
  - split; [|done]. rewrite add_entry_perm. simpl. apply Permutation_cons_append.
Qed.

Lemma filled_new order n x d :
  lookup_entry n d = None -> set_entry n x (opened order n d) ≡ₚ (n, x) :: d.
Proof.
  intros Hn. apply (set_entry_perm n x (File EmptyString)).
  - by apply lookup_entry_None.
  - unfold opened. rewrite Hn. apply add_entry_perm.
Qed.

Lemma filled_again order n x d :
  lookup_entry n d = Some x -> set_entry n x (opened order n d) = d.
Proof.
  intros Hn. unfold opened. rewrite Hn. rewrite set_entry_twice.
  by apply set_entry_same.
Qed.

Lemma NoDup_filled order n x d :
  NoDup (d.*1) -> NoDup ((set_entry n x (opened order n d)).*1).
Proof.
  intros Hnd. rewrite (set_entry_names n x (File EmptyString)) by apply lookup_opened.
  unfold opened. destruct (lookup_entry n d) eqn:E.
  - by rewrite (set_entry_names _ _ _ _ E).
  - rewrite add_entry_perm. simpl. apply NoDup_cons.
    split; [by apply lookup_entry_None | done].
Qed.

Lemma lookup_filled_ne order n m x d :
  NoDup (d.*1) -> m <> n ->
  lookup_entry m (set_entry n x (opened order n d)) = lookup_entry m d.
Proof. intros Hnd Hne. by rewrite lookup_set_entry_ne, lookup_opened_ne. Qed.

(** Writing the words of one sentence through an open handle. *)
Lemma write_words words : forall fs fout head base d content,
  split_path fout = (head, base) ->
  fs !! dir_of head = Some d ->
  lookup_entry base d = Some (File content) ->
  io_for words (fun line => smart_open.write fout (line +:+ nl)) fs
  = (Ok tt, <[dir_of head := set_entry base (File (content +:+ text_of_lines words)) d]> fs).
Proof.
  induction words as [|w words IH]; intros fs fout head base d content Hsplit Hd Hbase.
  - simpl. rewrite string_app_nil_r, (set_entry_same _ _ _ Hbase).
    by rewrite insert_id.
  - simpl. unfold io_bind. unfold smart_open.write at 1. rewrite Hsplit, Hd, Hbase.
    rewrite (IH (<[dir_of head := set_entry base (File (content +:+ w +:+ nl)) d]> fs)
               fout head base (set_entry base (File (content +:+ w +:+ nl)) d)
               (content +:+ w +:+ nl) Hsplit).
    + rewrite insert_insert_eq, set_entry_twice.
      by rewrite !string_app_assoc.
    + by rewrite lookup_insert_eq.
    + apply lookup_set_entry.
Qed.

(** One turn of the loop of In [3]: the file is created or emptied, then
    filled with the words of the sentence of the same index. *)
Lemma write_file order fs (sentences : list (list string)) i fname head base d words :
  split_path fname = (head, base) ->
  base <> EmptyString ->
  fs !! dir_of head = Some d ->
  lookup_entry base d <> Some Subdir ->
  sentences !! i = Some words ->
  with_ (smart_open.smart_open_w order fname) (fun fout =>
     words <- getitem sentences i ;;
     io_for words (fun line => smart_open.write fout (line +:+ nl)))%io fs
  = (Ok tt, <[dir_of head := set_entry base (File (text_of_lines words))
                               (opened order base d)]> fs).
Proof.
  intros Hsplit Hbase Hd Hnot Hi.
  unfold with_, io_bind. unfold smart_open.smart_open_w. rewrite Hsplit, Hd.
  assert (Hopen :
    match lookup_entry base d with
    | Some Subdir => (Raised IOError, fs)
    | Some (File _) =>
        (Ok fname, <[dir_of head := set_entry base (File EmptyString) d]> fs)
    | None =>
        (Ok fname, <[dir_of head := add_entry order base (File EmptyString) d]> fs)
    end = (@Ok string fname, <[dir_of head := opened order base d]> fs)).
  { unfold opened. destruct (lookup_entry base d) as [[|]|]; done. }
  destruct base as [|c base]; [done|]. rewrite Hopen.
  unfold getitem. rewrite Hi. unfold io_ret.
  rewrite (write_words words
             (<[dir_of head := opened order (String c base) d]> fs)
             fname head (String c base)
             (opened order (String c base) d) EmptyString Hsplit).
  - by rewrite insert_insert_eq.
  - by rewrite lookup_insert_eq.
  - apply lookup_opened.
Qed.

(** Opening alone: the file of the next index is there, and empty, when
    [sentences[i]] fails. *)
Lemma open_without_sentence order fs (sentences : list (list string)) i fname head base d :
  split_path fname = (head, base) ->
  base <> EmptyString ->
  fs !! dir_of head = Some d ->
  lookup_entry base d <> Some Subdir ->
  sentences !! i = None ->
  with_ (smart_open.smart_open_w order fname) (fun fout =>
     words <- getitem sentences i ;;
     io_for words (fun line => smart_open.write fout (line +:+ nl)))%io fs
  = (Raised IndexError, <[dir_of head := opened order base d]> fs).
Proof.
  intros Hsplit Hbase Hd Hnot Hi.
  unfold with_, io_bind. unfold smart_open.smart_open_w. rewrite Hsplit, Hd.
  destruct base as [|c base]; [done|].
  unfold getitem. rewrite Hi. unfold opened.
  destruct (lookup_entry (String c base) d) as [[|]|]; done.
Qed.

Lemma exists_in_data fs :
  os.exists_in fs "./data/"
  = bool_decide (is_Some (fs !! "./data/"))
    || match os.entry_at fs "./data/" with Some Subdir => true | _ => false end.
Proof. unfold os.exists_in. by destruct (os.entry_at fs "./data/") as [[|]|]. Qed.

Lemma entry_at_data fs :
  os.entry_at fs "./data/"
  = match fs !! "./" with Some d => lookup_entry "data" d | None => None end.
Proof. reflexivity. Qed.

Lemma exists_in_data_dir fs d : fs !! "./data/" = Some d -> os.exists_in fs "./data/" = true.
Proof. intros H. rewrite exists_in_data, H. done. Qed.

(** In [3] where ./data/ exists: the loop alone. *)
Lemma write_toy_data_loop order sentences fs :
  os.exists_in fs "./data/" = true ->
  write_toy_data order sentences fs = toy_data_loop order sentences fs.
Proof.
  intros E. unfold write_toy_data, toy_data_loop, io_bind, os.path_exists.
  by rewrite E.
Qed.

(** In [3] where ./data/ is fresh: the loop starts on an empty ./data/. *)
Lemma fresh_start order fs :
  fresh_data fs ->
  exists fs1,
    fs1 !! "./data/" = Some []
    /\ forall sentences,
         write_toy_data order sentences fs = toy_data_loop order sentences fs1.
Proof.
  intros [Hempty | [Hnone Hentry]].
  - exists fs. split; [done|]. intros sentences.
    apply write_toy_data_loop. by apply (exists_in_data_dir fs []).
  - exists (<["./data/" := []]> (os.register order "./data/" fs)).
    split; [apply lookup_insert_eq|]. intros sentences.
    assert (E : os.exists_in fs "./data/" = false).
    { by rewrite exists_in_data, Hnone, Hentry. }
    unfold write_toy_data, toy_data_loop, io_bind, os.path_exists.
    rewrite E. cbn [negb].
    unfold os.makedirs. cbv beta iota. change (as_dir "./data/") with "./data/".
    by rewrite Hnone, Hentry.
Qed.

(** The loop with two sentences or more: both files are opened and filled. *)
Lemma toy_data_loop_run order fs d (s1 s2 : list string) (more : list (list string)) :
  fs !! "./data/" = Some d ->
  NoDup (d.*1) ->
  lookup_entry "f1.txt" d <> Some Subdir ->
  lookup_entry "f2.txt" d <> Some Subdir ->
  toy_data_loop order (s1 :: s2 :: more) fs
  = (Ok tt, <["./data/" := toy_directory order s1 s2 d]> fs).
Proof.
  intros Hd Hnd H1 H2. unfold toy_data_loop.
  change (enumerate filenames) with [(0, "./data/f1.txt"); (1, "./data/f2.txt")].
  simpl io_for. unfold io_bind at 1.
  rewrite (write_file order fs _ 0 "./data/f1.txt" "./data/" "f1.txt" d s1); try done.
  change (dir_of "./data/") with "./data/".
  unfold io_bind at 1.
  rewrite (write_file order _ _ 1 "./data/f2.txt" "./data/" "f2.txt"
             (set_entry "f1.txt" (File (text_of_lines s1)) (opened order "f1.txt" d))
             s2); try done.
  - change (dir_of "./data/") with "./data/". unfold io_ret.
    by rewrite insert_insert_eq.
  - change (dir_of "./data/") with "./data/". by rewrite lookup_insert_eq.
  - by rewrite lookup_set_entry_ne, lookup_opened_ne.
Qed.

(** The loop with one sentence: f1.txt is filled, f2.txt is opened, and
    [sentences[1]] raises. *)
Lemma toy_data_loop_one order fs (s1 : list string) :
  fs !! "./data/" = Some [] ->
  toy_data_loop order [s1] fs
  = (Raised IndexError,
     <["./data/" := arrange order [("f1.txt", File (text_of_lines s1));
                                   ("f2.txt", File EmptyString)]]> fs).
Proof.
  intros Hd. unfold toy_data_loop.
  change (enumerate filenames) with [(0, "./data/f1.txt"); (1, "./data/f2.txt")].
  simpl io_for. unfold io_bind at 1.
  rewrite (write_file order fs _ 0 "./data/f1.txt" "./data/" "f1.txt" [] s1); try done.
  change (dir_of "./data/") with "./data/".
  unfold opened at 1. cbn [lookup_entry]. rewrite add_entry_first. cbn [set_entry].
  rewrite String.eqb_refl.
  unfold io_bind at 1.
  rewrite (open_without_sentence order _ _ 1 "./data/f2.txt" "./data/" "f2.txt"
             [("f1.txt", File (text_of_lines s1))]); try done.
  - change (dir_of "./data/") with "./data/". by rewrite insert_insert_eq.
  - change (dir_of "./data/") with "./data/". by rewrite lookup_insert_eq.
Qed.

(** On an empty ./data/ the two files are all there is, in one of the two
    orders, as the file system lists the second file before or after the
    first. *)
Lemma toy_directory_fresh order (s1 s2 : list string) :
  toy_directory order s1 s2 []
  = set_entry "f2.txt" (File (text_of_lines s2))
      (arrange order [("f1.txt", File (text_of_lines s1)); ("f2.txt", File EmptyString)])
  /\ (toy_directory order s1 s2 [] = written_directory s1 s2
      \/ toy_directory order s1 s2 []
         = [("f2.txt", File (text_of_lines s2)); ("f1.txt", File (text_of_lines s1))]).
Proof.
  assert (Hshape : toy_directory order s1 s2 []
    = set_entry "f2.txt" (File (text_of_lines s2))
        (arrange order [("f1.txt", File (text_of_lines s1)); ("f2.txt", File EmptyString)])).
  { unfold toy_directory. unfold opened at 2. cbn [lookup_entry].
    rewrite add_entry_first. cbn [set_entry]. rewrite String.eqb_refl.
    reflexivity. }
  split; [exact Hshape|]. rewrite Hshape.
  destruct (Permutation_length_2_inv
              (Permutation_sym
                 (arrange_perm order [("f1.txt", File (text_of_lines s1));
                                      ("f2.txt", File EmptyString)]))) as [-> | ->].
  - by left.
  - by right.
Qed.

Lemma isspace_not_LF c : Py.isspace c = false -> Ascii.eqb c Py.LF = false.
Proof. by destruct c as [[] [] [] [] [] [] [] []]. Qed.

Lemma clean_word_chars w :
  clean_word w = true -> Forall (fun c => Py.isspace c = false) (Py.chars w).
Proof.
  intros H. assert (H' : forallb (fun c => negb (Py.isspace c)) (Py.chars w) = true).
  { by destruct w. }
  apply Forall_forall. intros c Hc.
  rewrite forallb_forall in H'. apply negb_true_iff, H'. by apply list_elem_of_In.
Qed.

(** A clean word followed by LF is one line, and splits to that word alone. *)
Lemma split_clean_line w : clean_word w = true -> Py.split (w +:+ nl) = [w].
Proof.
  intros H. unfold Py.split. rewrite split_from_word by by apply clean_word_chars.
  rewrite app_nil_r. simpl.
  destruct w as [|c w]; [done|].
  destruct (rev (Py.chars (String c w))) as [|a acc] eqn:E.
  - apply (f_equal length) in E. rewrite length_rev in E. done.
  - simpl. change (Py.of_rev acc (String a EmptyString)) with (Py.of_rev (a :: acc) EmptyString).
    by rewrite <- E, of_rev_chars, string_app_nil_r.
Qed.

Lemma readlines_text words :
  Forall (fun w => clean_word w = true) words ->
  Py.readlines (text_of_lines words) = map (fun w => w +:+ nl) words.
Proof.
  unfold Py.readlines. induction words as [|w words IH]; intros Hw; [done|].
  inversion Hw as [|? ? Hc Hws]; subst. simpl.
  rewrite lines_from_nolf.
  - rewrite app_nil_r. unfold nl at 1. rewrite string_app_cons. simpl.
    change (EmptyString +:+ text_of_lines words) with (text_of_lines words).
    rewrite IH by done. f_equal.
    change (Py.of_rev (rev (Py.chars w)) (String Py.LF EmptyString))
      with (Py.of_rev (rev (Py.chars w)) nl).
    by rewrite of_rev_chars.
  - eapply Forall_impl; [by apply clean_word_chars|]. apply isspace_not_LF.
Qed.

(** Reading back the file written for a sentence: one singleton per word. *)
Lemma split_readlines_text words :
  Forall (fun w => clean_word w = true) words ->
  map Py.split (Py.readlines (text_of_lines words)) = map (fun w => [w]) words.
Proof.
  intros Hw. rewrite readlines_text by done. rewrite map_map.
  induction Hw as [|w words Hc _ IH]; [done|].
  simpl. by rewrite split_clean_line, IH.
Qed.

(** Whatever order [os.listdir] reports the two files in, reading them back
    gives the singletons of one sentence, then those of the other. *)
Lemma read_back_any_order fs (s1 s2 : list string) d :
  Forall (fun w => clean_word w = true) s1 ->
  Forall (fun w => clean_word w = true) s2 ->
  d ≡ₚ written_directory s1 s2 ->
  exists yielded,
    MySentences.__iter__ (MySentences.__init__ "./data/") (<["./data/" := d]> fs)
    = (yielded, Ok tt)
    /\ (yielded = map (fun w => [w]) (s1 ++ s2)
        \/ yielded = map (fun w => [w]) (s2 ++ s1)).
Proof.
  intros H1 H2 Hperm. symmetry in Hperm. unfold written_directory in Hperm.
  apply Permutation_length_2_inv in Hperm as [-> | ->].
  - exists (map (fun w => [w]) (s1 ++ s2)). split; [|by left].
    erewrite MySentences_iter_trace;
      [ | done | apply lookup_insert_eq | reflexivity].
    rewrite iter_trace_all_files by reflexivity.
    unfold sentences_in_order. simpl.
    rewrite !split_readlines_text by done. by rewrite app_nil_r, map_app.
  - exists (map (fun w => [w]) (s2 ++ s1)). split; [|by right].
    erewrite MySentences_iter_trace;
      [ | done | apply lookup_insert_eq | reflexivity].
    rewrite iter_trace_all_files by reflexivity.
    unfold sentences_in_order. simpl.
    rewrite !split_readlines_text by done. by rewrite app_nil_r, map_app.
Qed.

Lemma concat_singletons (ws : list string) : concat (map (fun w => [w]) ws) = ws.
Proof. induction ws as [|w ws IH]; [done|]. simpl. by rewrite IH. Qed.

End ToyData.

(** ** The vocabulary of the modelled library *)

Section Vocabulary.

Implicit Types (m : gmap string nat) (ws : list string) (sentences : list (list string)).


Lemma foldl_count_dom ws : forall m,
  dom (foldl gensim.count_word m ws) = dom m ∪ list_to_set ws.
Proof.
  induction ws as [|w ws IH]; intros m; simpl.
  - set_solver.
  - rewrite IH. unfold gensim.count_word. rewrite dom_insert_L. set_solver.
Qed.

Lemma foldl_count_positive ws : forall m,
  (forall w n, m !! w = Some n -> 1 <= n) ->
  forall w n, foldl gensim.count_word m ws !! w = Some n -> 1 <= n.
Proof.
  induction ws as [|v ws IH]; intros m Hm; simpl; [exact Hm|].
  apply IH. intros w n. unfold gensim.count_word.
  destruct (decide (v = w)) as [->|Hne].
  - rewrite lookup_insert_eq. intros [= <-]. lia.
  - rewrite lookup_insert_ne by done. apply Hm.
Qed.

Lemma scan_vocab_dom sentences :
  dom (gensim.scan_vocab sentences) = list_to_set (concat sentences).
Proof.
  unfold gensim.scan_vocab.
  rewrite foldl_count_dom. set_solver.
Qed.

(** Whatever [min_count], only observed tokens are kept. *)
Lemma build_vocab_subset n sentences w :
  w ∈ dom (gensim.build_vocab n sentences) -> w ∈ concat sentences.
Proof.
  unfold gensim.build_vocab. intros Hw.
  apply (dom_filter_subseteq _ _) in Hw.
  rewrite scan_vocab_dom in Hw. by apply elem_of_list_to_set in Hw.
Qed.

(** With [min_count=1] nothing is pruned. *)
Lemma build_vocab_1 sentences :
  gensim.build_vocab 1 sentences = gensim.scan_vocab sentences.
Proof.
  unfold gensim.build_vocab. apply map_filter_id. intros w n Hw. simpl.
  unfold gensim.scan_vocab in Hw.
  by apply (foldl_count_positive (concat sentences) ∅) in Hw.
Qed.

End Vocabulary.

(** ** In [3] on a fresh ./data/, and what is read back *)

Section ReadBackFresh.

Implicit Types (order : listing) (fs : filesystem) (s : list string).

Lemma iter_two_files fs (n1 n2 t1 t2 : string) :
  fs !! "./data/" = Some [(n1, File t1); (n2, File t2)] ->
  wf_directory [(n1, File t1); (n2, File t2)] = true ->
  MySentences.__iter__ (MySentences.__init__ "./data/") fs
  = (map Py.split (Py.readlines t1) ++ map Py.split (Py.readlines t2), Ok tt).
Proof.
  intros Hd Hwf.
  rewrite (MySentences_iter_trace fs "./data/" _ ltac:(done) Hd Hwf).
  rewrite iter_trace_all_files by reflexivity.
  unfold sentences_in_order. simpl. by rewrite app_nil_r.
Qed.

(** The cell on a fresh ./data/ ends normally and leaves the two files, in
    the order the file system lists them; the iterator reads them in that
    order. *)
Lemma read_back_fresh order fs s1 s2 (more : list (list string)) :
  fresh_data fs ->
  let after := write_toy_data order (s1 :: s2 :: more) fs in
  let sentences_of s := map Py.split (Py.readlines (text_of_lines s)) in
  after.1 = Ok tt
  /\ after.2 !! "./data/" = Some (toy_directory order s1 s2 [])
  /\ (toy_directory order s1 s2 [] = written_directory s1 s2
      /\ MySentences.__iter__ (MySentences.__init__ "./data/") after.2
         = (sentences_of s1 ++ sentences_of s2, Ok tt)
      \/ toy_directory order s1 s2 []
         = [("f2.txt", File (text_of_lines s2)); ("f1.txt", File (text_of_lines s1))]
      /\ MySentences.__iter__ (MySentences.__init__ "./data/") after.2
         = (sentences_of s2 ++ sentences_of s1, Ok tt)).
Proof.
  intros Hfresh after sentences_of.
  destruct (fresh_start order fs Hfresh) as (fs1 & Hfs1 & Hstart).
  assert (Hafter : after = (Ok tt, <["./data/" := toy_directory order s1 s2 []]> fs1)).
  { unfold after. rewrite Hstart.
    apply (toy_data_loop_run order fs1 []); [done | constructor | done | done]. }
  rewrite Hafter. cbn [fst snd].
  split; [done|]. split; [apply lookup_insert_eq|].
  destruct (toy_directory_fresh order s1 s2) as [_ [Hd | Hd]]; [left | right];
    (split; [exact Hd|]); rewrite Hd.
  - apply (iter_two_files _ "f1.txt" "f2.txt"); [apply lookup_insert_eq | reflexivity].
  - apply (iter_two_files _ "f2.txt" "f1.txt"); [apply lookup_insert_eq | reflexivity].
Qed.

Lemma singletons_length (ws : list string) :
  Forall (fun sentence : list string => length sentence = 1) (map (fun w => [w]) ws).
Proof.
  apply Forall_forall. intros s Hs.
  apply list_elem_of_In, in_map_iff in Hs as (w & <- & _). done.
Qed.

Lemma singletons_differ (s1 s2 ws : list string) :
  length s1 <> 1 \/ length s2 <> 1 -> map (fun w => [w]) ws <> [s1; s2].
Proof.
  intros Hlen Heq.
  assert (Hone : Forall (fun sentence : list string => length sentence = 1) [s1; s2]).
  { rewrite <- Heq. apply singletons_length. }
  inversion Hone as [|? ? H1 Hrest]; subst.
  inversion Hrest as [|? ? H2 _]; subst.
  destruct Hlen; done.
Qed.

Lemma first_listed order (e1 e2 : string * node) :
  (arrange order [e1; e2]).*1 = [e1.1; e2.1] ->
  e1.1 <> e2.1 ->
  arrange order [e1; e2] = [e1; e2].
Proof.
  intros Hnames Hne.
  destruct (Permutation_length_2_inv (Permutation_sym (arrange_perm order [e1; e2])))
    as [H | H]; [done|].
  rewrite H in Hnames. simpl in Hnames. congruence.
Qed.

(** Where the file system lists f1.txt before f2.txt, ./data/ is
    [written_directory]. *)
Lemma toy_directory_f1_first order s1 s2 :
  (arrange order [("f1.txt", File (text_of_lines s1)); ("f2.txt", File EmptyString)]).*1
  = ["f1.txt"; "f2.txt"] ->
  toy_directory order s1 s2 [] = written_directory s1 s2.
Proof.
  intros Hnames. destruct (toy_directory_fresh order s1 s2) as [-> _].
  rewrite first_listed; [reflexivity | exact Hnames | done].
Qed.

End ReadBackFresh.

(** The list of C8 is not what the code yields on every file system: where
    new entries are listed first, as on tmpfs, [os.listdir] reports f2.txt
    before f1.txt and the words of the second sentence come first. *)
Lemma read_back_newest_first :
  let read_back (order : listing) (fs : filesystem) :=
    ((write_toy_data order sentences0 ;;
      list_ (MySentences.__iter__ (MySentences.__init__ "./data/")))%io fs).1 in
  fresh_data ∅
  /\ read_back newest_first ∅
     = Ok [["second"]; ["sentence"]; ["first"]; ["sentence"]]
  /\ ~ (forall order fs,
          fresh_data fs ->
          read_back order fs = Ok [["first"]; ["sentence"]; ["second"]; ["sentence"]]).
Proof.
  intros read_back.
  assert (Hfresh : fresh_data ∅) by (right; split; reflexivity).
  assert (Hrun : read_back newest_first ∅
                 = Ok [["second"]; ["sentence"]; ["first"]; ["sentence"]]).
  { vm_compute. reflexivity. }
  split; [exact Hfresh|]. split; [exact Hrun|].
  intros H. specialize (H newest_first ∅ Hfresh). rewrite Hrun in H. discriminate H.
Qed.

(** C8, amended.  The toy data does not come back as it went in.  On a
    ./data/ that is fresh (an empty directory, or nothing of that name), In
    [3] writes each word of sentence i on a line of its own in file i;
    iterating [MySentences('./data/')] afterwards yields one singleton list
    per word, the words of one file and then those of the other, in the
    order [os.listdir] reports the two files:
    [[['first'], ['sentence'], ['second'], ['sentence']]] for the notebook's
    sentences where f1.txt is listed first, as in the saved output, and
    [[['second'], ['sentence'], ['first'], ['sentence']]] where f2.txt is.
    Either way it is not the list of the two-word sentences, while the
    tokens, counted with multiplicity, are the same.  The same holds for any
    two sentences of clean words. *)
Theorem toy_data_round_trip (order : listing) (fs : filesystem) :
  fresh_data fs ->
  let read_back (sentences : list (list string)) :=
    (write_toy_data order sentences ;;
     list_ (MySentences.__iter__ (MySentences.__init__ "./data/")))%io fs in
  (exists yielded,
      (read_back sentences0).1 = Ok yielded
      /\ (yielded = [["first"]; ["sentence"]; ["second"]; ["sentence"]]
          \/ yielded = [["second"]; ["sentence"]; ["first"]; ["sentence"]])
      /\ yielded <> sentences0
      /\ concat yielded ≡ₚ concat sentences0)
  /\ (forall s1 s2 more,
        Forall (fun w => clean_word w = true) s1 ->
        Forall (fun w => clean_word w = true) s2 ->
        (exists d yielded,
            (write_toy_data order (s1 :: s2 :: more) fs).1 = Ok tt
            /\ (write_toy_data order (s1 :: s2 :: more) fs).2 !! "./data/" = Some d
            /\ d = set_entry "f2.txt" (File (text_of_lines s2))
                     (arrange order [("f1.txt", File (text_of_lines s1));
                                     ("f2.txt", File EmptyString)])
            /\ (read_back (s1 :: s2 :: more)).1 = Ok yielded
            /\ (d = written_directory s1 s2
                /\ yielded = map (fun w => [w]) (s1 ++ s2)
                \/ d = [("f2.txt", File (text_of_lines s2));
                        ("f1.txt", File (text_of_lines s1))]
                /\ yielded = map (fun w => [w]) (s2 ++ s1))
            /\ Forall (fun sentence => length sentence = 1) yielded
            /\ concat yielded ≡ₚ concat [s1; s2]
            /\ (length s1 <> 1 \/ length s2 <> 1 -> yielded <> [s1; s2]))
        /\ ((arrange order [("f1.txt", File (text_of_lines s1));
                            ("f2.txt", File EmptyString)]).*1 = ["f1.txt"; "f2.txt"] ->
            (read_back (s1 :: s2 :: more)).1 = Ok (map (fun w => [w]) (s1 ++ s2)))
        /\ (forall d,
              d ≡ₚ written_directory s1 s2 ->
              exists yielded,
                MySentences.__iter__ (MySentences.__init__ "./data/")
                  (<["./data/" := d]> fs) = (yielded, Ok tt)
                /\ Forall (fun sentence => length sentence = 1) yielded
                /\ concat yielded ≡ₚ concat [s1; s2])).
Proof.
  intros Hfresh read_back.
  assert (Hgen : forall s1 s2 more,
    Forall (fun w => clean_word w = true) s1 ->
    Forall (fun w => clean_word w = true) s2 ->
    (write_toy_data order (s1 :: s2 :: more) fs).1 = Ok tt
    /\ (write_toy_data order (s1 :: s2 :: more) fs).2 !! "./data/"
       = Some (toy_directory order s1 s2 [])
    /\ (toy_directory order s1 s2 [] = written_directory s1 s2
        /\ (read_back (s1 :: s2 :: more)).1 = Ok (map (fun w => [w]) (s1 ++ s2))
        \/ toy_directory order s1 s2 []
           = [("f2.txt", File (text_of_lines s2)); ("f1.txt", File (text_of_lines s1))]
        /\ (read_back (s1 :: s2 :: more)).1 = Ok (map (fun w => [w]) (s2 ++ s1)))).
  { intros s1 s2 more H1 H2.
    destruct (read_back_fresh order fs s1 s2 more Hfresh) as (Hok & Hd & Hiter).
    split; [exact Hok|]. split; [exact Hd|].
    unfold read_back, io_bind.
    destruct (write_toy_data order (s1 :: s2 :: more) fs) as [r fs'].
    cbn [fst snd] in *. subst r. unfold list_.
    rewrite !split_readlines_text in Hiter by done. rewrite <- !map_app in Hiter.
    destruct Hiter as [[Hdir Hiter] | [Hdir Hiter]]; [left | right];
      (split; [exact Hdir|]); by rewrite Hiter. }
  split.
  - destruct (Hgen ["first"; "sentence"] ["second"; "sentence"] [])
      as (_ & _ & [[_ Hrun] | [_ Hrun]]); [repeat constructor | repeat constructor | |].
    + exists [["first"]; ["sentence"]; ["second"]; ["sentence"]].
      split; [exact Hrun|]. split; [by left|]. split; [done|]. reflexivity.
    + exists [["second"]; ["sentence"]; ["first"]; ["sentence"]].
      split; [exact Hrun|]. split; [by right|]. split; [done|].
      apply (Permutation_app_comm ["second"; "sentence"] ["first"; "sentence"]).
  - intros s1 s2 more H1 H2.
    destruct (Hgen s1 s2 more H1 H2) as (Hok & Hd & Hrun).
    split; [|split].
    + destruct Hrun as [[Hdir Hrun] | [Hdir Hrun]].
      * exists (toy_directory order s1 s2 []), (map (fun w => [w]) (s1 ++ s2)).
        split; [exact Hok|]. split; [exact Hd|].
        split; [apply toy_directory_fresh|]. split; [exact Hrun|].
        split; [by left|]. split; [apply singletons_length|].
        split; [|by apply singletons_differ].
        rewrite concat_singletons. simpl. by rewrite app_nil_r.
      * exists (toy_directory order s1 s2 []), (map (fun w => [w]) (s2 ++ s1)).
        split; [exact Hok|]. split; [exact Hd|].
        split; [apply toy_directory_fresh|]. split; [exact Hrun|].
        split; [by right|]. split; [apply singletons_length|].
        split; [|by apply singletons_differ].
        rewrite concat_singletons. simpl. rewrite app_nil_r.
        apply Permutation_app_comm.
    + intros Hnames. apply (toy_directory_f1_first order s1 s2) in Hnames.
      destruct Hrun as [[_ Hrun] | [Hdir _]]; [exact Hrun|].
      rewrite Hnames in Hdir. discriminate Hdir.
    + intros d Hd'.
      destruct (read_back_any_order fs s1 s2 d H1 H2 Hd') as (yielded & Hiter & Hy).
      exists yielded. split; [exact Hiter|].
      simpl. rewrite app_nil_r.
      destruct Hy as [-> | ->]; (split; [apply singletons_length|]);
        rewrite concat_singletons.
      * done.
      * apply Permutation_app_comm.
Qed.

Lemma toy_data_round_trip_witness :
  ((write_toy_data creation_order sentences0 ;;
    list_ (MySentences.__iter__ (MySentences.__init__ "./data/")))%io ∅).1
  = Ok [["first"]; ["sentence"]; ["second"]; ["sentence"]]
  /\ exists yielded,
       ((write_toy_data newest_first sentences0 ;;
         list_ (MySentences.__iter__ (MySentences.__init__ "./data/")))%io
          {[ "./" := [("word2vec.ipynb", File "{}")] ]}).1
       = Ok yielded
       /\ yielded <> sentences0
       /\ concat yielded ≡ₚ concat sentences0.
Proof.
  split.
  - destruct (toy_data_round_trip creation_order ∅) as [_ Hgen].
    { right. split; reflexivity. }
    destruct (Hgen ["first"; "sentence"] ["second"; "sentence"] [])
      as (_ & Hfirst & _); [repeat constructor | repeat constructor |].
    apply Hfirst. reflexivity.
  - destruct (toy_data_round_trip newest_first {[ "./" := [("word2vec.ipynb", File "{}")] ]})
      as [(yielded & Hrun & _ & Hne & Hperm) _].
    { right. split; reflexivity. }
    by exists yielded.
Defined.

(** In [3] to In [6] where In [3] ends normally: the model is built from
    what [MySentences('./data/')] yields on the file system that In [3]
    leaves. *)
Lemma In_3_to_6_run (order : listing) (fs : filesystem)
    (sentences seen : list (list string)) :
  (write_toy_data order sentences fs).1 = Ok tt ->
  MySentences.__iter__ (MySentences.__init__ "./data/")
    (write_toy_data order sentences fs).2 = (seen, Ok tt) ->
  In_3_to_6 order sentences fs
  = (Ok (seen, {| gensim.min_count := 1; gensim.vocab := gensim.build_vocab 1 seen |}),
     (write_toy_data order sentences fs).2).
Proof.
  intros Hok Hiter. unfold In_3_to_6.
  unfold io_bind at 1.
  destruct (write_toy_data order sentences fs) as [r fs'].
  cbn [fst snd] in *. subst r.
  unfold io_bind at 1. unfold list_ at 1. rewrite Hiter.
  unfold gensim.Word2Vec_, io_bind, list_. rewrite Hiter. reflexivity.
Qed.

(** The model of In [2] is built and then dropped: [model] is bound again
    in In [6]. *)
Lemma In_2_to_6_rebinds (order : listing) (fs : filesystem) :
  In_2_to_6 order fs = In_3_to_6 order sentences0 fs.
Proof.
  unfold In_2_to_6.
  unfold io_bind at 1. unfold gensim.Word2Vec_ at 1, io_bind at 1, list_ at 1.
  by rewrite iter_list_trace.
Qed.

Lemma vocabulary_of_tokens (ws : list string) :
  (list_to_set ws : gset string) = {["first"; "second"; "sentence"]} ->
  forall seen : list (list string),
    concat seen = ws ->
    dom (gensim.build_vocab 1 seen) = ({["first"; "second"; "sentence"]} : gset string)
    /\ size (gensim.build_vocab 1 seen) = 3.
Proof.
  intros Hws seen Hseen.
  assert (Hdom : dom (gensim.build_vocab 1 seen)
                 = ({["first"; "second"; "sentence"]} : gset string)).
  { by rewrite build_vocab_1, scan_vocab_dom, Hseen. }
  split; [exact Hdom|].
  rewrite <- size_dom, Hdom. clear.
  rewrite size_union by set_solver. rewrite size_union by set_solver.
  by rewrite !size_singleton.
Qed.

(** C7.  The vocabulary is the set of the distinct tokens of the first pass:
    with [min_count=1] its words are exactly the tokens that occur in the
    input sentences.  On a fresh ./data/, In [3] ends normally,
    [MySentences('./data/')] then yields the singletons of the words
    written, those of one file and then those of the other, and the model
    of In [6] holds the vocabulary of exactly these sentences: the set of
    the words of the two sentences written, whatever other sentences the
    global [sentences] held.  In the notebook's run that is {'first',
    'second', 'sentence'}, three words, in whatever order the two files are
    listed. *)
Theorem vocabulary_of_first_pass (order : listing) (fs : filesystem) :
  fresh_data fs ->
  (forall sentences : list (list string),
      dom (gensim.build_vocab 1 sentences) = list_to_set (concat sentences))
  /\ (forall s1 s2 more,
        Forall (fun w => clean_word w = true) s1 ->
        Forall (fun w => clean_word w = true) s2 ->
        let written := (write_toy_data order (s1 :: s2 :: more) fs).2 in
        let seen := (MySentences.__iter__ (MySentences.__init__ "./data/") written).1 in
        (write_toy_data order (s1 :: s2 :: more) fs).1 = Ok tt
        /\ MySentences.__iter__ (MySentences.__init__ "./data/") written = (seen, Ok tt)
        /\ (seen = map (fun w => [w]) (s1 ++ s2) \/ seen = map (fun w => [w]) (s2 ++ s1))
        /\ In_3_to_6 order (s1 :: s2 :: more) fs
           = (Ok (seen, {| gensim.min_count := 1;
                           gensim.vocab := gensim.build_vocab 1 seen |}),
              written)
        /\ dom (gensim.build_vocab 1 seen) = list_to_set (s1 ++ s2))
  /\ (let written := (write_toy_data order sentences0 fs).2 in
      let seen := (MySentences.__iter__ (MySentences.__init__ "./data/") written).1 in
      In_2_to_6 order fs
      = (Ok (seen, {| gensim.min_count := 1; gensim.vocab := gensim.build_vocab 1 seen |}),
         written)
      /\ (seen = [["first"]; ["sentence"]; ["second"]; ["sentence"]]
          \/ seen = [["second"]; ["sentence"]; ["first"]; ["sentence"]])
      /\ dom (gensim.build_vocab 1 seen)
         = ({["first"; "second"; "sentence"]} : gset string)
      /\ size (gensim.build_vocab 1 seen) = 3)
  /\ (forall d,
        d ≡ₚ written_directory ["first"; "sentence"] ["second"; "sentence"] ->
        exists model fs',
          gensim.Word2Vec_ (MySentences.__iter__ (MySentences.__init__ "./data/")) 1
            (<["./data/" := d]> fs) = (Ok model, fs')
          /\ dom (gensim.vocab model)
             = ({["first"; "second"; "sentence"]} : gset string)).
Proof.
  intros Hfresh.
  assert (Hdom : forall sentences : list (list string),
            dom (gensim.build_vocab 1 sentences) = list_to_set (concat sentences)).
  { intros sentences. by rewrite build_vocab_1, scan_vocab_dom. }
  assert (Hgen : forall s1 s2 more,
    Forall (fun w => clean_word w = true) s1 ->
    Forall (fun w => clean_word w = true) s2 ->
    let written := (write_toy_data order (s1 :: s2 :: more) fs).2 in
    let seen := (MySentences.__iter__ (MySentences.__init__ "./data/") written).1 in
    (write_toy_data order (s1 :: s2 :: more) fs).1 = Ok tt
    /\ MySentences.__iter__ (MySentences.__init__ "./data/") written = (seen, Ok tt)
    /\ (seen = map (fun w => [w]) (s1 ++ s2) \/ seen = map (fun w => [w]) (s2 ++ s1))
    /\ In_3_to_6 order (s1 :: s2 :: more) fs
       = (Ok (seen, {| gensim.min_count := 1;
                       gensim.vocab := gensim.build_vocab 1 seen |}),
          written)).
  { intros s1 s2 more H1 H2 written seen.
    destruct (read_back_fresh order fs s1 s2 more Hfresh) as (Hok & _ & Hiter).
    fold written in Hiter.
    rewrite !split_readlines_text in Hiter by done. rewrite <- !map_app in Hiter.
    assert (Hrun : exists seen0,
              MySentences.__iter__ (MySentences.__init__ "./data/") written
              = (seen0, Ok tt)
              /\ (seen0 = map (fun w => [w]) (s1 ++ s2)
                  \/ seen0 = map (fun w => [w]) (s2 ++ s1))).
    { destruct Hiter as [[_ Hiter] | [_ Hiter]]; eexists; (split; [exact Hiter|]);
        [by left | by right]. }
    destruct Hrun as (seen0 & Hrun & Hseen).
    assert (Hs : seen = seen0) by (unfold seen; by rewrite Hrun).
    rewrite Hs. split; [exact Hok|]. split; [exact Hrun|]. split; [exact Hseen|].
    by apply In_3_to_6_run. }
  split; [exact Hdom|]. split; [|split].
  - intros s1 s2 more H1 H2 written seen.
    destruct (Hgen s1 s2 more H1 H2) as (Hok & Hiter & Hseen & Hrun).
    fold written seen in Hiter, Hseen, Hrun.
    split; [exact Hok|]. split; [exact Hiter|]. split; [exact Hseen|].
    split; [exact Hrun|].
    rewrite Hdom. clear Hiter Hrun Hok.
    destruct Hseen as [-> | ->]; rewrite concat_singletons; [done|].
    rewrite !list_to_set_app_L. clear. set_solver.
  - intros written seen.
    destruct (Hgen ["first"; "sentence"] ["second"; "sentence"] [])
      as (_ & _ & Hseen & Hrun); [repeat constructor | repeat constructor |].
    fold sentences0 in Hseen, Hrun. fold written seen in Hseen, Hrun.
    split; [by rewrite In_2_to_6_rebinds|]. split; [exact Hseen|].
    clear Hrun.
    destruct Hseen as [-> | ->].
    + apply (vocabulary_of_tokens ["first"; "sentence"; "second"; "sentence"]);
        [|reflexivity].
      rewrite !list_to_set_cons, list_to_set_nil. clear. set_solver.
    + apply (vocabulary_of_tokens ["second"; "sentence"; "first"; "sentence"]);
        [|reflexivity].
      rewrite !list_to_set_cons, list_to_set_nil. clear. set_solver.
  - intros d Hd.
    destruct (read_back_any_order fs ["first"; "sentence"] ["second"; "sentence"] d)
      as (yielded & Hrun & Hy); [repeat constructor | repeat constructor | done |].
    eexists _, _. unfold gensim.Word2Vec_, io_bind, list_. rewrite Hrun.
    split; [reflexivity|]. cbn [gensim.vocab]. rewrite Hdom. clear Hrun Hd Hdom.
    destruct Hy as [-> | ->]; rewrite concat_singletons; simpl app;
      rewrite !list_to_set_cons, list_to_set_nil; clear; set_solver.
Qed.

Lemma vocabulary_of_first_pass_witness :
  let fs : filesystem := {[ "./" := [("word2vec.ipynb", File "{}")] ]} in
  (In_2_to_6 creation_order fs).1
  = Ok ([["first"]; ["sentence"]; ["second"]; ["sentence"]],
        {| gensim.min_count := 1;
           gensim.vocab := {[ "first" := 1; "second" := 1; "sentence" := 2 ]} |})
  /\ (In_3_to_6 newest_first
        [["first"; "sentence"]; ["second"; "sentence"]; ["third"; "sentence"]] fs).1
     = Ok ([["second"]; ["sentence"]; ["first"]; ["sentence"]],
           {| gensim.min_count := 1;
              gensim.vocab := {[ "first" := 1; "second" := 1; "sentence" := 2 ]} |}).
Proof.
  intros fs.
  destruct (vocabulary_of_first_pass creation_order fs) as (_ & _ & Hrun & _);
    [right; split; reflexivity|].
  destruct (vocabulary_of_first_pass newest_first fs) as (_ & Hgen & _);
    [right; split; reflexivity|].
  specialize (Hgen ["first"; "sentence"] ["second"; "sentence"] [["third"; "sentence"]]).
  cbv zeta in Hrun, Hgen.
  destruct Hrun as (Hrun & _).
  destruct Hgen as (_ & _ & _ & Hgen & _); [repeat constructor | repeat constructor |].
  rewrite Hrun, Hgen. split; vm_compute; reflexivity.
Defined.

(** What [print] writes for the list read back is the output saved in the
    notebook. *)
Example printed_list_is_saved_output :
  Py.repr_list (Py.repr_list Py.repr) [["first"]; ["sentence"]; ["second"]; ["sentence"]]
  = stdout_of_print_list.
Proof. reflexivity. Qed.

(** ** Iterating MyText *)

Lemma MyText_iter_trace (fs : filesystem) (path content : string) :
  file_content fs path = Some content ->
  MyText.__iter__ path MyText.Build_t fs
  = (map (fun line => Py.split (Py.lower line)) (Py.readlines content), Ok tt).
Proof.
  intros Hfile. unfold MyText.__iter__, gen_bind, open_. rewrite Hfile.
  by rewrite gen_for_yield.
Qed.

Lemma MyText_iter_missing (fs : filesystem) (path : string) :
  file_content fs path = None ->
  MyText.__iter__ path MyText.Build_t fs = ([], Raised IOError).
Proof. intros Hfile. unfold MyText.__iter__, gen_bind, open_. by rewrite Hfile. Qed.

Lemma MyText_yields_lowercase (fs : filesystem) (path : string) :
  Forall (Forall lowercase) (MyText.__iter__ path MyText.Build_t fs).1.
Proof.
  destruct (file_content fs path) as [content|] eqn:Hfile.
  - rewrite (MyText_iter_trace fs path content Hfile). simpl.
    apply Forall_forall. intros sentence Hin.
    apply list_elem_of_In, in_map_iff in Hin as (line & <- & _).
    apply split_bytes, lower_not_upper.
  - rewrite (MyText_iter_missing fs path Hfile). constructor.
Qed.

(** C9.  Every token [MyText.__iter__] yields is lower-case: the sentence
    yielded for a line is the list of the whitespace-delimited fields of
    [line.lower()], which are the fields of the line, each lower-cased; so no
    yielded token holds an upper-case byte, and every word of a vocabulary
    made of tokens observed in these sentences, as the library's is, is
    lower-case. *)
Theorem MyText_tokens_lowercase (fs : filesystem) (path content : string) :
  file_content fs path = Some content ->
  let sentences := MyText.__iter__ path MyText.Build_t in
  sentences fs
  = (map (fun line => Py.split (Py.lower line)) (Py.readlines content), Ok tt)
  /\ (sentences fs).1
     = map (fun line => map Py.lower (Py.split line)) (Py.readlines content)
  /\ Forall (Forall lowercase) (sentences fs).1
  /\ (forall vocabulary : list (list string) -> gset string,
        (forall seen w, w ∈ vocabulary seen -> w ∈ concat seen) ->
        forall w, w ∈ vocabulary (sentences fs).1 -> lowercase w).
Proof.
  intros Hfile sentences. split; [by apply MyText_iter_trace|].
  split.
  { unfold sentences. rewrite (MyText_iter_trace fs path content Hfile). simpl.
    apply map_ext. intros line. apply split_lower. }
  split; [apply MyText_yields_lowercase|].
  intros vocabulary Hobserved w Hw.
  pose proof (MyText_yields_lowercase fs path) as Hlow. fold sentences in Hlow.
  apply Hobserved in Hw.
  apply list_elem_of_In, in_concat in Hw as (sentence & Hsentence & Hw).
  apply list_elem_of_In in Hsentence, Hw.
  rewrite Forall_forall in Hlow. specialize (Hlow sentence Hsentence).
  rewrite Forall_forall in Hlow. by apply Hlow.
Qed.

Lemma MyText_tokens_lowercase_witness :
  let fs : filesystem :=
    {[ "corpus/" := [("lee_background.cor",
                      File ("Hundreds of people" +:+ nl +:+ "Indian SECURITY forces" +:+ nl))] ]} in
  let sentences := MyText.__iter__ "corpus/lee_background.cor" MyText.Build_t in
  sentences fs = ([["hundreds"; "of"; "people"]; ["indian"; "security"; "forces"]], Ok tt)
  /\ (forall n w, w ∈ dom (gensim.build_vocab n (sentences fs).1) -> lowercase w).
Proof.
  intros fs sentences.
  destruct (MyText_tokens_lowercase fs "corpus/lee_background.cor"
              ("Hundreds of people" +:+ nl +:+ "Indian SECURITY forces" +:+ nl)
              eq_refl) as (Hrun & _ & _ & Hvocabulary).
  split; [exact Hrun|].
  intros n w.
  apply (Hvocabulary (fun seen => dom (gensim.build_vocab n seen))).
  intros seen v. apply build_vocab_subset.
Defined.

(** ** What the notebook's code contains *)

(** Replaces a closed term of the goal by its value. *)
Ltac evaluate t :=
  let v := eval vm_compute in t in
  replace t with v by (vm_compute; reflexivity).

Lemma program_invocations :
  map (fun i => (callee i, origin i, nesting i)) (invocations notebook)
  = [("basicConfig", Library "logging", 0); ("Word2Vec", Library "gensim", 0);
     ("exists", Library "os", 0); ("makedirs", Library "os", 1);
     ("enumerate", Builtin, 0); ("smart_open", Library "smart_open", 1);
     ("write", Library "smart_open", 3); ("listdir", Library "os", 2);
     ("open", Builtin, 3); ("join", Library "os", 3); ("split", Builtin, 4);
     ("MySentences", Authored "MySentences", 0); ("list", Builtin, 0);
     ("Word2Vec", Library "gensim", 0); ("Word2Vec", Library "gensim", 0);
     ("build_vocab", Library "gensim", 0); ("train", Library "gensim", 0);
     ("join", Builtin, 0); ("format", Builtin, 0); ("open", Builtin, 2);
     ("split", Builtin, 3); ("lower", Builtin, 3);
     ("MyText", Authored "MyText", 0); ("Word2Vec", Library "gensim", 0);
     ("Word2Vec", Library "gensim", 0); ("Word2Vec", Library "gensim", 0);
     ("accuracy", Library "gensim", 0);
     ("evaluate_word_pairs", Library "gensim", 0);
     ("mkstemp", Library "tempfile", 0); ("save", Library "gensim", 0);
     ("load", Library "gensim", 0); ("load", Library "gensim", 0);
     ("build_vocab", Library "gensim", 0); ("train", Library "gensim", 0);
     ("close", Library "os", 0); ("remove", Library "os", 0);
     ("most_similar", Library "gensim", 0); ("doesnt_match", Library "gensim", 0);
     ("split", Builtin, 0); ("similarity", Library "gensim", 0);
     ("similarity", Library "gensim", 0)].
Proof. vm_compute. reflexivity. Qed.

Lemma program_definitions :
  definitions notebook
  = [("MySentences", ["__init__"; "__iter__"]); ("MyText", ["__iter__"])].
Proof. reflexivity. Qed.

(** C1.  Every call of [Word2Vec], [build_vocab], [train], [most_similar],
    [save] or [load] in the notebook reaches its function through the
    imported module [gensim] (directly, or through an object the library
    returned); each of the six is called; and no [def] or [class] of the
    notebook bears one of these names: the notebook defines only the classes
    [MySentences] and [MyText] with their [__init__] and [__iter__]. *)
Theorem library_operations_from_gensim :
  map (fun i => (callee i, origin i)) (operation_calls notebook)
  = [("Word2Vec", Library "gensim"); ("Word2Vec", Library "gensim");
     ("Word2Vec", Library "gensim"); ("build_vocab", Library "gensim");
     ("train", Library "gensim"); ("Word2Vec", Library "gensim");
     ("Word2Vec", Library "gensim"); ("Word2Vec", Library "gensim");
     ("save", Library "gensim"); ("load", Library "gensim");
     ("load", Library "gensim"); ("build_vocab", Library "gensim");
     ("train", Library "gensim"); ("most_similar", Library "gensim")]
  /\ Forall (fun i => origin i = Library "gensim") (operation_calls notebook)
  /\ Forall (fun op => op ∈ map callee (operation_calls notebook)) library_operations
  /\ Forall (fun name => name ∉ library_operations) (defined_names notebook)
  /\ defined_names notebook = ["MySentences"; "__init__"; "__iter__"; "MyText"; "__iter__"]
  /\ imports notebook = ["gensim"; "logging"; "smart_open"; "os"; "tempfile"].
Proof.
  split; [vm_compute; reflexivity|].
  split.
  { evaluate (operation_calls notebook). repeat constructor. }
  split.
  { evaluate (map callee (operation_calls notebook)). unfold library_operations.
    repeat (constructor; [set_solver|]). constructor. }
  split.
  { evaluate (defined_names notebook). unfold library_operations.
    repeat (constructor; [set_solver|]). constructor. }
  split; reflexivity.
Qed.

(** The claim of C2 fails on [MySentences.__iter__] (lines 107-110): the
    method loops over files and lines and yields a computed value, so the
    notebook does define a function with logic a test can check. *)
Lemma iterators_have_logic :
  ~ (logic_free notebook = true)
  /\ map (fun f => (f.1, has_logic f.2)) (function_bodies notebook)
     = [("__init__", false); ("__iter__", true); ("__iter__", true)].
Proof. split; [intros H; vm_compute in H; discriminate H | reflexivity]. Qed.

(** C2, amended.  The notebook implements no training loop and no
    optimisation or numeric code, and designs no data structure beyond two
    iterator classes: every call into gensim is a top-level statement,
    outside any loop, branch, function or class; the code holds no
    arithmetic and no augmented assignment; its definitions are the classes
    [MySentences] ([__init__], [__iter__]) and [MyText] ([__iter__]).  The
    two [__iter__] methods are its own logic: loops that yield the tokens of
    each line; [__init__] only stores its argument. *)
Theorem no_training_or_optimisation_code :
  Forall (fun i => nesting i = 0) (gensim_calls notebook)
  /\ List.filter is_arithmetic (all_exprs notebook) = []
  /\ List.filter is_aug_assign (all_stmts notebook) = []
  /\ definitions notebook
     = [("MySentences", ["__init__"; "__iter__"]); ("MyText", ["__iter__"])]
  /\ map (fun f => (f.1, has_logic f.2)) (function_bodies notebook)
     = [("__init__", false); ("__iter__", true); ("__iter__", true)]
  /\ map fst (List.filter (fun f => has_logic f.2) (function_bodies notebook))
     = ["__iter__"; "__iter__"].
Proof.
  split.
  { evaluate (gensim_calls notebook). repeat constructor. }
  repeat split; vm_compute; reflexivity.
Qed.

(** The claim of C4 fails on the epoch count: no executed call passes
    [iter]. *)
Lemma iter_not_configured_in_code :
  ~ Forall (fun option => configured_in_code option notebook = true) constructor_options
  /\ configured_in_code "iter" notebook = false.
Proof.
  split; [|vm_compute; reflexivity].
  intros H. unfold constructor_options in H.
  rewrite !Forall_cons in H. destruct H as (_ & _ & _ & H & _).
  vm_compute in H. discriminate H.
Qed.

(** C4, amended.  In executed code the notebook builds models with the
    options [size], [min_count] and [workers]; it hands the model a
    sentence iterable defined outside the library; it saves a model to a
    path and loads it back; it queries similarity and analogy.  The epoch
    count [iter] is passed by no executed call: it stands only in the
    narration, as [Word2Vec(sentences, iter=1)] (line 180). *)
Theorem interface_demonstrated :
  Forall (fun option => configured_in_code option notebook = true)
         ["size"; "min_count"; "workers"]
  /\ configured_in_code "iter" notebook = false
  /\ mentions "`Word2Vec(sentences, iter=1)`" (narration notebook) = true
  /\ iterates_supplied_sentences notebook = true
  /\ saves_and_loads notebook = true
  /\ queries_vectors notebook = true.
Proof.
  split; [repeat constructor|]. repeat split; vm_compute; reflexivity.
Qed.

(** The claim of C5 fails on the toy-data cell (lines 84-92): the notebook
    has a branch and loops, globals flow from cell to cell, and it defines
    two classes. *)
Lemma notebook_has_control_flow :
  ~ (straight_line notebook = true
     /\ data_flows notebook = []
     /\ definitions notebook = [])
  /\ straight_line notebook = false
  /\ If (UnaryOp Not (Call (Attribute (Attribute (Name "os") "path") "exists")
                           [Str "./data/"] []))
        [Expr (Call (Attribute (Name "os") "makedirs") [Str "./data/"] [])] []
     ∈ all_stmts notebook
  /\ "sentences" ∈ data_flows notebook
  /\ map fst (definitions notebook) = ["MySentences"; "MyText"].
Proof.
  split; [intros [H _]; vm_compute in H; discriminate H|].
  split; [vm_compute; reflexivity|].
  split.
  { apply list_elem_of_In. vm_compute.
    repeat first [left; reflexivity | right]. }
  split; [|reflexivity].
  evaluate (data_flows notebook). set_solver.
Qed.

(** C5, amended.  The calls into the library form a linear sequence: the
    code cells ran in the order of the text, numbered 1 to 23, and every
    call into gensim is a top-level statement of its cell, under no branch,
    loop, function or class.  The notebook's own control flow is one [if] and
    two nested [for] loops in the toy-data cell, two nested [for] loops in
    [MySentences.__iter__] and one [for] loop in [MyText.__iter__]; no
    expression branches; globals ([sentences], [model], ...) carry data from
    cell to cell; and the notebook defines two classes. *)
Theorem library_calls_in_sequence :
  execution_counts notebook = seq 1 23
  /\ Forall (fun i => nesting i = 0) (gensim_calls notebook)
  /\ length (gensim_calls notebook) = 19
  /\ List.filter (fun c => negb (length (constructs_of c.2) =? 0))
       (imap (fun n c => (S n, c)) notebook)
     = [(6, cell_06); (7, cell_07); (16, cell_16)]
  /\ constructs_of cell_06 = ["if"; "for"; "for"]
  /\ constructs_of cell_07 = ["for"; "for"]
  /\ constructs_of cell_16 = ["for"]
  /\ List.filter is_branching_expr (all_exprs notebook) = []
  /\ Forall (fun x => x ∈ data_flows notebook) ["sentences"; "model"; "new_model"]
  /\ map fst (definitions notebook) = ["MySentences"; "MyText"].
Proof.
  split; [reflexivity|].
  split.
  { evaluate (gensim_calls notebook). repeat constructor. }
  split; [vm_compute; reflexivity|].
  split; [vm_compute; reflexivity|].
  split; [reflexivity|]. split; [reflexivity|]. split; [reflexivity|].
  split; [vm_compute; reflexivity|].
  split; [|reflexivity].
  evaluate (data_flows notebook). repeat (constructor; [set_solver|]). constructor.
Qed.

(** Sequencing hands an exception on. *)
Lemma io_bind_raises {A B} (m : IO A) (k : A -> IO B) fs e fs' :
  m fs = (Raised e, fs') -> io_bind m k fs = (Raised e, fs').
Proof. intros H. unfold io_bind. by rewrite H. Qed.

Lemma gen_bind_raises {Y A B} (m : Gen Y A) (k : A -> Gen Y B) fs ys e :
  m fs = (ys, Raised e) -> gen_bind m k fs = (ys, Raised e).
Proof. intros H. unfold gen_bind. by rewrite H. Qed.

Lemma list_raises {Y} (it : Gen Y unit) fs ys e :
  it fs = (ys, Raised e) -> list_ it fs = (Raised e, fs).
Proof. intros H. unfold list_. by rewrite H. Qed.

Lemma iter_trace_unreadable (d : directory) :
  all_files d = false -> exists ys, iter_trace d = (ys, Raised IOError).
Proof.
  induction d as [|[n x] d IH]; intros Hd; [discriminate Hd|].
  destruct x as [content|]; simpl in *.
  - destruct (IH Hd) as [ys Hys]. rewrite Hys. eauto.
  - eauto.
Qed.

(** C6.  The notebook's code has no construct that handles or signals an
    error: no [try], [except], [finally], [raise] or [assert] at any depth.
    An exception therefore comes from the runtime or the library and goes
    through the code that follows: through sequencing and through
    [list(...)].  [MySentences] on a directory that does
    not exist raises [OSError], on an entry [open] cannot read [IOError];
    [MyText] on a missing corpus file raises [IOError]; the toy-data cell
    with fewer sentences than files raises [IndexError].  The one branch of
    the code asks whether ./data/ exists before creating it; it looks at no
    error. *)
Theorem errors_propagate_uncaught :
  List.filter is_error_construct (all_stmts notebook) = []
  /\ List.filter (fun s => match s with If _ _ _ => true | _ => false end)
       (all_stmts notebook)
     = [If (UnaryOp Not (Call (Attribute (Attribute (Name "os") "path") "exists")
                              [Str "./data/"] []))
           [Expr (Call (Attribute (Name "os") "makedirs") [Str "./data/"] [])] []]
  /\ (forall A B (m : IO A) (k : A -> IO B) fs e fs',
        m fs = (Raised e, fs') -> io_bind m k fs = (Raised e, fs'))
  /\ (forall Y A B (m : Gen Y A) (k : A -> Gen Y B) fs ys e,
        m fs = (ys, Raised e) -> gen_bind m k fs = (ys, Raised e))
  /\ (forall Y (it : Gen Y unit) fs ys e,
        it fs = (ys, Raised e) -> list_ it fs = (Raised e, fs))
  /\ (forall (fs : filesystem) dirname,
        fs !! as_dir dirname = None ->
        list_ (MySentences.__iter__ (MySentences.__init__ dirname)) fs
        = (Raised OSError, fs))
  /\ (forall (fs : filesystem) dirname d,
        dirname <> EmptyString ->
        fs !! as_dir dirname = Some d ->
        wf_directory d = true ->
        all_files d = false ->
        list_ (MySentences.__iter__ (MySentences.__init__ dirname)) fs
        = (Raised IOError, fs))
  /\ (forall (fs : filesystem) path,
        file_content fs path = None ->
        list_ (MyText.__iter__ path MyText.Build_t) fs = (Raised IOError, fs))
  /\ (forall (order : listing) (fs : filesystem) s1,
        fs !! "./data/" = Some [] ->
        (write_toy_data order [s1] fs).1 = Raised IndexError).
Proof.
  split; [vm_compute; reflexivity|].
  split; [vm_compute; reflexivity|].
  split; [intros; by apply io_bind_raises|].
  split; [intros; by apply gen_bind_raises|].
  split.
  { intros Y it fs ys e H. by eapply list_raises. }
  split.
  { intros fs dirname H. eapply list_raises. by apply MySentences_iter_missing. }
  split.
  { intros fs dirname d Hp Hd Hwf Hfiles.
    destruct (iter_trace_unreadable d Hfiles) as [ys Hys].
    eapply list_raises. rewrite (MySentences_iter_trace fs dirname d) by done.
    exact Hys. }
  split.
  { intros fs path H. eapply list_raises. by apply MyText_iter_missing. }
  intros order fs s1 Hd.
  rewrite write_toy_data_loop by by apply (exists_in_data_dir fs []).
  by rewrite toy_data_loop_one.
Qed.

Lemma errors_propagate_uncaught_witness :
  list_ (MySentences.__iter__ (MySentences.__init__ "./data/")) ∅ = (Raised OSError, ∅)
  /\ list_ (MyText.__iter__ "lee_background.cor" MyText.Build_t) ∅ = (Raised IOError, ∅).
Proof.
  destruct errors_propagate_uncaught as (_ & _ & _ & _ & _ & Hdir & _ & Hfile & _).
  split.
  - apply Hdir. reflexivity.
  - apply Hfile. reflexivity.
Defined.

(** The part of C10 that is about the code: it imports no threading or
    process module, [workers] occurs once, as a keyword of a top-level call
    of the library's [Word2Vec], and what is said of the interpreter lock and
    of Cython is narration (line 355). *)
Lemma workers_only_as_keyword :
  imports notebook = ["gensim"; "logging"; "smart_open"; "os"; "tempfile"]
  /\ map (fun i => (callee i, origin i, nesting i, keywords i))
       (List.filter (fun i => among "workers" (keywords i)) (invocations notebook))
     = [("Word2Vec", Library "gensim", 0, ["workers"])]
  /\ List.filter (fun e => match e with
                           | Name id | Attribute _ id => String.eqb id "workers"
                           | _ => false
                           end) (all_exprs notebook) = []
  /\ mentions "[GIL]" (narration notebook) = true
  /\ mentions "[Cython]" (narration notebook) = true.
Proof. repeat split; vm_compute; reflexivity. Qed.

(** * Further properties of the notebook's code *)

(** ** What the iterators yield, whatever the files hold *)

Section Yields.

Implicit Types (s t : string) (acc : list ascii) (c : ascii) (fs : filesystem).

Lemma clean_word_iff w :
  clean_word w = true
  <-> w <> EmptyString /\ Forall (fun c => Py.isspace c = false) (Py.chars w).
Proof.
  split.
  - intros H. split; [by destruct w|]. by apply clean_word_chars.
  - intros [Hne Hall]. destruct w as [|c w]; [done|].
    unfold clean_word. apply forallb_forall. intros x Hx.
    rewrite Forall_forall in Hall. apply negb_true_iff, Hall.
    by apply list_elem_of_In.
Qed.

Lemma flush_clean acc (rest : list string) :
  Forall (fun c => Py.isspace c = false) acc ->
  Forall (fun tok => clean_word tok = true) rest ->
  Forall (fun tok => clean_word tok = true) (Py.flush acc rest).
Proof.
  intros Hacc Hrest. destruct acc as [|a acc]; [done|].
  simpl. constructor; [|done]. apply clean_word_iff.
  change (Py.of_rev acc (String a EmptyString)) with (Py.of_rev (a :: acc) EmptyString).
  split.
  - intros E. apply (f_equal Py.chars) in E. rewrite chars_of_rev in E.
    simpl in E. destruct (rev acc); discriminate E.
  - rewrite chars_of_rev, app_nil_r. by apply Forall_rev.
Qed.

Lemma split_from_clean acc s :
  Forall (fun c => Py.isspace c = false) acc ->
  Forall (fun tok => clean_word tok = true) (Py.split_from acc s).
Proof.
  revert acc; induction s as [|c s IH]; intros acc Hacc; simpl.
  - by apply flush_clean.
  - destruct (Py.isspace c) eqn:E.
    + apply flush_clean; [done|]. by apply IH.
    + apply IH. by constructor.
Qed.

(** The tokens of [line.split()] are never empty and hold no whitespace. *)
Lemma split_clean s : Forall (fun tok => clean_word tok = true) (Py.split s).
Proof. by apply split_from_clean. Qed.

(** A property of every value a generator body yields passes through
    sequencing and loops. *)
Lemma gen_bind_yields {Y A B} (P : Y -> Prop) (m : Gen Y A) (k : A -> Gen Y B) fs :
  Forall P (m fs).1 -> (forall a, Forall P (k a fs).1) ->
  Forall P (gen_bind m k fs).1.
Proof.
  intros Hm Hk. unfold gen_bind. destruct (m fs) as [ys [a|e]]; [|done].
  specialize (Hk a). destruct (k a fs) as [ys' r]. simpl in *.
  by apply Forall_app.
Qed.

Lemma gen_for_yields {Y X} (P : Y -> Prop) (xs : list X) (body : X -> Gen Y unit) fs :
  (forall x, Forall P (body x fs).1) -> Forall P (gen_for xs body fs).1.
Proof.
  intros Hbody. induction xs as [|x xs IH]; [constructor|].
  simpl. apply gen_bind_yields; [apply Hbody | intros _; exact IH].
Qed.

Lemma split_from_empty acc s :
  Py.split_from acc s = [] -> acc = [] /\ blank s.
Proof.
  revert acc; induction s as [|c s IH]; intros acc H; simpl in H.
  - destruct acc; [split; [done|constructor] | discriminate H].
  - destruct (Py.isspace c) eqn:E.
    + destruct acc as [|a acc]; [|discriminate H]. simpl in H.
      destruct (IH [] H) as [_ Hs]. split; [done|]. by constructor.
    + destruct (IH (c :: acc) H) as [Hacc _]. discriminate Hacc.
Qed.

Lemma is_blank_blank s : is_blank s = true <-> blank s.
Proof.
  unfold is_blank, blank. rewrite forallb_forall, Forall_forall.
  split; intros H x Hx; apply H; by apply list_elem_of_In.
Qed.

(** [line.split()] is empty exactly for a blank line. *)
Lemma split_is_empty s : is_empty (Py.split s) = is_blank s.
Proof.
  destruct (is_blank s) eqn:E.
  - apply is_blank_blank in E. by rewrite split_blank.
  - destruct (Py.split s) eqn:Hs; [|done].
    apply split_from_empty in Hs as [_ Hs]. apply is_blank_blank in Hs. congruence.
Qed.

Lemma flush_bytes acc (rest : list string) :
  flat_map Py.chars (Py.flush acc rest) = rev acc ++ flat_map Py.chars rest.
Proof.
  destruct acc as [|a acc]; [done|]. simpl.
  change (Py.of_rev acc (String a EmptyString)) with (Py.of_rev (a :: acc) EmptyString).
  by rewrite chars_of_rev, app_nil_r.
Qed.

(** Splitting loses the whitespace and nothing else. *)
Lemma split_from_token_bytes acc s :
  flat_map Py.chars (Py.split_from acc s) = rev acc ++ nonspace_bytes s.
Proof.
  revert acc; induction s as [|c s IH]; intros acc; unfold nonspace_bytes; simpl.
  - apply flush_bytes.
  - destruct (Py.isspace c) eqn:E; simpl.
    + rewrite flush_bytes, IH. done.
    + rewrite IH. simpl. by rewrite <- app_assoc.
Qed.

Lemma split_token_bytes s : flat_map Py.chars (Py.split s) = nonspace_bytes s.
Proof. apply (split_from_token_bytes [] s). Qed.

(** File iteration loses nothing. *)
Lemma lines_from_bytes acc s :
  flat_map Py.chars (Py.lines_from acc s) = rev acc ++ Py.chars s.
Proof.
  revert acc; induction s as [|c s IH]; intros acc; simpl.
  - apply flush_bytes.
  - destruct (Ascii.eqb c Py.LF); simpl.
    + change (Py.of_rev acc (String c EmptyString)) with (Py.of_rev (c :: acc) EmptyString).
      rewrite chars_of_rev, app_nil_r, IH. simpl. by rewrite <- app_assoc.
    + rewrite IH. simpl. by rewrite <- app_assoc.
Qed.

Lemma filter_flat_map {X Z} (p : Z -> bool) (f : X -> list Z) (xs : list X) :
  List.filter p (flat_map f xs) = flat_map (fun x => List.filter p (f x)) xs.
Proof.
  induction xs as [|x xs IH]; [done|]. simpl. by rewrite List.filter_app, IH.
Qed.

Lemma lines_token_bytes content :
  token_bytes (map Py.split (Py.readlines content)) = nonspace_bytes content.
Proof.
  unfold token_bytes. rewrite flat_map_concat_map, map_map, <- flat_map_concat_map.
  erewrite flat_map_ext; [|intros line; apply split_token_bytes].
  unfold nonspace_bytes at 2.
  rewrite <- (app_nil_l (Py.chars content)).
  change (@nil ascii) with (rev (@nil ascii)).
  rewrite <- (lines_from_bytes [] content). fold (Py.readlines content).
  by rewrite filter_flat_map.
Qed.

Lemma token_bytes_app (xs ys : list (list string)) :
  token_bytes (xs ++ ys) = token_bytes xs ++ token_bytes ys.
Proof. unfold token_bytes. by rewrite flat_map_app. Qed.

Lemma nonspace_lower s :
  nonspace_bytes (Py.lower s) = map Py.tolower (nonspace_bytes s).
Proof.
  unfold nonspace_bytes. induction s as [|c s IH]; [done|]. simpl.
  rewrite tolower_isspace. destruct (Py.isspace c); simpl; by rewrite IH.
Qed.

End Yields.

Lemma sentences_in_order_lines (d : directory) :
  sentences_in_order d = map Py.split (all_lines d).
Proof.
  unfold sentences_in_order, all_lines, contents.
  induction d as [|[n x] d IH]; [done|].
  simpl. rewrite IH. destruct x as [content|]; simpl; [|done].
  by rewrite map_app.
Qed.

Lemma MySentences_yields_directory (fs : filesystem) (dirname : string) (d : directory) :
  dirname <> EmptyString ->
  fs !! as_dir dirname = Some d ->
  wf_directory d = true ->
  all_files d = true ->
  (MySentences.__iter__ (MySentences.__init__ dirname) fs).1 = map Py.split (all_lines d).
Proof.
  intros Hp Hd Hwf Hfiles.
  rewrite (MySentences_iter_trace fs dirname d), iter_trace_all_files by done.
  apply sentences_in_order_lines.
Qed.

(** X1.  Whatever the file system holds, every token that
    [MySentences.__iter__] or [MyText.__iter__] yields is a word: it is not
    empty and holds no whitespace byte. *)
Theorem yielded_tokens_are_words
    (fs : filesystem) (self : MySentences.t) (path : string) :
  Forall (Forall (fun tok => clean_word tok = true)) (MySentences.__iter__ self fs).1
  /\ Forall (Forall (fun tok => clean_word tok = true))
       (MyText.__iter__ path MyText.Build_t fs).1.
Proof.
  split.
  - unfold MySentences.__iter__. apply gen_bind_yields.
    + unfold os.listdir. destruct (MySentences.dirname self); [constructor|].
      destruct (fs !! _); constructor.
    + intros names. apply gen_for_yields. intros fname. apply gen_bind_yields.
      * unfold open_. destruct (file_content fs _); constructor.
      * intros f. apply gen_for_yields. intros line. simpl.
        constructor; [apply split_clean | constructor].
  - unfold MyText.__iter__. apply gen_bind_yields.
    + unfold open_. destruct (file_content fs _); constructor.
    + intros f. apply gen_for_yields. intros line. simpl.
      constructor; [apply split_clean | constructor].
Qed.

(** X2.  [MySentences] yields one sentence per line of the files, and the
    sentence is empty exactly when its line is blank: blank lines are not
    skipped, and no other line gives an empty sentence. *)
Theorem empty_sentences_are_blank_lines
    (fs : filesystem) (dirname : string) (d : directory) :
  dirname <> EmptyString ->
  fs !! as_dir dirname = Some d ->
  wf_directory d = true ->
  all_files d = true ->
  let yielded := (MySentences.__iter__ (MySentences.__init__ dirname) fs).1 in
  length yielded = length (all_lines d)
  /\ map is_empty yielded = map is_blank (all_lines d).
Proof.
  intros Hp Hd Hwf Hfiles yielded. unfold yielded.
  rewrite (MySentences_yields_directory fs dirname d) by done.
  split; [by rewrite length_map|].
  rewrite map_map. apply map_ext. intros line. apply split_is_empty.
Qed.

Lemma empty_sentences_are_blank_lines_witness :
  let fs : filesystem :=
    {[ "./data/" := [("a.txt", File ("one two" +:+ nl +:+ "  " +:+ nl +:+ nl +:+ "three"))] ]} in
  map is_empty (MySentences.__iter__ (MySentences.__init__ "./data/") fs).1
  = [false; true; true; false].
Proof.
  intros fs.
  destruct (empty_sentences_are_blank_lines fs "./data/"
              [("a.txt", File ("one two" +:+ nl +:+ "  " +:+ nl +:+ nl +:+ "three"))])
    as [_ H]; [done | reflexivity | reflexivity | reflexivity |].
  rewrite H. reflexivity.
Defined.

(** X3.  [MySentences] loses whitespace and nothing else: the bytes of the
    yielded tokens, in order, are the non-whitespace bytes of the files in
    listing order. *)
Theorem MySentences_loses_only_whitespace
    (fs : filesystem) (dirname : string) (d : directory) :
  dirname <> EmptyString ->
  fs !! as_dir dirname = Some d ->
  wf_directory d = true ->
  all_files d = true ->
  token_bytes (MySentences.__iter__ (MySentences.__init__ dirname) fs).1
  = flat_map nonspace_bytes (contents d).
Proof.
  intros Hp Hd Hwf Hfiles.
  rewrite (MySentences_yields_directory fs dirname d) by done.
  unfold all_lines. induction (contents d) as [|content cs IH]; [done|].
  simpl. rewrite map_app, token_bytes_app, IH. f_equal. apply lines_token_bytes.
Qed.

Lemma MySentences_loses_only_whitespace_witness :
  let fs : filesystem :=
    {[ "./data/" := [("a.txt", File (" one  two" +:+ nl)); ("b.txt", File "three")] ]} in
  token_bytes (MySentences.__iter__ (MySentences.__init__ "./data/") fs).1
  = Py.chars "onetwothree".
Proof.
  intros fs.
  rewrite (MySentences_loses_only_whitespace fs "./data/"
             [("a.txt", File (" one  two" +:+ nl)); ("b.txt", File "three")]);
    [reflexivity | done | reflexivity | reflexivity | reflexivity].
Defined.

(** X4.  [MyText] yields one sentence per line of the corpus file, and the
    bytes of its tokens, in order, are the non-whitespace bytes of the file,
    lower-cased: lower-casing and whitespace aside, nothing is lost or
    added. *)
Theorem MyText_loses_only_whitespace_and_case
    (fs : filesystem) (path content : string) :
  file_content fs path = Some content ->
  let yielded := (MyText.__iter__ path MyText.Build_t fs).1 in
  length yielded = length (Py.readlines content)
  /\ token_bytes yielded = map Py.tolower (nonspace_bytes content).
Proof.
  intros Hfile yielded. unfold yielded.
  rewrite (MyText_iter_trace fs path content Hfile). simpl.
  split; [by rewrite length_map|].
  rewrite <- nonspace_lower, <- lines_token_bytes.
  unfold token_bytes.
  assert (G : forall acc s,
    flat_map (fun line => flat_map Py.chars (Py.split (Py.lower line))) (Py.lines_from acc s)
    = flat_map (fun line => flat_map Py.chars (Py.split line))
        (Py.lines_from (map Py.tolower acc) (Py.lower s))).
  { intros acc s. revert acc. induction s as [|c s IH]; intros acc; simpl.
    - destruct acc as [|a acc]; [done|]. simpl.
      change (Py.of_rev acc (String a EmptyString)) with (Py.of_rev (a :: acc) EmptyString).
      change (Py.of_rev (map Py.tolower acc) (String (Py.tolower a) EmptyString))
        with (Py.of_rev (map Py.tolower (a :: acc)) (Py.lower EmptyString)).
      by rewrite <- lower_of_rev.
    - assert (E : Ascii.eqb (Py.tolower c) Py.LF = Ascii.eqb c Py.LF).
      { by destruct c as [[] [] [] [] [] [] [] []]. }
      rewrite E. destruct (Ascii.eqb c Py.LF); simpl.
      + rewrite (IH []). f_equal.
        change (Py.of_rev acc (String c EmptyString)) with (Py.of_rev (c :: acc) EmptyString).
        change (Py.of_rev (map Py.tolower acc) (String (Py.tolower c) EmptyString))
          with (Py.of_rev (map Py.tolower (c :: acc)) (Py.lower EmptyString)).
        by rewrite <- lower_of_rev.
      + apply (IH (c :: acc)). }
  rewrite !flat_map_concat_map, !map_map, <- !flat_map_concat_map.
  apply (G [] content).
Qed.

Lemma MyText_loses_only_whitespace_and_case_witness :
  let fs : filesystem := {[ "corpus/" := [("lee.cor", File ("The  Cat" +:+ nl +:+ "SAT"))] ]} in
  token_bytes (MyText.__iter__ "corpus/lee.cor" MyText.Build_t fs).1 = Py.chars "thecatsat".
Proof.
  intros fs.
  destruct (MyText_loses_only_whitespace_and_case fs "corpus/lee.cor"
              ("The  Cat" +:+ nl +:+ "SAT") eq_refl) as [_ H].
  rewrite H. reflexivity.
Defined.

Lemma iter_trace_stops (before after : directory) (name : string) :
  all_files before = true ->
  iter_trace (before ++ (name, Subdir) :: after)
  = (sentences_in_order before, Raised IOError).
Proof.
  induction before as [|[n x] before IH]; intros Hb; [done|].
  simpl in Hb. apply andb_prop in Hb as [Hx Hb]. destruct x as [content|]; [|done].
  simpl. rewrite IH by done. unfold sentences_in_order. simpl. done.
Qed.

(** X5.  When [os.listdir] reports an entry that [open] cannot read (a
    sub-directory), [MySentences.__iter__] yields the sentences of the files
    listed before it and then raises [IOError]; the files listed after it
    are never read, and [list(...)] returns nothing. *)
Theorem MySentences_stops_at_unreadable_entry
    (fs : filesystem) (dirname name : string) (before after : directory) :
  dirname <> EmptyString ->
  fs !! as_dir dirname = Some (before ++ (name, Subdir) :: after) ->
  wf_directory (before ++ (name, Subdir) :: after) = true ->
  all_files before = true ->
  MySentences.__iter__ (MySentences.__init__ dirname) fs
  = (sentences_in_order before, Raised IOError)
  /\ list_ (MySentences.__iter__ (MySentences.__init__ dirname)) fs
     = (Raised IOError, fs).
Proof.
  intros Hp Hd Hwf Hb.
  assert (H : MySentences.__iter__ (MySentences.__init__ dirname) fs
              = (sentences_in_order before, Raised IOError)).
  { rewrite (MySentences_iter_trace fs dirname _ Hp Hd Hwf). by apply iter_trace_stops. }
  split; [exact H|]. unfold list_. by rewrite H.
Qed.

Lemma MySentences_stops_at_unreadable_entry_witness :
  let fs : filesystem :=
    {[ "./data/" := [("f1.txt", File ("first" +:+ nl)); ("old", Subdir);
                     ("f2.txt", File ("second" +:+ nl))] ]} in
  MySentences.__iter__ (MySentences.__init__ "./data/") fs
  = ([["first"]], Raised IOError).
Proof.
  intros fs.
  destruct (MySentences_stops_at_unreadable_entry fs "./data/" "old"
              [("f1.txt", File ("first" +:+ nl))] [("f2.txt", File ("second" +:+ nl))])
    as [H _]; [done | reflexivity | reflexivity | reflexivity |].
  exact H.
Defined.

Lemma endswith_slash_app_slash (p : string) : Py.endswith_slash (p +:+ "/") = true.
Proof.
  induction p as [|c p IH]; [done|].
  rewrite string_app_cons. destruct p as [|c' p]; [done|]. exact IH.
Qed.

(** X6.  A directory name may be given with or without its final '/':
    [os.path.join] adds the separator only where it is missing, and
    [MySentences('dir')] and [MySentences('dir/')] yield the same. *)
Theorem MySentences_trailing_slash
    (fs : filesystem) (dirname : string) (d : directory) :
  dirname <> EmptyString ->
  Py.endswith_slash dirname = false ->
  fs !! (dirname +:+ "/") = Some d ->
  wf_directory d = true ->
  (forall name, valid_name name = true ->
     os.path_join dirname name = os.path_join (dirname +:+ "/") name)
  /\ MySentences.__iter__ (MySentences.__init__ dirname) fs
     = MySentences.__iter__ (MySentences.__init__ (dirname +:+ "/")) fs.
Proof.
  intros Hp Hslash Hd Hwf.
  assert (Hne : dirname +:+ "/" <> EmptyString) by by destruct dirname.
  assert (H1 : as_dir dirname = dirname +:+ "/") by (unfold as_dir; by rewrite Hslash).
  assert (H2 : as_dir (dirname +:+ "/") = dirname +:+ "/").
  { unfold as_dir. by rewrite endswith_slash_app_slash. }
  split.
  - intros name Hname. rewrite !path_join_as_dir by done. by rewrite H1, H2.
  - rewrite (MySentences_iter_trace fs dirname d), (MySentences_iter_trace fs (dirname +:+ "/") d);
      try done; by rewrite ?H1, ?H2.
Qed.

Lemma MySentences_trailing_slash_witness :
  let fs : filesystem := {[ "./data/" := [("f1.txt", File ("first" +:+ nl))] ]} in
  MySentences.__iter__ (MySentences.__init__ "./data") fs
  = MySentences.__iter__ (MySentences.__init__ "./data/") fs.
Proof.
  intros fs.
  destruct (MySentences_trailing_slash fs "./data" [("f1.txt", File ("first" +:+ nl))])
    as [_ H]; [done | reflexivity | reflexivity | reflexivity |].
  exact H.
Defined.

(** X7.  On a directory that holds one file, [MyText] pointed at that file
    yields what [MySentences] yields for the directory, each token
    lower-cased. *)
Theorem MyText_is_lowercased_MySentences
    (fs : filesystem) (dirname name content : string) :
  dirname <> EmptyString ->
  valid_name name = true ->
  fs !! as_dir dirname = Some [(name, File content)] ->
  (MyText.__iter__ (os.path_join dirname name) MyText.Build_t fs).1
  = map (map Py.lower) (MySentences.__iter__ (MySentences.__init__ dirname) fs).1.
Proof.
  intros Hp Hname Hd.
  assert (Hwf : wf_directory [(name, File content)] = true).
  { simpl. by rewrite Hname. }
  rewrite (MySentences_iter_trace fs dirname _ Hp Hd Hwf).
  rewrite (MyText_iter_trace fs _ content).
  - simpl. rewrite app_nil_r, map_map. apply map_ext. intros line. apply split_lower.
  - rewrite (file_content_entry fs dirname [(name, File content)] name (File content));
      try done.
    simpl. by rewrite String.eqb_refl.
Qed.

Lemma MyText_is_lowercased_MySentences_witness :
  let fs : filesystem := {[ "corpus/" := [("lee.cor", File ("The Cat" +:+ nl))] ]} in
  (MyText.__iter__ "corpus/lee.cor" MyText.Build_t fs).1
  = map (map Py.lower) (MySentences.__iter__ (MySentences.__init__ "corpus") fs).1.
Proof.
  intros fs.
  apply (MyText_is_lowercased_MySentences fs "corpus" "lee.cor" ("The Cat" +:+ nl));
    [done | reflexivity | reflexivity].
Defined.

(** ** One sentence per line *)

Section SentencePerLine.

Implicit Types (w sep : string) (ws : list string).

Lemma fold_left_join sep ws a b :
  fold_left (fun acc q => acc +:+ sep +:+ q) ws (a +:+ b)
  = a +:+ fold_left (fun acc q => acc +:+ sep +:+ q) ws b.
Proof.
  revert b; induction ws as [|w ws IH]; intros b; [done|].
  simpl. rewrite string_app_assoc. apply IH.
Qed.

Lemma str_join_cons sep w w' ws :
  str_join sep (w :: w' :: ws) = w +:+ sep +:+ str_join sep (w' :: ws).
Proof.
  unfold str_join. simpl. rewrite fold_left_join. f_equal. apply fold_left_join.
Qed.

Lemma flush_rev_chars w (rest : list string) :
  w <> EmptyString -> Py.flush (rev (Py.chars w)) rest = w :: rest.
Proof.
  intros Hw. destruct (rev (Py.chars w)) as [|a acc] eqn:E.
  - apply (f_equal (@length ascii)) in E. rewrite length_rev in E. by destruct w.
  - simpl. f_equal.
    change (Py.of_rev acc (String a EmptyString)) with (Py.of_rev (a :: acc) EmptyString).
    by rewrite <- E, of_rev_chars, string_app_nil_r.
Qed.

Lemma split_sentence_line ws :
  Forall (fun w => clean_word w = true) ws -> Py.split (sentence_line ws) = ws.
Proof.
  unfold sentence_line. induction ws as [|w ws IH]; intros Hws; [done|].
  inversion Hws as [|? ? Hw Hws']; subst.
  destruct ws as [|w' ws].
  - by apply split_clean_line.
  - rewrite str_join_cons, !string_app_assoc. unfold Py.split.
    rewrite split_from_word by by apply clean_word_chars.
    rewrite app_nil_r. simpl.
    rewrite flush_rev_chars by by destruct w.
    f_equal. apply (IH Hws').
Qed.

Lemma str_join_no_LF ws :
  Forall (fun w => clean_word w = true) ws ->
  Forall (fun c => Ascii.eqb c Py.LF = false) (Py.chars (str_join " " ws)).
Proof.
  induction ws as [|w ws IH]; intros Hws; [constructor|].
  inversion Hws as [|? ? Hw Hws']; subst.
  assert (Hnolf : Forall (fun c => Ascii.eqb c Py.LF = false) (Py.chars w)).
  { eapply Forall_impl; [by apply clean_word_chars|]. apply isspace_not_LF. }
  destruct ws as [|w' ws]; [exact Hnolf|].
  rewrite str_join_cons, !chars_app. apply Forall_app. split; [exact Hnolf|].
  apply Forall_app. split; [by repeat constructor | by apply IH].
Qed.

Lemma readlines_one_sentence_per_line (sentences : list (list string)) :
  Forall (Forall (fun w => clean_word w = true)) sentences ->
  Py.readlines (one_sentence_per_line sentences) = map sentence_line sentences.
Proof.
  unfold Py.readlines. induction sentences as [|ws sentences IH]; intros H; [done|].
  inversion H as [|? ? Hws Hrest]; subst. simpl.
  unfold sentence_line at 1. rewrite string_app_assoc.
  rewrite lines_from_nolf by by apply str_join_no_LF.
  rewrite app_nil_r. unfold nl at 1. rewrite string_app_cons. simpl.
  change (EmptyString +:+ one_sentence_per_line sentences)
    with (one_sentence_per_line sentences).
  rewrite IH by done. f_equal.
  change (Py.of_rev (rev (Py.chars (str_join " " ws))) (String Py.LF EmptyString))
    with (Py.of_rev (rev (Py.chars (str_join " " ws))) nl).
  by rewrite of_rev_chars.
Qed.

End SentencePerLine.

(** X8.  [MySentences] reads back the format the narration describes: if a
    file holds one sentence per line, its words separated by single spaces,
    the iterator yields exactly these sentences, an empty sentence for an
    empty line included. *)
Theorem MySentences_reads_one_sentence_per_line
    (fs : filesystem) (dirname name : string) (sentences : list (list string)) :
  dirname <> EmptyString ->
  valid_name name = true ->
  fs !! as_dir dirname = Some [(name, File (one_sentence_per_line sentences))] ->
  Forall (Forall (fun w => clean_word w = true)) sentences ->
  MySentences.__iter__ (MySentences.__init__ dirname) fs = (sentences, Ok tt).
Proof.
  intros Hp Hname Hd Hclean.
  rewrite (MySentences_iter_trace fs dirname _ Hp Hd).
  - simpl. rewrite app_nil_r, readlines_one_sentence_per_line by done.
    rewrite map_map. f_equal. clear Hd.
    induction Hclean as [|ws rest Hws _ IH]; [done|].
    simpl. by rewrite split_sentence_line, IH.
  - simpl. by rewrite Hname.
Qed.

Lemma MySentences_reads_one_sentence_per_line_witness :
  let fs : filesystem :=
    {[ "./data/" := [("all.txt", File (one_sentence_per_line sentences0))] ]} in
  MySentences.__iter__ (MySentences.__init__ "./data/") fs = (sentences0, Ok tt).
Proof.
  intros fs.
  apply (MySentences_reads_one_sentence_per_line fs "./data/" "all.txt" sentences0);
    [done | reflexivity | reflexivity | repeat constructor].
Defined.

(** ** The toy-data cell on a directory that is not fresh *)

Section ToyDataAgain.

Implicit Types (order : listing) (d : directory) (fs : filesystem).

Lemma all_files_permutation (d1 d2 : directory) :
  d1 ≡ₚ d2 -> all_files d1 = true -> all_files d2 = true.
Proof.
  unfold all_files. rewrite !forallb_forall. intros Hperm H e He.
  apply H. eapply Permutation_in; [symmetry; exact Hperm | exact He].
Qed.

(** What In [3] leaves in a ./data/ that lists each name once. *)
Lemma toy_directory_lookup order (s1 s2 : list string) d :
  NoDup (d.*1) ->
  let d' := toy_directory order s1 s2 d in
  lookup_entry "f1.txt" d' = Some (File (text_of_lines s1))
  /\ lookup_entry "f2.txt" d' = Some (File (text_of_lines s2))
  /\ (forall n, n <> "f1.txt" -> n <> "f2.txt" -> lookup_entry n d' = lookup_entry n d)
  /\ NoDup (d'.*1).
Proof.
  intros Hnd d'. unfold d', toy_directory.
  set (d1 := set_entry "f1.txt" (File (text_of_lines s1)) (opened order "f1.txt" d)).
  assert (Hnd1 : NoDup (d1.*1)) by by apply NoDup_filled.
  split; [|split; [|split]].
  - rewrite lookup_filled_ne by done. apply lookup_set_entry.
  - apply lookup_set_entry.
  - intros n Hn1 Hn2. unfold d1. by rewrite !lookup_filled_ne.
  - by apply NoDup_filled.
Qed.

Lemma toy_directory_names order (s1 s2 : list string) d :
  NoDup (d.*1) ->
  let d' := toy_directory order s1 s2 d in
  d'.*1 ≡ₚ d.*1 ++ List.filter (fun n => negb (among n (d.*1))) ["f1.txt"; "f2.txt"]
  /\ (among "f1.txt" (d.*1) = true -> among "f2.txt" (d.*1) = true -> d'.*1 = d.*1).
Proof.
  intros Hnd d'. unfold d', toy_directory.
  set (d1 := set_entry "f1.txt" (File (text_of_lines s1)) (opened order "f1.txt" d)).
  destruct (filled_names order "f1.txt" (File (text_of_lines s1)) d) as [Hp1 He1].
  destruct (filled_names order "f2.txt" (File (text_of_lines s2)) d1) as [Hp2 He2].
  fold d1 in Hp1, He1.
  assert (Hsame : among "f2.txt" (d1.*1) = among "f2.txt" (d.*1)).
  { rewrite !among_names. unfold d1. by rewrite lookup_filled_ne. }
  rewrite Hsame in Hp2, He2. split.
  - rewrite Hp2, Hp1, <- app_assoc. simpl List.filter.
    destruct (among "f1.txt" (d.*1)), (among "f2.txt" (d.*1)); done.
  - intros H1 H2. by rewrite He2, He1.
Qed.

Lemma toy_directory_again order (s1 s2 : list string) d :
  lookup_entry "f1.txt" d = Some (File (text_of_lines s1)) ->
  lookup_entry "f2.txt" d = Some (File (text_of_lines s2)) ->
  toy_directory order s1 s2 d = d.
Proof.
  intros H1 H2. unfold toy_directory. rewrite (filled_again order "f1.txt") by done.
  by apply filled_again.
Qed.

Lemma toy_directory_new order (s1 s2 : list string) d :
  NoDup (d.*1) ->
  lookup_entry "f1.txt" d = None ->
  lookup_entry "f2.txt" d = None ->
  toy_directory order s1 s2 d
  ≡ₚ ("f2.txt", File (text_of_lines s2)) :: ("f1.txt", File (text_of_lines s1)) :: d.
Proof.
  intros Hnd H1 H2. unfold toy_directory.
  rewrite filled_new.
  - constructor. by apply filled_new.
  - by rewrite lookup_filled_ne.
Qed.

End ToyDataAgain.

(** X9.  Run on a ./data/ that already exists, In [3] raises nothing and
    leaves f1.txt and f2.txt holding the words of the first two sentences,
    whatever they held; every other entry of the directory is as before and
    other directories are untouched.  The directory lists the names it
    listed plus those of the files that are new, in the order the file
    system chooses; where both files existed the listing is unchanged.  A
    second run changes nothing. *)
Theorem toy_data_overwrites_in_place
    (order : listing) (fs : filesystem) (d : directory)
    (s1 s2 : list string) (more : list (list string)) :
  fs !! "./data/" = Some d ->
  wf_directory d = true ->
  lookup_entry "f1.txt" d <> Some Subdir ->
  lookup_entry "f2.txt" d <> Some Subdir ->
  exists d',
    write_toy_data order (s1 :: s2 :: more) fs = (Ok tt, <["./data/" := d']> fs)
    /\ lookup_entry "f1.txt" d' = Some (File (text_of_lines s1))
    /\ lookup_entry "f2.txt" d' = Some (File (text_of_lines s2))
    /\ (forall n, n <> "f1.txt" -> n <> "f2.txt" -> lookup_entry n d' = lookup_entry n d)
    /\ d'.*1 ≡ₚ d.*1 ++ List.filter (fun n => negb (among n (d.*1))) ["f1.txt"; "f2.txt"]
    /\ (among "f1.txt" (d.*1) = true -> among "f2.txt" (d.*1) = true -> d'.*1 = d.*1)
    /\ wf_directory d' = true
    /\ write_toy_data order (s1 :: s2 :: more) (<["./data/" := d']> fs)
       = (Ok tt, <["./data/" := d']> fs).
Proof.
  intros Hd Hwf H1 H2.
  pose proof (wf_directory_NoDup d Hwf) as Hnd.
  destruct (toy_directory_lookup order s1 s2 d Hnd) as (Hf1 & Hf2 & Hother & Hnd').
  destruct (toy_directory_names order s1 s2 d Hnd) as (Hnames & Hsame).
  exists (toy_directory order s1 s2 d). split.
  { rewrite write_toy_data_loop by by apply (exists_in_data_dir fs d).
    by apply toy_data_loop_run. }
  split; [exact Hf1|]. split; [exact Hf2|]. split; [exact Hother|].
  split; [exact Hnames|]. split; [exact Hsame|]. split.
  { apply wf_directory_spec. split; [|exact Hnd'].
    rewrite Hnames. apply Forall_app. split; [by apply wf_directory_spec in Hwf as [? _]|].
    simpl List.filter.
    destruct (among "f1.txt" (d.*1)), (among "f2.txt" (d.*1)); repeat constructor. }
  rewrite write_toy_data_loop
    by (apply (exists_in_data_dir _ (toy_directory order s1 s2 d)), lookup_insert_eq).
  rewrite (toy_data_loop_run order _ (toy_directory order s1 s2 d));
    [| apply lookup_insert_eq | exact Hnd' | congruence | congruence].
  by rewrite insert_insert_eq, toy_directory_again.
Qed.

Lemma toy_data_overwrites_in_place_witness :
  let fs : filesystem :=
    {[ "./data/" := [("f2.txt", File "stale"); ("notes", File "keep me")] ]} in
  exists d',
    write_toy_data newest_first sentences0 fs = (Ok tt, <["./data/" := d']> fs)
    /\ lookup_entry "f1.txt" d' = Some (File (text_of_lines ["first"; "sentence"]))
    /\ lookup_entry "f2.txt" d' = Some (File (text_of_lines ["second"; "sentence"]))
    /\ lookup_entry "notes" d' = Some (File "keep me")
    /\ d'.*1 ≡ₚ ["f2.txt"; "notes"; "f1.txt"].
Proof.
  intros fs.
  destruct (toy_data_overwrites_in_place newest_first fs
              [("f2.txt", File "stale"); ("notes", File "keep me")]
              ["first"; "sentence"] ["second"; "sentence"] [])
    as (d' & Hrun & Hf1 & Hf2 & Hother & Hnames & _);
    [reflexivity | reflexivity | done | done |].
  exists d'. split; [exact Hrun|]. split; [exact Hf1|]. split; [exact Hf2|]. split.
  - rewrite Hother by done. reflexivity.
  - exact Hnames.
Defined.

(** X10.  In [3] does not empty ./data/: files that were there before, under
    other names, stay, and [MySentences('./data/')] yields their sentences
    too, along with those of the toy data: each file is read whole, the
    files in the order the file system lists them. *)
Theorem stale_files_are_read_too
    (order : listing) (fs : filesystem) (d : directory)
    (s1 s2 : list string) (more : list (list string)) :
  fs !! "./data/" = Some d ->
  wf_directory d = true ->
  all_files d = true ->
  lookup_entry "f1.txt" d = None ->
  lookup_entry "f2.txt" d = None ->
  Forall (fun w => clean_word w = true) s1 ->
  Forall (fun w => clean_word w = true) s2 ->
  exists d' yielded,
    (write_toy_data order (s1 :: s2 :: more) fs).2 !! "./data/" = Some d'
    /\ d' ≡ₚ d ++ written_directory s1 s2
    /\ ((write_toy_data order (s1 :: s2 :: more) ;;
         list_ (MySentences.__iter__ (MySentences.__init__ "./data/")))%io fs).1
       = Ok yielded
    /\ yielded = sentences_in_order d'
    /\ yielded ≡ₚ sentences_in_order d ++ map (fun w => [w]) (s1 ++ s2).
Proof.
  intros Hd Hwf Hfiles H1 H2 Hs1 Hs2.
  pose proof (wf_directory_NoDup d Hwf) as Hnd.
  pose proof (toy_directory_new order s1 s2 d Hnd H1 H2) as Hnew.
  set (d' := toy_directory order s1 s2 d) in *.
  assert (Hrun : write_toy_data order (s1 :: s2 :: more) fs
                 = (Ok tt, <["./data/" := d']> fs)).
  { rewrite write_toy_data_loop by by apply (exists_in_data_dir fs d).
    apply toy_data_loop_run; [done | done | congruence | congruence]. }
  assert (Hperm : d' ≡ₚ d ++ written_directory s1 s2).
  { rewrite Hnew. unfold written_directory.
    rewrite (Permutation_app_comm d). simpl. apply perm_swap. }
  assert (Hwf' : wf_directory d' = true).
  { apply (wf_directory_perm _ _ (Permutation_sym Hnew)). simpl.
    rewrite H1, H2, Hwf. reflexivity. }
  assert (Hfiles' : all_files d' = true).
  { apply (all_files_permutation _ _ (Permutation_sym Hnew)). simpl. exact Hfiles. }
  exists d', (sentences_in_order d').
  rewrite Hrun. cbn [snd]. split; [apply lookup_insert_eq|]. split; [exact Hperm|].
  split; [|split; [reflexivity|]].
  - unfold io_bind. rewrite Hrun. unfold list_.
    rewrite (MySentences_iter_trace _ "./data/" d');
      [ | done | apply lookup_insert_eq | exact Hwf'].
    by rewrite iter_trace_all_files.
  - unfold sentences_in_order at 1. rewrite (Permutation_flat_map _ Hperm).
    fold (sentences_in_order (d ++ written_directory s1 s2)).
    rewrite sentences_in_order_app. unfold sentences_in_order at 2. simpl.
    rewrite !split_readlines_text by done.
    by rewrite app_nil_r, map_app.
Qed.

Lemma stale_files_are_read_too_witness :
  let fs : filesystem := {[ "./data/" := [("old.txt", File ("Stale line" +:+ nl))] ]} in
  exists yielded,
    ((write_toy_data newest_first sentences0 ;;
      list_ (MySentences.__iter__ (MySentences.__init__ "./data/")))%io fs).1
    = Ok yielded
    /\ yielded ≡ₚ [["Stale"; "line"]; ["first"]; ["sentence"]; ["second"]; ["sentence"]].
Proof.
  intros fs.
  destruct (stale_files_are_read_too newest_first fs
              [("old.txt", File ("Stale line" +:+ nl))]
              ["first"; "sentence"] ["second"; "sentence"] [])
    as (d' & yielded & _ & _ & Hrun & _ & Hperm);
    [reflexivity | reflexivity | reflexivity | reflexivity | reflexivity
    | repeat constructor | repeat constructor |].
  exists yielded. split; [exact Hrun | exact Hperm].
Defined.

(** X11.  With fewer sentences than file names, In [3] on a fresh ./data/
    raises [IndexError] from [sentences[i]], but only after opening the file
    of that index: with no sentence ./data/ holds f1.txt alone, empty; with
    one sentence it holds f1.txt with the words of the sentence and f2.txt,
    empty, in the order the file system lists them. *)
Theorem toy_data_too_few_sentences
    (order : listing) (fs : filesystem) (s1 : list string) :
  fresh_data fs ->
  (write_toy_data order [] fs).1 = Raised IndexError
  /\ (write_toy_data order [] fs).2 !! "./data/" = Some [("f1.txt", File EmptyString)]
  /\ (write_toy_data order [s1] fs).1 = Raised IndexError
  /\ exists d,
       (write_toy_data order [s1] fs).2 !! "./data/" = Some d
       /\ d = arrange order [("f1.txt", File (text_of_lines s1));
                             ("f2.txt", File EmptyString)]
       /\ (d = [("f1.txt", File (text_of_lines s1)); ("f2.txt", File EmptyString)]
           \/ d = [("f2.txt", File EmptyString); ("f1.txt", File (text_of_lines s1))]).
Proof.
  intros Hfresh.
  destruct (fresh_start order fs Hfresh) as (fs1 & Hfs1 & Hstart).
  assert (Hnone : toy_data_loop order [] fs1
                  = (Raised IndexError, <["./data/" := [("f1.txt", File EmptyString)]]> fs1)).
  { unfold toy_data_loop.
    change (enumerate filenames) with [(0, "./data/f1.txt"); (1, "./data/f2.txt")].
    simpl io_for. unfold io_bind at 1.
    rewrite (open_without_sentence order fs1 [] 0 "./data/f1.txt" "./data/" "f1.txt" []);
      try done.
    change (dir_of "./data/") with "./data/".
    unfold opened. cbn [lookup_entry]. by rewrite add_entry_first. }
  rewrite !Hstart, Hnone, (toy_data_loop_one order fs1 s1 Hfs1). cbn [fst snd].
  split; [done|]. split; [apply lookup_insert_eq|]. split; [done|].
  eexists. split; [apply lookup_insert_eq|]. split; [reflexivity|].
  apply Permutation_length_2_inv. symmetry. apply arrange_perm.
Qed.

Lemma toy_data_too_few_sentences_witness :
  write_toy_data newest_first [["first"; "sentence"]] ∅
  = (Raised IndexError,
     {[ "./data/" := [("f2.txt", File EmptyString);
                      ("f1.txt", File (text_of_lines ["first"; "sentence"]))] ]}).
Proof.
  destruct (toy_data_too_few_sentences newest_first ∅ ["first"; "sentence"])
    as (_ & _ & Hraise & d & Hd & _); [right; split; reflexivity|].
  destruct (write_toy_data newest_first [["first"; "sentence"]] ∅) as [r fs'] eqn:E.
  cbn [fst] in Hraise. subst r. clear Hd.
  vm_compute in E. injection E as <-. reflexivity.
Defined.

Section ReadBack.

Lemma split_from_app_blank acc (s t : string) :
  blank t -> Py.split_from acc (s +:+ t) = Py.split_from acc s.
Proof.
  intros Ht. revert acc. induction s as [|c s IH]; intros acc.
  - change (EmptyString +:+ t) with t. by rewrite split_from_blank.
  - rewrite string_app_cons. simpl. destruct (Py.isspace c); by rewrite IH.
Qed.

Lemma no_LF_chars (w : string) :
  no_LF w = true -> Forall (fun c => Ascii.eqb c Py.LF = false) (Py.chars w).
Proof.
  unfold no_LF. rewrite forallb_forall, Forall_forall. intros H c Hc.
  apply negb_true_iff, H. by apply list_elem_of_In.
Qed.

Lemma readlines_text_no_LF (words : list string) :
  Forall (fun w => no_LF w = true) words ->
  Py.readlines (text_of_lines words) = map (fun w => w +:+ nl) words.
Proof.
  unfold Py.readlines. induction words as [|w words IH]; intros Hw; [done|].
  inversion Hw as [|? ? Hc Hws]; subst. simpl.
  rewrite lines_from_nolf by by apply no_LF_chars.
  rewrite app_nil_r. unfold nl at 1. rewrite string_app_cons. simpl.
  change (EmptyString +:+ text_of_lines words) with (text_of_lines words).
  rewrite IH by done. f_equal.
  change (Py.of_rev (rev (Py.chars w)) (String Py.LF EmptyString))
    with (Py.of_rev (rev (Py.chars w)) nl).
  by rewrite of_rev_chars.
Qed.

Lemma split_readlines_text_no_LF (words : list string) :
  Forall (fun w => no_LF w = true) words ->
  map Py.split (Py.readlines (text_of_lines words)) = map Py.split words.
Proof.
  intros Hw. rewrite readlines_text_no_LF by done. rewrite map_map.
  apply map_ext. intros w. apply split_from_app_blank. by repeat constructor.
Qed.

End ReadBack.

(** X12.  What comes back from the toy data in general: for words that
    hold no line feed, iterating [MySentences('./data/')] after In [3] on a
    fresh ./data/ yields, for every word written, the whitespace split of
    that word, so an empty word comes back as an empty sentence and a word
    with inner blanks as a sentence of several tokens; the words of one
    file come first, then those of the other, f1.txt first where the file
    system lists it first. *)
Theorem toy_data_read_back_splits_words
    (order : listing) (fs : filesystem) (s1 s2 : list string) (more : list (list string)) :
  fresh_data fs ->
  Forall (fun w => no_LF w = true) s1 ->
  Forall (fun w => no_LF w = true) s2 ->
  exists yielded,
    ((write_toy_data order (s1 :: s2 :: more) ;;
      list_ (MySentences.__iter__ (MySentences.__init__ "./data/")))%io fs).1
    = Ok yielded
    /\ (yielded = map Py.split (s1 ++ s2) \/ yielded = map Py.split (s2 ++ s1))
    /\ ((arrange order [("f1.txt", File (text_of_lines s1));
                        ("f2.txt", File EmptyString)]).*1 = ["f1.txt"; "f2.txt"] ->
        yielded = map Py.split (s1 ++ s2)).
Proof.
  intros Hfresh H1 H2.
  destruct (read_back_fresh order fs s1 s2 more Hfresh) as (Hok & _ & Hiter).
  unfold io_bind.
  destruct (write_toy_data order (s1 :: s2 :: more) fs) as [r fs'].
  cbn [fst snd] in *. subst r. unfold list_.
  rewrite !split_readlines_text_no_LF in Hiter by done. rewrite <- !map_app in Hiter.
  destruct Hiter as [[Hdir Hiter] | [Hdir Hiter]]; rewrite Hiter; cbn [fst];
    eexists; (split; [reflexivity|]); (split; [by auto|]); [done|].
  intros Hnames. apply (toy_directory_f1_first order s1 s2) in Hnames.
  rewrite Hnames in Hdir. discriminate Hdir.
Qed.

Lemma toy_data_read_back_splits_words_witness :
  ((write_toy_data creation_order [["New York"; ""]; [" x "]] ;;
    list_ (MySentences.__iter__ (MySentences.__init__ "./data/")))%io ∅).1
  = Ok [["New"; "York"]; []; ["x"]].
Proof.
  destruct (toy_data_read_back_splits_words creation_order ∅ ["New York"; ""] [" x "] [])
    as (yielded & Hrun & _ & Hfirst);
    [right; split; reflexivity | repeat constructor | repeat constructor |].
  rewrite Hrun, Hfirst; reflexivity.
Defined.

(** X16.  Where ./data is a regular file, In [3] writes nothing:
    [os.path.exists('./data/')] is false, [os.makedirs('./data/')] raises
    [OSError], and the cells that follow are not reached with the toy data
    written. *)
Theorem toy_data_blocked_by_regular_file
    (order : listing) (fs : filesystem) (d : directory) (content : string)
    (sentences : list (list string)) :
  fs !! "./data/" = None ->
  fs !! "./" = Some d ->
  lookup_entry "data" d = Some (File content) ->
  os.path_exists "./data/" fs = (Ok false, fs)
  /\ os.makedirs order "./data/" fs = (Raised OSError, fs)
  /\ write_toy_data order sentences fs = (Raised OSError, fs)
  /\ In_2_to_6 order fs = (Raised OSError, fs).
Proof.
  intros Hnone Hparent Hdata.
  assert (Hentry : os.entry_at fs "./data/" = Some (File content)).
  { by rewrite entry_at_data, Hparent. }
  assert (Hexists : os.exists_in fs "./data/" = false).
  { by rewrite exists_in_data, Hnone, Hentry. }
  assert (Hmk : os.makedirs order "./data/" fs = (Raised OSError, fs)).
  { unfold os.makedirs. cbv beta iota. change (as_dir "./data/") with "./data/".
    by rewrite Hnone, Hentry. }
  assert (Hcell : forall sentences, write_toy_data order sentences fs = (Raised OSError, fs)).
  { intros sentences'. unfold write_toy_data.
    unfold io_bind at 1. unfold os.path_exists. rewrite Hexists. cbn [negb].
    unfold io_bind at 1. by rewrite Hmk. }
  split; [unfold os.path_exists; by rewrite Hexists|].
  split; [exact Hmk|]. split; [apply Hcell|].
  rewrite In_2_to_6_rebinds. unfold In_3_to_6.
  unfold io_bind at 1. by rewrite Hcell.
Qed.

Lemma toy_data_blocked_by_regular_file_witness :
  let fs : filesystem := {[ "./" := [("data", File "x")] ]} in
  write_toy_data creation_order sentences0 fs = (Raised OSError, fs).
Proof.
  intros fs.
  destruct (toy_data_blocked_by_regular_file creation_order fs [("data", File "x")] "x"
              sentences0) as (_ & _ & H & _); [reflexivity | reflexivity | reflexivity |].
  exact H.
Defined.

(** X13.  The corpus path of In [10]: for any installation directory of the
    library, [lee_train_file] is that directory followed by
    /test/test_data/lee_background.cor; it is what [os.path.join] makes of
    [test_data_dir] and the file name; and [open(lee_train_file)], which
    [MyText] calls, reads the entry lee_background.cor of the directory
    [test_data_dir], failing when the directory or the entry is missing. *)
Theorem lee_train_file_in_test_data_dir (gensim_path : string) (fs : filesystem) :
  lee_train_file gensim_path = gensim_path +:+ "/test/test_data/lee_background.cor"
  /\ os.path_join (test_data_dir gensim_path) "lee_background.cor"
     = lee_train_file gensim_path
  /\ split_path (lee_train_file gensim_path)
     = (test_data_dir gensim_path, "lee_background.cor")
  /\ file_content fs (lee_train_file gensim_path)
     = match fs !! test_data_dir gensim_path with
       | Some d => match lookup_entry "lee_background.cor" d with
                   | Some (File content) => Some content
                   | _ => None
                   end
       | None => None
       end.
Proof.
  assert (Hdir : test_data_dir gensim_path = gensim_path +:+ "/test/test_data/").
  { unfold test_data_dir, str_join. simpl. by rewrite !string_app_assoc. }
  assert (Hslash : Py.endswith_slash (test_data_dir gensim_path) = true).
  { unfold test_data_dir. apply endswith_slash_app_slash. }
  assert (Hne : test_data_dir gensim_path <> EmptyString).
  { intros E. rewrite E in Hslash. discriminate Hslash. }
  assert (Has : as_dir (test_data_dir gensim_path) = test_data_dir gensim_path).
  { unfold as_dir. by rewrite Hslash. }
  assert (Hjoin : os.path_join (test_data_dir gensim_path) "lee_background.cor"
                  = lee_train_file gensim_path).
  { rewrite path_join_as_dir by done. by rewrite Has. }
  assert (Hsplit : split_path (lee_train_file gensim_path)
                   = (test_data_dir gensim_path, "lee_background.cor")).
  { rewrite <- Hjoin, split_path_join by done. by rewrite Has. }
  split.
  { unfold lee_train_file. rewrite Hdir. by rewrite string_app_assoc. }
  split; [exact Hjoin|]. split; [exact Hsplit|].
  unfold file_content. rewrite Hsplit.
  rewrite <- Has at 1. by rewrite dir_of_as_dir, Has.
Qed.

(** X14.  Run in the order of the text, the cells never read a name before
    it is bound: every name the code reads is a builtin, a parameter, a loop
    or [with] variable, or was bound by an earlier statement.  The order
    matters: of the code cells, only the first, which imports the library,
    reads nothing that an earlier cell bound. *)
Theorem names_are_bound_before_read :
  unresolved_names notebook = []
  /\ List.filter (fun c => match c with
                           | Code _ (_ :: _) => is_empty (unresolved_block (code_of c) builtins)
                           | _ => false
                           end) notebook
     = [cell_03]
  /\ unresolved_block (code_of cell_16) builtins = ["lee_train_file"]
  /\ unresolved_block (code_of cell_07) builtins = ["os"; "os"].
Proof. repeat split; vm_compute; reflexivity. Qed.

(** X15.  The order in which [os.listdir] reports the files changes the
    order of what [MySentences] yields and nothing else: two listings of the
    same files give the same sentences and the same tokens, each as many
    times. *)
Theorem listing_order_only_reorders
    (fs1 fs2 : filesystem) (dirname : string) (d1 d2 : directory) :
  dirname <> EmptyString ->
  fs1 !! as_dir dirname = Some d1 ->
  fs2 !! as_dir dirname = Some d2 ->
  wf_directory d1 = true ->
  wf_directory d2 = true ->
  all_files d1 = true ->
  d1 ≡ₚ d2 ->
  let yielded1 := (MySentences.__iter__ (MySentences.__init__ dirname) fs1).1 in
  let yielded2 := (MySentences.__iter__ (MySentences.__init__ dirname) fs2).1 in
  yielded1 ≡ₚ yielded2 /\ concat yielded1 ≡ₚ concat yielded2.
Proof.
  intros Hp H1 H2 Hwf1 Hwf2 Hfiles Hperm yielded1 yielded2.
  assert (Hy : yielded1 ≡ₚ yielded2).
  { unfold yielded1, yielded2.
    rewrite (MySentences_iter_trace fs1 dirname d1), (MySentences_iter_trace fs2 dirname d2)
      by done.
    rewrite !iter_trace_all_files by (done || by eapply all_files_permutation).
    simpl. unfold sentences_in_order. by apply Permutation_flat_map. }
  split; [exact Hy|].
  assert (Hc : forall l : list (list string), concat l = flat_map id l).
  { intros l. by rewrite flat_map_concat_map, List.map_id. }
  rewrite !Hc. by apply Permutation_flat_map.
Qed.

Lemma listing_order_only_reorders_witness :
  let d : directory := [("a", File ("one" +:+ nl)); ("b", File ("two" +:+ nl))] in
  (MySentences.__iter__ (MySentences.__init__ "./data/") {[ "./data/" := d ]}).1
  ≡ₚ (MySentences.__iter__ (MySentences.__init__ "./data/") {[ "./data/" := reverse d ]}).1.
Proof.
  intros d.
  apply (listing_order_only_reorders {[ "./data/" := d ]} {[ "./data/" := reverse d ]}
           "./data/" d (reverse d));
    [done | reflexivity | reflexivity | reflexivity | reflexivity | reflexivity |].
  apply Permutation_swap.
Defined.
